(* ===== verification/_CoqProject ===== *)
-Q . S2P
Prelude.v
PyStr.v
HumanSize.v
Glob.v
Fs.v
FsFacts.v
FsRename.v
PyMonad.v
PyFacts.v
Sample.v
Shutil.v
ShutilFacts.v
ShutilFuel.v
Rmtree.v
Copytree.v
DateTime.v
Discovery.v
Organizer.v
OrganizerFacts.v
MoveFacts.v
Menu.v
Main.v
EndToEnd.v
Scenarios.v
