(* ===== verification/Prelude.v ===== *)
(** * CleanMyMac screenshot organizer: the verification development

    The program (src/main.py) is one Python script for macOS.  At import
    it refuses any system other than Darwin (lines 7-8).  [main] (lines
    102-112) runs [find_screenshots] (lines 10-26), which lists the
    entries named [Screenshot*.png] of [~/Desktop], [~/Downloads] and
    [~/Pictures], and hands them to [organize_screenshots] (lines 43-100).
    That prints a summary (the count, [human_size] of the total from
    [get_size_ext], lines 28-41, and the sorted suffixes), reads a menu
    choice and moves the files into [~/Pictures/Screenshots/YYYY-MM]
    folders, deletes them after a confirmation, lists them or cancels.
    [main] turns [KeyboardInterrupt] and any other exception into a
    message and exit status 1.

    ** The model, file by file

    - [Prelude] (this file): the [outcome] type of a computation that
      returns or raises, the hint databases [pyfs] and [pyfs_rw], the
      tactics [invc] and [case_outcome], the notation [p </> n] for the
      path [p / n] (scope [py_scope]), and list lemmas the components share.
    - [PyStr]: [str(int)], [str.lower], [startswith]/[endswith],
      [str.join], [str.rfind], zero padding and [repr], on Rocq strings.
    - [HumanSize] (Module [HumanSize]): [human_size], the unit loop
      [hs_loop] with exact rational magnitudes and the [.2f] rounding.
    - [Glob] (Module [Glob]): the glob matcher of [Path.glob] and the
      spec's prefix/suffix predicate [is_screenshot_name].
    - [Fs] (Module [Posix]): the disk as a finite map ([gmap]) from paths
      to nodes (regular file with content, size and [st_ctime], or
      directory with its write bit); the system calls [stat], [mkdir],
      [unlink], [rmdir], [rename] (which, as on macOS, also needs write
      permission on a directory that changes parent), writing a file,
      with macOS errno values
      and [OSError] messages; the well-formedness invariant [fs_wf] (every
      entry's parent is a directory, the root is a directory).
    - [FsFacts]: that [mkdir], [unlink], [rmdir], writing a file and
      renaming a file keep [fs_wf], and the behaviour of each call on each
      branch that the components use.
    - [FsRename]: the entries of a renamed directory tree ([move_tree])
      and that every rename, of a directory too, keeps [fs_wf].
    - [PyMonad]: the state and exception monad [PyM] over a [world]
      (disk, pending input lines, standard output and error, clock); an
      exception raised after a change to the disk keeps the change, as in
      Python.  [print], [input] (end of file raises [EOFError], Ctrl-C
      raises [KeyboardInterrupt]), [try]/[except] as [try_except] with the
      class test of the clause, and the environment [env] (platform, home
      directory, time-zone offset).
    - [PyFacts]: the type classes [Preserves R m] (running [m] relates the
      world before and after by [R]) and [Raises P m] (every exception [m]
      lets escape satisfies [P]), with instances for every combinator and
      system call, so that instance search shows read-only code read-only
      and [shutil.move] raising only [Exception]s; and the unfolding
      equations of the combinators ([pym_run]).
    - [Sample]: a sample home directory for the witnesses.
    - [Shutil] (Module [Shutil]): [Path.mkdir] with [parents]/[exist_ok]
      and [shutil.move] of CPython 3.12: rename first; on [OSError] the
      fallback [copy2]+[unlink] or [copytree]+[rmtree].  [copytree_go]
      and [rmtree_go] recurse on fuel [tree_fuel fs], one more than the
      longest path of the disk, which bounds the depth of any directory
      walk (a walk below [p] visits paths strictly longer than [p]).
    - [ShutilFacts]: [shutil.move] of a regular file is one rename;
      [shutil.move] raises only [Exception]s and keeps the tree well
      formed (instances of [Raises] and [Preserves]); every relation that
      all system calls preserve is preserved by [Path.mkdir] and
      [shutil.move] (Section [SyscallRelation]).
    - [ShutilFuel] (Module [ShutilFuel]): the fuel [tree_fuel] of the
      [rmtree] and [copytree] walks is never exhausted, and the three ways
      [shutil.move] of a directory can go ([shutil_move_dir_cases]): it
      raises with the disk unchanged, renames, or copies to a target
      outside the source tree and then removes the source.
    - [Rmtree] (Module [Rmtree]): [shutil.rmtree] removes exactly the
      tree it is given; the walk of one directory is a loop over its
      children with the invariant [without d S fs] (the disk once the
      trees of the children [S] are gone).
    - [Copytree] (Module [Copytree]): [shutil.copytree] copies exactly
      the tree it is given, to a free target outside it; the loop over
      the children of one directory keeps [copy_state] (the target made
      and the trees of the children done so far copied).
    - [DateTime] (Module [DateTime]): [datetime.fromtimestamp] on integer
      seconds with the environment's time-zone offset, the proleptic
      Gregorian calendar ([civil_from_days]), the year range check, and
      [strftime("%Y-%m")].
    - [Discovery] (Module [Discovery]): [find_screenshots].
    - [Organizer] (Module [Organizer], a Section over the environment):
      [get_size_ext], the summary, the menu ([dispatch]) and the four
      actions, one definition per loop body ([move_one], [delete_one],
      [list_one]) and per action.
    - [OrganizerFacts]: what the organizer does to the disk, the reference
      delete loop [delete_spec], and where the move loop can stop.
    - [MoveFacts] (Module [MoveFacts]): the reference move loop
      [move_spec] (one [move_step] per file) and what the move loop does
      when every file can be moved.
    - [Menu] (Module [Menu]): the spec's menu state machine as the step
      relation [menu_step] over the pending input, its evaluator
      [menu_run_from], and the refinement of the machine by the organizer.
    - [Main] (Module [Main]): [main], the platform gate and the exit
      status ([run_script]), [sys.exit(main())] ([script_entry]).
    - [EndToEnd] (Module [EndToEnd]): one whole run of the script that
      moves every screenshot, through gate, discovery, menu and move loop.
    - [Scenarios]: whole runs of [run_script] on concrete disks and inputs.

    ** What is proved

    - Safety of the organizer: the disk changes only after the answer
      "1", or "2" and a confirmation whose [lower()] is "yes" (the
      Preserves instances carry the read-only parts).
    - Refinement of the spec's menu machine by [organize_screenshots]:
      after the summary and prompts the organizer runs exactly the action
      the machine reaches on the same input (the machine is shown
      deterministic and total by rule induction).
    - Refinement of the delete action by the per-file reference loop
      [delete_spec] (the report-list reading the spec asks for), and the
      effect of the delete loop of [delete_one] on any disk: it never
      raises, removes every listed file it may remove, leaves every other
      path alone and prints one report line per file.
    - Failure isolation of the move loop: it stops only when [Path.stat],
      [datetime.fromtimestamp] or the month folder's [mkdir] raise, the
      steps the code leaves outside its [try].
    - Progress of the move loop: when it completes, the output has gained
      exactly one "Moved:" or "Error moving" line per file, in order.
    - The whole script: answering "1" on macOS, with every discovered
      screenshot movable to a distinct target, [python main.py] exits 0
      with the disk of [move_spec] and one "Moved:" line per screenshot
      ending the output ([run_script_moves_all]).
    - Refinement of the move loop by the per-file reference loop
      [move_spec] when every file is [movable] and the targets are
      distinct: every file ends at [Screenshots/YYYY-MM/<name>] with its
      contents, month folders are directories, nothing else changes.
    - Moving one file: the month folder, the rename, the report line; and
      [shutil.move] of a file, or of a directory to a new name, as one
      [os.rename].
    - Discovery: exactly the matching entries of existing location
      directories, without duplicates, without raising or writing; the
      glob matcher agrees with the prefix/suffix predicate.
    - The invariant [fs_wf] is preserved by every system call, rename of
      a directory included, and so by every run of the whole script (a
      lemma the other theorems use: it is a property of the disk model).
    - The fuel of the [rmtree] and [copytree] walks never cuts them short
      (for [copytree], when the target lies outside the source tree,
      which the guards of [shutil.move] ensure on a well-formed disk);
      and the two walks do their work: [shutil.rmtree] of a writable
      tree removes exactly that tree ([rmtree_removes_tree]), and
      [shutil.copytree] to a free target outside the source copies
      exactly the source tree ([copytree_copies_tree]).
    - [get_size_ext] is the spec's aggregate (sum of sizes, set of
      suffixes); month folder names are [YYYY-MM] and read back as the
      local year and month of the timestamp.
    - [human_size]: exact results below 1024, the spec's examples, the
      rounding error bound, and two departures from the spec: [k] TiB
      print as "k.00 GB", and sizes from 1023.995 to 1024 of a unit print
      as "1024.00" of it.
    - [main]: exit status 0 or 1 and the handlers' output; the platform
      gate stops before any other effect.
    - Where the code departs from the spec, for every disk and input
      where it happens: two screenshots with the same target are both
      reported moved and the first one's contents are lost; a regular
      file where a month folder should be aborts the whole move batch; a
      screenshot in a read-only folder is reported as not moved but
      leaves a copy in the month folder; an entry that is a directory is
      refused by the delete; any confirmation ending in a space cancels.
      [Scenarios] replays these on the sample home as whole runs.

    ** Bounds and choices

    Sizes are Python integers ([Z]); [human_size] is exact for sizes
    below 2^53 (true division by 1024 of such a double is exact), which
    covers any real file.  [st_ctime] is an integer number of seconds.
    Strings are byte strings; the arrow of the "Moved:" line is its UTF-8
    bytes.  [rmtree_go] and [copytree_go] recurse on the fuel
    [tree_fuel fs], one more than the longest path of the disk.  This is
    proved enough for both: the walk below [p] only visits paths longer
    than [p]; [rmtree] only removes entries, and [copytree] only writes
    keys outside the source tree when its target is outside it, so the
    depth of the tree still to walk never grows.

    ** Not modelled

    Symbolic links, ownership and mode bits other than a directory's
    write permission; case-insensitive names: paths compare byte for
    byte, as on a case-sensitive volume, while the default APFS volume of
    macOS is case-insensitive, so there two screenshots whose names
    differ only in case are one target, and the theorems that ask for
    distinct targets or free names ([run_script_moves_all],
    [move_loop_refines_spec], [move_loop_effect]) hold for such a volume
    only when its names are also distinct without regard to case; extended attributes and timestamps copied by
    [copy2]/[copystat]; other processes changing the disk while the script
    runs, and a Ctrl-C anywhere but at an input prompt: [PyM] passes the
    world from one step to the next, so nothing can act between two steps
    of a loop (the spec's section 7 interrupt mid-action would need a
    world with a pending-signal counter consulted by every primitive, or
    an interaction-tree semantics); the theorems quantify over the disk
    each action starts from, which covers changes made before it; the
    microseconds of [st_ctime]; [repr] of non-ASCII characters; bracket expressions in
    glob patterns (the program's pattern has none). *)

From Stdlib Require Export ZArith String Ascii Lia.
From stdpp Require Export base list gmap strings sorting.

Declare Scope py_scope.
Delimit Scope py_scope with py.
Open Scope string_scope.

(** [p </> n] is the path [p / n]; paths are kept innermost name first. *)
Notation "p </> n" := (@cons string n p) (at level 40, left associativity, only parsing) : py_scope.
Open Scope py_scope.

(** ** Outcomes of Python code: a value or a raised exception *)

Inductive outcome (E A : Type) : Type :=
  | Ret (a : A)
  | Raise (e : E).
Arguments Ret {E A} a.
Arguments Raise {E A} e.

Definition obind {E A B} (m : outcome E A) (k : A -> outcome E B) : outcome E B :=
  match m with
  | Ret a => k a
  | Raise e => Raise e
  end.

(** [outcome E] is a monad of stdpp: [x ← m; k] binds, [mthrow] raises. *)
#[export] Instance outcome_ret E : MRet (outcome E) := fun A a => Ret a.
#[export] Instance outcome_bind E : MBind (outcome E) := fun A B k m => obind m k.
#[export] Instance outcome_throw E : MThrow E (outcome E) := fun A e => Raise e.

Definition is_ret {E A} (m : outcome E A) : bool :=
  match m with Ret _ => true | Raise _ => false end.

Create HintDb pyfs.
Create Rewrite HintDb pyfs_rw.

Lemma obind_ret {E A B} (a : A) (k : A -> outcome E B) : obind (Ret a) k = k a.
Proof. reflexivity. Qed.
Lemma obind_raise {E A B} (e : E) (k : A -> outcome E B) : obind (Raise e) k = Raise e.
Proof. reflexivity. Qed.
#[export] Hint Rewrite @obind_ret @obind_raise : pyfs_rw.

Lemma obind_Ret_inv {E A B} (m : outcome E A) (k : A -> outcome E B) b :
  obind m k = Ret b -> exists a, m = Ret a /\ k a = Ret b.
Proof. destruct m; simpl; [eauto | discriminate]. Qed.

(** ** Tactics shared by the development *)

Ltac invc H := inversion H; subst; clear H.

(** Case on the outcome scrutinised by a [match] in the goal or a hypothesis. *)
Ltac case_outcome :=
  match goal with
  | |- context [match ?m with Ret _ => _ | Raise _ => _ end] =>
      let E := fresh "E" in destruct m eqn:E
  | H : context [match ?m with Ret _ => _ | Raise _ => _ end] |- _ =>
      let E := fresh "E" in destruct m eqn:E
  end.

(** ** Sums over lists of integers (Python's [sum]) *)

Definition Zsum (l : list Z) : Z := foldr Z.add 0%Z l.

Lemma Zsum_app l1 l2 : Zsum (l1 ++ l2) = (Zsum l1 + Zsum l2)%Z.
Proof. induction l1 as [|x l IH]; simpl; [done|]. unfold Zsum in *. simpl. lia. Qed.

Lemma Zsum_Permutation l1 l2 : l1 ≡ₚ l2 -> Zsum l1 = Zsum l2.
Proof. induction 1; unfold Zsum in *; simpl; lia. Qed.

Lemma Zsum_nonneg l : Forall (fun z => 0 <= z)%Z l -> (0 <= Zsum l)%Z.
Proof. induction 1; unfold Zsum in *; simpl; lia. Qed.
#[export] Hint Resolve Zsum_nonneg : pyfs.

(** ** Lists *)

Section ListLemmas.
Local Open Scope list_scope.

(** The accumulate-and-extend loop [for x in l: if P(x): acc.extend(f(x))]. *)
Lemma foldl_extend {A B} (P : A -> bool) (f : A -> list B) (l : list A) (acc : list B) :
  foldl (fun acc x => if P x then acc ++ f x else acc) acc l
  = acc ++ mjoin ((fun x => if P x then f x else []) <$> l).
Proof.
  induction l as [|x l IH] in acc |- *; simpl; [by rewrite app_nil_r|].
  rewrite IH. destruct (P x); by rewrite ?app_assoc, ?app_nil_r.
Qed.

(** [omap] keeps a list duplicate-free when distinct keys give distinct images. *)
Lemma NoDup_omap_keys {K A B} (f : K * A -> option B) (l : list (K * A)) :
  NoDup l.*1 ->
  (forall kv1 kv2 y, kv1 ∈ l -> kv2 ∈ l -> f kv1 = Some y -> f kv2 = Some y -> kv1.1 = kv2.1) ->
  NoDup (omap f l).
Proof.
  induction l as [|kv l IH]; intros Hnd Hinj; simpl; [constructor|].
  apply NoDup_cons in Hnd as [Hnin Hnd].
  destruct (f kv) as [y|] eqn:Hf.
  - constructor.
    + intros Hy. apply list_elem_of_omap in Hy as (kv' & Hin & Hf').
      apply Hnin. rewrite (Hinj kv kv' y); [| by left | by right | done | done].
      apply list_elem_of_fmap. eauto.
    + apply IH; [done|]. intros. eapply Hinj; eauto; by right.
  - apply IH; [done|]. intros. eapply Hinj; eauto; by right.
Qed.

(** The concatenation of duplicate-free, pairwise disjoint lists indexed by
    a duplicate-free list has no duplicates. *)
Lemma NoDup_join_fmap {A B} (f : A -> list B) (l : list A) :
  NoDup l -> (forall x, NoDup (f x)) ->
  (forall x y b, x <> y -> b ∈ f x -> b ∉ f y) ->
  NoDup (mjoin (f <$> l)).
Proof.
  intros Hl Hf Hdis. induction Hl as [|x l Hx Hl IH]; simpl; [constructor|].
  apply NoDup_app. split_and!; [done| |done].
  intros b Hb Hb'. apply list_elem_of_join in Hb' as (k & Hbk & Hk).
  apply list_elem_of_fmap in Hk as (y & -> & Hy).
  apply (Hdis x y b); [by intros ->|done|done].
Qed.

End ListLemmas.
