(* ===== verification/PyStr.v ===== *)
(** * Python string operations used by the program

    The program's strings are modelled as Rocq [string]s, i.e. byte
    strings; non-ASCII text (the arrow of the "Moved" line) is its UTF-8
    encoding.  This file holds [str(int)] ([str_of_Z]), [str.lower]
    ([py_lower]), [str.startswith]/[str.endswith], [str.join], [str.rfind]
    for one character, zero padding ([zfill]) and [repr] of a string
    ([py_repr]), with the lemmas the components share. *)

From S2P Require Import Prelude.
From Stdlib Require Import DecimalString DecimalN DecimalPos.

(** ** Characters *)

Definition chr (n : nat) : ascii := ascii_of_nat n.
Definition nl : string := String (chr 10) EmptyString.
Definition dquote : ascii := chr 34.
Definition squote : ascii := chr 39.
Definition backslash : ascii := chr 92.

(** ** [str(n)] for Python integers *)

Definition str_of_N (n : N) : string :=
  DecimalString.NilZero.string_of_uint (N.to_uint n).

Definition str_of_Z (z : Z) : string :=
  if (z <? 0)%Z then "-" ++ str_of_N (Z.to_N (- z)) else str_of_N (Z.to_N z).

Definition str_of_nat (n : nat) : string := str_of_N (N.of_nat n).

(** [int(s)] on the digits [str_of_N] produces. *)
Definition parse_N (s : string) : option N :=
  N.of_uint <$> DecimalString.NilZero.uint_of_string s.

(** Zero padding on the left to width [w], as [%02d] and [%04d] do. *)
Fixpoint repeat_char (n : nat) (c : ascii) : string :=
  match n with
  | O => EmptyString
  | S k => String c (repeat_char k c)
  end.

Definition zfill (w : nat) (s : string) : string :=
  repeat_char (w - String.length s) "0" ++ s.

(** ** [str.lower()] (ASCII letters) *)

Definition lower_char (c : ascii) : ascii :=
  let n := nat_of_ascii c in
  if (65 <=? n)%nat && (n <=? 90)%nat then chr (n + 32) else c.

Fixpoint py_lower (s : string) : string :=
  match s with
  | EmptyString => EmptyString
  | String c s' => String (lower_char c) (py_lower s')
  end.

(** ** [str.startswith], [str.endswith] *)

Fixpoint string_rev (s : string) : string :=
  match s with
  | EmptyString => EmptyString
  | String c s' => string_rev s' ++ String c EmptyString
  end.

Definition startswith (p s : string) : bool := String.prefix p s.
Definition endswith (q s : string) : bool := String.prefix (string_rev q) (string_rev s).

(** ** [sep.join(l)] *)

Definition join (sep : string) (l : list string) : string := String.concat sep l.

(** ** [s.rfind(c)] for a one-character needle; [None] stands for [-1]. *)

Fixpoint rfind_char (c : ascii) (s : string) : option nat :=
  match s with
  | EmptyString => None
  | String c' s' =>
      match rfind_char c s' with
      | Some i => Some (S i)
      | None => if Ascii.eqb c c' then Some 0 else None
      end
  end.

(** ** [repr(s)] *)

Definition has_char (c : ascii) (s : string) : bool :=
  bool_decide (c ∈ list_ascii_of_string s).

Definition hex_digit (n : nat) : ascii :=
  if (n <? 10)%nat then chr (48 + n) else chr (87 + n).

Definition repr_char (q c : ascii) : string :=
  let n := nat_of_ascii c in
  if Ascii.eqb c backslash then String backslash (String backslash EmptyString)
  else if Ascii.eqb c q then String backslash (String q EmptyString)
  else if (n =? 9)%nat then String backslash "t"
  else if (n =? 10)%nat then String backslash "n"
  else if (n =? 13)%nat then String backslash "r"
  else if (n <? 32)%nat || (n =? 127)%nat then
    String backslash (String "x" (String (hex_digit (n / 16)%nat) (String (hex_digit (n mod 16)%nat) EmptyString)))
  else String c EmptyString.

Fixpoint repr_body (q : ascii) (s : string) : string :=
  match s with
  | EmptyString => EmptyString
  | String c s' => repr_char q c ++ repr_body q s'
  end.

(** Python delimits with a single quote unless the string holds a single
    quote and no double quote. *)
Definition py_repr (s : string) : string :=
  let q := if has_char squote s && negb (has_char dquote s) then dquote else squote in
  String q (repr_body q s ++ String q EmptyString).

(** ** Lemmas *)

(** stdpp makes [String.append] opaque to [simpl]; these are its equations. *)
Lemma string_app_cons (x : ascii) (a b : string) : String x a ++ b = String x (a ++ b).
Proof. reflexivity. Qed.
Lemma string_app_nil_l (b : string) : "" ++ b = b.
Proof. reflexivity. Qed.
#[export] Hint Rewrite string_app_cons string_app_nil_l : pyfs_rw.

Lemma string_app_assoc (a b c : string) : (a ++ b) ++ c = a ++ (b ++ c).
Proof. induction a as [|x a IH]; autorewrite with pyfs_rw; simpl; [done|by rewrite IH]. Qed.

Lemma string_app_nil_r (a : string) : a ++ "" = a.
Proof. induction a as [|x a IH]; autorewrite with pyfs_rw; simpl; [done|by rewrite IH]. Qed.

Lemma string_rev_app (a b : string) : string_rev (a ++ b) = string_rev b ++ string_rev a.
Proof.
  induction a as [|x a IH]; autorewrite with pyfs_rw; simpl.
  - by rewrite string_app_nil_r.
  - by rewrite IH, string_app_assoc.
Qed.

Lemma string_rev_involutive (s : string) : string_rev (string_rev s) = s.
Proof. induction s as [|x s IH]; simpl; [done|]. by rewrite string_rev_app, IH. Qed.

Lemma prefix_app (p s : string) : String.prefix p (p ++ s) = true.
Proof. induction p as [|c p IH]; autorewrite with pyfs_rw; simpl; [by destruct s|].
  destruct (ascii_dec c c); [done|congruence].
Qed.

Lemma prefix_spec (p s : string) : String.prefix p s = true <-> exists r, s = p ++ r.
Proof.
  split.
  - revert s; induction p as [|c p IH]; intros s H; [by exists s|].
    destruct s as [|c' s]; simpl in H; [done|].
    destruct (ascii_dec c c'); [subst|done].
    destruct (IH s H) as [r ->]. exists r. by rewrite string_app_cons.
  - intros [r ->]. apply prefix_app.
Qed.

Lemma startswith_spec (p s : string) : startswith p s = true <-> exists r, s = p ++ r.
Proof. apply prefix_spec. Qed.

Lemma endswith_spec (q s : string) : endswith q s = true <-> exists r, s = r ++ q.
Proof.
  unfold endswith. rewrite prefix_spec. split.
  - intros [r Hr]. exists (string_rev r).
    by rewrite <- (string_rev_involutive s), Hr, string_rev_app, string_rev_involutive.
  - intros [r ->]. exists (string_rev r). by rewrite string_rev_app.
Qed.

Lemma string_length_app (a b : string) : String.length (a ++ b) = String.length a + String.length b.
Proof. induction a as [|x a IH]; autorewrite with pyfs_rw; simpl; lia. Qed.

Lemma parse_str_of_N (n : N) : parse_N (str_of_N n) = Some n.
Proof.
  unfold parse_N, str_of_N. rewrite DecimalString.NilZero.usu.
  - simpl. by rewrite DecimalN.Unsigned.of_to.
  - destruct n as [|p]; [discriminate|]. simpl.
    pose proof (DecimalPos.Unsigned.to_uint_nonnil p). congruence.
Qed.

Lemma py_lower_app (a b : string) : py_lower (a ++ b) = py_lower a ++ py_lower b.
Proof. induction a as [|x a IH]; autorewrite with pyfs_rw; simpl; [done|by rewrite IH]. Qed.

Lemma rfind_char_app (c : ascii) (a b : string) :
  rfind_char c (a ++ b) =
  match rfind_char c b with Some i => Some (String.length a + i) | None => rfind_char c a end.
Proof.
  induction a as [|x a IH]; autorewrite with pyfs_rw; simpl.
  - by destruct (rfind_char c b).
  - rewrite IH. destruct (rfind_char c b); [done|]. by destruct (rfind_char c a).
Qed.

Lemma substring_app_r (a b : string) :
  String.substring (String.length a) (String.length b) (a ++ b) = b.
Proof.
  induction a as [|x a IH]; autorewrite with pyfs_rw; simpl; [|done].
  induction b as [|y b IHb]; simpl; [done|]. by rewrite IHb.
Qed.

Lemma substring_app_l (a b : string) : String.substring 0 (String.length a) (a ++ b) = a.
Proof. induction a as [|x a IH]; autorewrite with pyfs_rw; simpl; [by destruct b|by rewrite IH]. Qed.

(** [str.lower()] keeps a trailing space. *)
Lemma py_lower_app_space (s : string) : py_lower (s ++ " ") = py_lower s ++ " ".
Proof. induction s as [|x s IH]; simpl; [reflexivity|by rewrite IH]. Qed.

(** No string followed by a space is "yes". *)
Lemma app_space_not_yes (s : string) : s ++ " " <> "yes".
Proof. destruct s as [|a [|b [|c s]]]; simpl; intros H; inversion H; by destruct s. Qed.
