(* ===== verification/HumanSize.v ===== *)
(** * [human_size] (src/main.py, lines 28-34)

    The loop [for unit in ("B", "KB", "MB", "GB"): if size < 1024: break;
    size /= 1024] is [hs_loop]; the magnitude [size] after [k] divisions
    is kept exactly as the fraction [num / 1024^k] ([num] the argument).
    Python's true division by 1024 is exact on doubles for every
    [|num| < 2^53], so the fraction is the float the code computes
    there.  [f"{size:.2f} {unit}"] is [fmt2] followed by the unit:
    Python's fixed-point formatting rounds the exact binary value to two
    decimals, ties to even ([round_half_even]).  Two departures from the
    spec follow: the loop divides a fifth time for sizes of a TiB and
    more ([human_size_tebibytes_as_gb]), and rounding after the loop can
    print "1024.00" of a unit ([human_size_rounds_up_to_1024]). *)

From S2P Require Import Prelude PyStr.

Module HumanSize.

Definition units : list string := ["B"; "KB"; "MB"; "GB"].

(** One pass of the [for] loop per unit; [unit] is the loop variable,
    which keeps its last value when the loop runs out without [break]. *)
Fixpoint hs_loop (us : list string) (unit : string) (num den : Z) : string * Z :=
  match us with
  | [] => (unit, den)
  | u :: us' =>
      if (num <? 1024 * den)%Z then (u, den)
      else hs_loop us' u num (den * 1024)%Z
  end.

(** [a / b] rounded to the nearest integer, ties to even ([b > 0]). *)
Definition round_half_even (a b : Z) : Z :=
  let q := (a / b)%Z in
  let r := (a mod b)%Z in
  if (2 * r <? b)%Z then q
  else if (b <? 2 * r)%Z then (q + 1)%Z
  else if Z.even q then q else (q + 1)%Z.

(** [format(num / den, ".2f")] for [den > 0]. *)
Definition fmt2 (num den : Z) : string :=
  let h := round_half_even (100 * Z.abs num) den in
  (if (num <? 0)%Z then "-" else "") ++
  str_of_Z (h / 100) ++ "." ++ zfill 2 (str_of_Z (h mod 100)).

Definition human_size (size : Z) : string :=
  let '(unit, den) := hs_loop units "" size 1 in
  fmt2 size den ++ " " ++ unit.

(** ** Specification of the unit ladder *)

(** Number of divisions the loop performs on a size [b]. *)
Definition scale (b : Z) : nat :=
  if (b <? 1024)%Z then 0
  else if (b <? 1048576)%Z then 1
  else if (b <? 1073741824)%Z then 2
  else if (b <? 1099511627776)%Z then 3
  else 4.

Definition unit_of (k : nat) : string := default "GB" (units !! k).

Lemma hs_loop_scale (b : Z) :
  hs_loop units "" b 1 = (unit_of (scale b), 1024 ^ Z.of_nat (scale b))%Z.
Proof.
  unfold scale; cbn.
  repeat match goal with
         | |- context [(?x <? ?y)%Z] => destruct (Z.ltb_spec x y)
         end; solve [lia | reflexivity].
Qed.

Lemma scale_le_4 (b : Z) : (scale b <= 4)%nat.
Proof. unfold scale. repeat case_match; lia. Qed.

Lemma round_half_even_bound (a b : Z) :
  (0 < b)%Z ->
  (2 * Z.abs (round_half_even a b * b - a) <= b)%Z.
Proof.
  intros Hb. unfold round_half_even.
  pose proof (Z.div_mod a b ltac:(lia)). pose proof (Z.mod_pos_bound a b Hb).
  destruct (Z.ltb_spec (2 * (a mod b)) b); [lia|].
  destruct (Z.ltb_spec b (2 * (a mod b))); [lia|].
  destruct (Z.even (a / b)); lia.
Qed.

Lemma round_half_even_tie (a b : Z) :
  (0 < b)%Z -> (2 * Z.abs (round_half_even a b * b - a) = b)%Z ->
  Z.even (round_half_even a b) = true.
Proof.
  intros Hb Htie. unfold round_half_even in *.
  pose proof (Z.div_mod a b ltac:(lia)). pose proof (Z.mod_pos_bound a b Hb).
  destruct (Z.ltb_spec (2 * (a mod b)) b); [lia|].
  destruct (Z.ltb_spec b (2 * (a mod b))); [lia|].
  destruct (Z.even (a / b)) eqn:Ev; [done|].
  by rewrite Z.even_add, Ev.
Qed.

Lemma round_half_even_exact (a b : Z) : (0 < b)%Z -> round_half_even (a * b) b = a.
Proof.
  intros Hb. unfold round_half_even.
  rewrite Z.div_mul, Z.mod_mul by lia.
  destruct (Z.ltb_spec (2 * 0) b); lia.
Qed.

Lemma fmt2_multiple (n d : Z) :
  (0 <= n)%Z -> (0 < d)%Z -> fmt2 (n * d) d = str_of_Z n ++ ".00".
Proof.
  intros Hn Hd. unfold fmt2.
  replace (100 * Z.abs (n * d))%Z with ((100 * n) * d)%Z by nia.
  rewrite round_half_even_exact by lia.
  replace (100 * n)%Z with (n * 100)%Z by lia.
  rewrite Z.div_mul, Z.mod_mul by lia.
  destruct (Z.ltb_spec (n * d) 0); [nia|]. done.
Qed.

Lemma human_size_eq (b : Z) :
  human_size b = fmt2 b (1024 ^ Z.of_nat (scale b)) ++ " " ++ unit_of (scale b).
Proof. unfold human_size. by rewrite hs_loop_scale. Qed.

(** ** Properties of [human_size] *)

(** C30: below 1024 bytes the size is printed as an integer number of bytes
    with two zero decimals and the unit "B" (the spec's first property). *)
Theorem human_size_below_1024 (b : Z) :
  (0 <= b < 1024)%Z -> human_size b = str_of_Z b ++ ".00 B".
Proof.
  intros Hb. rewrite human_size_eq.
  assert (scale b = 0%nat) as -> by (unfold scale; destruct (Z.ltb_spec b 1024); lia).
  rewrite <- (Z.mul_1_r b) at 1. rewrite fmt2_multiple by lia.
  by rewrite string_app_assoc.
Qed.

Lemma human_size_below_1024_witness :
  (0 <= 5 < 1024)%Z /\ human_size 5 = "5.00 B".
Proof. split; [lia|]. exact (human_size_below_1024 5 ltac:(lia)). Defined.

(** The spec's examples: 1536 bytes is "1.50 KB", 1048576 bytes is
    "1.00 MB", 0 bytes is "0.00 B". *)
Example human_size_examples :
  human_size 1536 = "1.50 KB" /\ human_size 1048576 = "1.00 MB" /\ human_size 0 = "0.00 B".
Proof. vm_compute. auto. Qed.

(** C31: for a non-negative size [b], [human_size b] prints the unit of the
    [k = scale b] divisions the loop performs and a decimal number [h/100]
    that is [b / 1024^k] to within half a hundredth: the loop divides
    exactly and the formatting rounds correctly. *)
Theorem human_size_rounding (b : Z) :
  (0 <= b)%Z ->
  exists h : Z,
    human_size b = str_of_Z (h / 100) ++ "." ++ zfill 2 (str_of_Z (h mod 100))
                   ++ " " ++ unit_of (scale b)
    /\ (2 * Z.abs (h * 1024 ^ Z.of_nat (scale b) - 100 * b) <= 1024 ^ Z.of_nat (scale b))%Z.
Proof.
  intros Hb. rewrite human_size_eq.
  set (d := (1024 ^ Z.of_nat (scale b))%Z).
  assert (0 < d)%Z by (apply Z.pow_pos_nonneg; lia).
  exists (round_half_even (100 * Z.abs b) d). split.
  - unfold fmt2. destruct (Z.ltb_spec b 0); [lia|].
    rewrite string_app_nil_l, !string_app_assoc. done.
  - replace (Z.abs b) with b by lia. by apply round_half_even_bound.
Qed.

Lemma human_size_rounding_witness :
  (0 <= 1536)%Z /\
  exists h : Z,
    human_size 1536 = str_of_Z (h / 100) ++ "." ++ zfill 2 (str_of_Z (h mod 100))
                      ++ " " ++ unit_of (scale 1536)
    /\ (2 * Z.abs (h * 1024 ^ Z.of_nat (scale 1536) - 100 * 1536) <= 1024 ^ Z.of_nat (scale 1536))%Z.
Proof. split; [lia|]. exact (human_size_rounding 1536 ltac:(lia)). Defined.

(** C32 (finding): the unit ladder stops at "GB" but the loop still divides
    once more when the size is at least 1024 GiB, so [k] TiB are printed
    as "k.00 GB", 1024 times too small. *)
Theorem human_size_tebibytes_as_gb (k : Z) :
  (1 <= k)%Z -> human_size (k * 1024 ^ 4) = str_of_Z k ++ ".00 GB".
Proof.
  intros Hk. rewrite human_size_eq.
  assert (scale (k * 1024 ^ 4) = 4%nat) as ->.
  { unfold scale. repeat match goal with
                         | |- context [(?x <? ?y)%Z] => destruct (Z.ltb_spec x y); [lia|]
                         end. done. }
  change (Z.of_nat 4) with 4%Z.
  rewrite fmt2_multiple by lia. by rewrite string_app_assoc.
Qed.

Lemma human_size_tebibytes_as_gb_witness :
  (1 <= 1)%Z /\ human_size (1 * 1024 ^ 4) = "1.00 GB".
Proof. split; [lia|]. exact (human_size_tebibytes_as_gb 1 ltac:(lia)). Defined.

(** A quotient in the upper half of [[q, q+1)] rounds up to [q+1] when [q]
    is odd (ties go to the even neighbour). *)
Lemma round_half_even_up (a d q : Z) :
  (0 < d)%Z -> Z.even q = false -> ((2 * q + 1) * d <= 2 * a < (2 * q + 2) * d)%Z ->
  round_half_even a d = (q + 1)%Z.
Proof.
  intros Hd Hq Ha. unfold round_half_even.
  assert (Hdiv : (a / d)%Z = q) by (symmetry; apply (Z.div_unique a d q (a - d * q)); lia).
  assert (Hmod : (a mod d)%Z = (a - d * q)%Z) by (symmetry; apply (Z.mod_unique a d q); lia).
  rewrite Hdiv, Hmod.
  destruct (Z.ltb_spec (2 * (a - d * q)) d); [lia|].
  destruct (Z.ltb_spec d (2 * (a - d * q))); [done|]. by rewrite Hq.
Qed.

(** C33 (finding): rounding after the loop can print a magnitude of 1024
    in the smaller unit: for each of the scales KB, MB and GB, every size
    from [1023.995] units up to just below [1024] units is printed as
    "1024.00" of that unit (one byte short of 1 MiB is "1024.00 KB"),
    although the loop stops only below 1024. *)
Theorem human_size_rounds_up_to_1024 (k : nat) (b : Z) :
  (1 <= k <= 3)%nat ->
  (204799 * 1024 ^ Z.of_nat k <= 200 * b < 204800 * 1024 ^ Z.of_nat k)%Z ->
  human_size b = "1024.00 " ++ unit_of k.
Proof.
  intros Hk Hb. rewrite human_size_eq.
  assert (Hs : scale b = k).
  { unfold scale. destruct k as [|[|[|[|k]]]]; try lia; cbn in Hb;
      repeat match goal with |- context [(?x <? ?y)%Z] => destruct (Z.ltb_spec x y) end; lia. }
  rewrite Hs. set (d := (1024 ^ Z.of_nat k)%Z) in *.
  assert (0 < d)%Z by (apply Z.pow_pos_nonneg; lia).
  unfold fmt2. destruct (Z.ltb_spec b 0); [lia|]. rewrite Z.abs_eq by lia.
  by rewrite (round_half_even_up (100 * b) d 102399) by (done || lia).
Qed.

Lemma human_size_rounds_up_to_1024_witness :
  (1 <= 1 <= 3)%nat /\
  (204799 * 1024 ^ Z.of_nat 1 <= 200 * 1048575 < 204800 * 1024 ^ Z.of_nat 1)%Z /\
  human_size 1048575 = "1024.00 " ++ unit_of 1.
Proof.
  split; [lia|]. split; [cbn; lia|].
  apply (human_size_rounds_up_to_1024 1 1048575); [lia|cbn; lia].
Defined.

End HumanSize.
