(* ===== verification/Glob.v ===== *)
(** * Filename pattern matching of [Path.glob] (src/main.py, line 23)

    [location.glob("Screenshot*.png")] lists the entries of [location]
    whose name matches the pattern in full, as [fnmatch] translates it: [*]
    matches any run of characters, [?] one character, any other
    character itself, case-sensitively (pathlib's POSIX flavour).  The
    pattern the program uses holds no bracket set, so sets are not
    modelled.  The spec asks for the predicate "starts with [Screenshot],
    ends with [.png]" ([is_screenshot_name]); [glob_screenshot_iff]
    proves the glob computes exactly that predicate. *)

From S2P Require Import Prelude PyStr.

Module Glob.

Inductive gtok : Type :=
  | GLit (c : ascii)
  | GAny
  | GStar.

Definition gtok_of_char (c : ascii) : gtok :=
  if Ascii.eqb c "*" then GStar else if Ascii.eqb c "?" then GAny else GLit c.

Definition glob_compile (pat : string) : list gtok :=
  gtok_of_char <$> list_ascii_of_string pat.

(** Full match of a compiled pattern against a name; the inner [fix]
    tries every split point for [*]. *)
Fixpoint glob_match (p : list gtok) (s : string) : bool :=
  match p with
  | [] => match s with EmptyString => true | _ => false end
  | GLit c :: p' =>
      match s with
      | String c' s' => Ascii.eqb c c' && glob_match p' s'
      | EmptyString => false
      end
  | GAny :: p' =>
      match s with
      | String _ s' => glob_match p' s'
      | EmptyString => false
      end
  | GStar :: p' =>
      (fix star (s : string) : bool :=
         glob_match p' s ||
         match s with
         | String _ s' => star s'
         | EmptyString => false
         end) s
  end.

Definition screenshot_pattern : string := "Screenshot*.png".

(** The spec's predicate on file names. *)
Definition is_screenshot_name (name : string) : bool :=
  startswith "Screenshot" name && endswith ".png" name.

(** ** Matching literal runs and a star *)

Definition lits (s : string) : list gtok := GLit <$> list_ascii_of_string s.

Lemma glob_match_lits (q s : string) : glob_match (lits q) s = String.eqb s q.
Proof.
  revert s; induction q as [|c q IH]; intros [|c' s]; simpl; try done.
  rewrite IH. destruct (Ascii.eqb_spec c c'); subst.
  - by rewrite Ascii.eqb_refl.
  - destruct (Ascii.eqb_spec c' c); [congruence|done].
Qed.

Lemma endswith_nil (q : string) : endswith q "" = String.eqb "" q.
Proof.
  destruct (endswith q "") eqn:E; symmetry.
  - apply endswith_spec in E as [r Hr].
    destruct r, q; simpl in *; done.
  - apply String.eqb_neq. intros <-. by rewrite (proj2 (endswith_spec "" "")) in E by (exists ""; done).
Qed.

Lemma endswith_cons (q : string) (c : ascii) (s : string) :
  endswith q (String c s) = String.eqb (String c s) q || endswith q s.
Proof.
  apply Bool.eq_iff_eq_true. rewrite Bool.orb_true_iff, !endswith_spec, String.eqb_eq. split.
  - intros [[|c' r] Hr].
    + left. by rewrite Hr.
    + right. exists r. rewrite string_app_cons in Hr. congruence.
  - intros [<- | [r ->]].
    + by exists "".
    + exists (String c r). done.
Qed.

Lemma glob_match_star_lits (q s : string) :
  glob_match (GStar :: lits q) s = endswith q s.
Proof.
  induction s as [|c s IH]; simpl.
  - rewrite glob_match_lits, endswith_nil. destruct (String.eqb "" q); done.
  - rewrite endswith_cons, <- IH, glob_match_lits. done.
Qed.

Fixpoint strip_prefix (p s : string) : option string :=
  match p, s with
  | EmptyString, _ => Some s
  | String c p', String c' s' => if Ascii.eqb c c' then strip_prefix p' s' else None
  | String _ _, EmptyString => None
  end.

Lemma strip_prefix_Some (p s r : string) : strip_prefix p s = Some r <-> s = p ++ r.
Proof.
  revert s; induction p as [|c p IH]; intros [|c' s]; simpl;
    autorewrite with pyfs_rw; try (split; congruence).
  destruct (Ascii.eqb_spec c c'); subst.
  - rewrite IH. split; congruence.
  - split; congruence.
Qed.

Lemma strip_prefix_None (p s : string) : strip_prefix p s = None <-> startswith p s = false.
Proof.
  destruct (strip_prefix p s) eqn:E; destruct (startswith p s) eqn:F; try done.
  - apply strip_prefix_Some in E. subst. by rewrite (proj2 (startswith_spec _ _)) in F by eauto.
  - apply startswith_spec in F as [r ->]. by rewrite (proj2 (strip_prefix_Some p (p ++ r) r)) in E.
Qed.

Lemma glob_match_lits_app (p : string) (rest : list gtok) (s : string) :
  glob_match (lits p ++ rest)%list s =
  match strip_prefix p s with Some r => glob_match rest r | None => false end.
Proof.
  revert s; induction p as [|c p IH]; intros s; [done|].
  destruct s as [|c' s]; [done|]. simpl.
  rewrite IH. destruct (Ascii.eqb c c'); done.
Qed.

Lemma glob_compile_screenshot :
  glob_compile screenshot_pattern = (lits "Screenshot" ++ GStar :: lits ".png")%list.
Proof. reflexivity. Qed.

(** ".png" cannot overlap the prefix "Screenshot": no character of the
    prefix is a dot. *)
Lemma endswith_png_after_prefix (r : string) :
  endswith ".png" ("Screenshot" ++ r) = endswith ".png" r.
Proof.
  change ("Screenshot" ++ r) with
    (String "S" (String "c" (String "r" (String "e" (String "e" (String "n"
      (String "s" (String "h" (String "o" (String "t" r)))))))))).
  rewrite !endswith_cons. reflexivity.
Qed.

(** ** Properties of the pattern match *)

(** The compiled pattern matches by prefix and suffix. *)
Lemma glob_match_screenshot_pattern (name : string) :
  glob_match (glob_compile screenshot_pattern) name = is_screenshot_name name.
Proof.
  rewrite glob_compile_screenshot, glob_match_lits_app. unfold is_screenshot_name.
  destruct (strip_prefix "Screenshot" name) as [r|] eqn:E.
  - apply strip_prefix_Some in E as ->.
    by rewrite glob_match_star_lits, endswith_png_after_prefix, (proj2 (startswith_spec _ _)) by eauto.
  - apply strip_prefix_None in E. by rewrite E.
Qed.

(** C26: [glob("Screenshot*.png")] selects exactly the names that start with
    "Screenshot" and end with ".png" (case-sensitive, exact prefix and
    suffix), the spec's predicate. *)
Theorem glob_screenshot_iff (name : string) :
  glob_match (glob_compile screenshot_pattern) name = is_screenshot_name name.
Proof. apply glob_match_screenshot_pattern. Qed.

(** The spec's discovery examples: a macOS screenshot name matches,
    a lower-case "screenshot1.png" and a "Screenshot.jpg" do not, and the
    bare "Screenshot.png" does. *)
Example glob_examples :
  glob_match (glob_compile screenshot_pattern) "Screenshot 2024-05-01 at 10.00.00.png" = true /\
  glob_match (glob_compile screenshot_pattern) "screenshot1.png" = false /\
  glob_match (glob_compile screenshot_pattern) "Screenshot.jpg" = false /\
  glob_match (glob_compile screenshot_pattern) "Screenshot.png" = true.
Proof. vm_compute. auto. Qed.

(** A screenshot name is "Screenshot", a middle part, then ".png". *)
Lemma screenshot_name_split (name : string) :
  is_screenshot_name name = true -> exists mid, name = "Screenshot" ++ mid ++ ".png".
Proof.
  unfold is_screenshot_name. intros [Hs He]%andb_prop.
  apply startswith_spec in Hs as [r ->].
  rewrite endswith_png_after_prefix in He. apply endswith_spec in He as [mid ->]. eauto.
Qed.

End Glob.
