(* ===== verification/Fs.v ===== *)
(** * The file system and the POSIX calls the program makes

    The program never touches files directly: [pathlib], [os] and [shutil]
    do, through a handful of system calls.  This file models the file
    system as a finite map from absolute paths to nodes, and each call as
    a function that returns the new file system or the [OSError] the call
    raises, with macOS's errno values.

    - A path is the list of its components, innermost first, so that
      [n :: p] is [p / n] and the parent is the tail.
    - A node is a regular file (its contents as an identifier, its size
      and its status-change time [st_ctime]) or a directory (whether it is
      writable, its [st_size] and [st_ctime]).  Write permission on a
      directory is the only permission modelled: it is what [unlink],
      [rename], [mkdir] and [rmdir] need.
    - [fs_wf] is the invariant of a well-formed tree: the root is a
      directory and every node's parent is a directory.

    Python's exceptions are the type [exn]; [str_exn] renders them the
    way [str(e)] does, used by the error lines the program prints. *)

From S2P Require Import Prelude PyStr.

Module Posix.

Abbreviation path := (list string).

Definition basename (p : path) : string :=
  match p with n :: _ => n | [] => "" end.

Definition path_parent (p : path) : path := tail p.

(** [str(path)]: "/" then the components outermost first. *)
Definition path_str (p : path) : string := "/" ++ join "/" (rev p).

Inductive node : Type :=
  | NFile (content : positive) (size : Z) (ctime : Z)
  | NDir (writable : bool) (size : Z) (ctime : Z).

#[export] Instance node_eq_dec : EqDecision node.
Proof. solve_decision. Defined.

Definition node_size (nd : node) : Z :=
  match nd with NFile _ s _ | NDir _ s _ => s end.
Definition node_ctime (nd : node) : Z :=
  match nd with NFile _ _ t | NDir _ _ t => t end.
Definition node_is_dir (nd : node) : bool :=
  match nd with NDir _ _ _ => true | NFile _ _ _ => false end.

Abbreviation fsys := (gmap path node).

(** ** Errors *)

Inductive errno : Type :=
  | EPERM | ENOENT | EACCES | EBUSY | EEXIST | ENOTDIR | EISDIR | EINVAL | ENOTEMPTY.

#[export] Instance errno_eq_dec : EqDecision errno.
Proof. solve_decision. Defined.

(** macOS numbers and messages ([strerror]). *)
Definition errno_code (e : errno) : Z :=
  match e with
  | EPERM => 1 | ENOENT => 2 | EACCES => 13 | EBUSY => 16 | EEXIST => 17
  | ENOTDIR => 20 | EISDIR => 21 | EINVAL => 22 | ENOTEMPTY => 66
  end.

Definition strerror (e : errno) : string :=
  match e with
  | EPERM => "Operation not permitted"
  | ENOENT => "No such file or directory"
  | EACCES => "Permission denied"
  | EBUSY => "Resource busy"
  | EEXIST => "File exists"
  | ENOTDIR => "Not a directory"
  | EISDIR => "Is a directory"
  | EINVAL => "Invalid argument"
  | ENOTEMPTY => "Directory not empty"
  end.

(** The Python exceptions the program can meet. *)
Inductive exn : Type :=
  | OSError (e : errno) (filename : string) (filename2 : option string)
  | OSErrorMsg (e : errno) (msg : string)   (** an [OSError] subclass raised with a message *)
  | ShutilError (msg : string)              (** [shutil.Error] *)
  | ValueError (msg : string)
  | EOFError
  | KeyboardInterrupt.

Definition str_exn (x : exn) : string :=
  match x with
  | OSError e f None =>
      "[Errno " ++ str_of_Z (errno_code e) ++ "] " ++ strerror e ++ ": " ++ py_repr f
  | OSError e f (Some f2) =>
      "[Errno " ++ str_of_Z (errno_code e) ++ "] " ++ strerror e ++ ": " ++ py_repr f
      ++ " -> " ++ py_repr f2
  | OSErrorMsg _ msg | ShutilError msg | ValueError msg => msg
  | EOFError => "EOF when reading a line"
  | KeyboardInterrupt => ""
  end.

Definition os_err {A} (e : errno) (p : path) : outcome exn A :=
  Raise (OSError e (path_str p) None).

(** ** Path resolution *)

(** Walk from the root: a missing component is [ENOENT], a file used as a
    directory [ENOTDIR]. *)
Fixpoint resolve (fs : fsys) (p : path) : outcome errno node :=
  match p with
  | [] => match fs !! [] with Some nd => Ret nd | None => Raise ENOENT end
  | n :: q =>
      match resolve fs q with
      | Raise e => Raise e
      | Ret (NFile _ _ _) => Raise ENOTDIR
      | Ret (NDir _ _ _) =>
          match fs !! (n :: q) with Some nd => Ret nd | None => Raise ENOENT end
      end
  end.

(** The directory that holds [p]: its write permission, or why it cannot
    be reached. *)
Definition parent_dir (fs : fsys) (p : path) : outcome errno bool :=
  match resolve fs (path_parent p) with
  | Raise e => Raise e
  | Ret (NFile _ _ _) => Raise ENOTDIR
  | Ret (NDir w _ _) => Ret w
  end.

(** [os.stat(p)] *)
Definition os_stat (fs : fsys) (p : path) : outcome exn node :=
  match resolve fs p with
  | Ret nd => Ret nd
  | Raise e => os_err e p
  end.

(** [os.path.exists], [os.path.isdir], [Path.exists()], [Path.is_dir()]:
    [False] on any [OSError]. *)
Definition path_exists (fs : fsys) (p : path) : bool := is_ret (resolve fs p).

Definition path_isdir (fs : fsys) (p : path) : bool :=
  match resolve fs p with Ret (NDir _ _ _) => true | _ => false end.

(** [os.scandir(d)]: the names in [d], in the order the map lists them
    (the file system's own order, which the program does not sort). *)
Definition entry_of (d : path) (kv : path * node) : option string :=
  match kv.1 with
  | n :: q => if decide (q = d) then Some n else None
  | [] => None
  end.

Definition listdir (fs : fsys) (d : path) : list string :=
  omap (entry_of d) (map_to_list fs).

Definition has_children (fs : fsys) (d : path) : bool :=
  bool_decide (listdir fs d <> []).

(** ** System calls that change the file system *)

(** [os.mkdir(p)]; the new directory is writable (mode 0o777 under the
    usual umask) and stamped with the current time [now]. *)
Definition os_mkdir (fs : fsys) (now : Z) (p : path) : outcome exn fsys :=
  match p with
  | [] => os_err EEXIST p
  | _ :: _ =>
      match parent_dir fs p with
      | Raise e => os_err e p
      | Ret w =>
          match fs !! p with
          | Some _ => os_err EEXIST p
          | None => if w then Ret (<[p := NDir true 64 now]> fs) else os_err EACCES p
          end
      end
  end.

(** [os.unlink(p)]; macOS refuses a directory with [EPERM]. *)
Definition os_unlink (fs : fsys) (p : path) : outcome exn fsys :=
  match parent_dir fs p with
  | Raise e => os_err e p
  | Ret w =>
      match fs !! p with
      | None => os_err ENOENT p
      | Some (NDir _ _ _) => os_err EPERM p
      | Some (NFile _ _ _) => if w then Ret (delete p fs) else os_err EACCES p
      end
  end.

(** [os.rmdir(p)] *)
Definition os_rmdir (fs : fsys) (p : path) : outcome exn fsys :=
  match p with
  | [] => os_err EBUSY p
  | _ :: _ =>
      match parent_dir fs p with
      | Raise e => os_err e p
      | Ret w =>
          match fs !! p with
          | None => os_err ENOENT p
          | Some (NFile _ _ _) => os_err ENOTDIR p
          | Some (NDir _ _ _) =>
              if negb w then os_err EACCES p
              else if has_children fs p then os_err ENOTEMPTY p
              else Ret (delete p fs)
          end
      end
  end.

(** [p] is [a] or lies below [a]. *)
Definition is_under (a p : path) : bool :=
  (List.length a <=? List.length p)%nat && bool_decide (drop (List.length p - List.length a) p = a).

(** Renaming a directory moves its whole subtree: every key below [src]
    is re-rooted at [dst]; what was at [dst] (nothing, or an empty
    directory) goes. *)
Definition move_tree (src dst : path) (fs : fsys) : fsys :=
  let moved : fsys :=
    list_to_map ((fun kv : path * node => ((take (List.length kv.1 - List.length src) kv.1 ++ dst)%list, kv.2))
                   <$> filter (fun kv : path * node => is_under src kv.1 = true) (map_to_list fs)) in
  moved ∪ filter (fun kv : path * node => is_under src kv.1 = false /\ kv.1 <> dst) fs.

Definition rename_node (src dst : path) (nd : node) (fs : fsys) : fsys :=
  if node_is_dir nd then move_tree src dst fs else <[dst := nd]> (delete src fs).

(** [os.rename(src, dst)]: replaces a file or an empty directory at [dst];
    both parents must be writable, and a directory that changes parent
    must be writable itself (its [..] entry is rewritten). *)
Definition os_rename (fs : fsys) (src dst : path) : outcome exn fsys :=
  let err e := Raise (OSError e (path_str src) (Some (path_str dst))) in
  match src with
  | [] => err EBUSY
  | _ :: _ =>
  match parent_dir fs src with
  | Raise e => err e
  | Ret ws =>
  match fs !! src with
  | None => err ENOENT
  | Some snd =>
  match parent_dir fs dst with
  | Raise e => err e
  | Ret wd =>
  if negb (ws && wd) then err EACCES
  else if match snd with
          | NDir false _ _ => negb (bool_decide (path_parent src = path_parent dst))
          | _ => false
          end then err EACCES
  else if node_is_dir snd && is_under src dst && negb (bool_decide (src = dst)) then err EINVAL
  else
    match fs !! dst with
    | None => Ret (rename_node src dst snd fs)
    | Some dnd =>
        if bool_decide (src = dst) then Ret fs
        else match snd, dnd with
             | NFile _ _ _, NDir _ _ _ => err EISDIR
             | NDir _ _ _, NFile _ _ _ => err ENOTDIR
             | NDir _ _ _, NDir _ _ _ =>
                 if has_children fs dst then err ENOTEMPTY else Ret (rename_node src dst snd fs)
             | NFile _ _ _, NFile _ _ _ => Ret (rename_node src dst snd fs)
             end
    end
  end end end end.

(** [open(p, "wb")] followed by writing [content] of [size] bytes: an
    existing file is truncated and rewritten, a new one needs a writable
    directory; either way the file's [st_ctime] becomes [now]. *)
Definition os_write_file (fs : fsys) (now : Z) (p : path) (content : positive) (size : Z)
  : outcome exn fsys :=
  match parent_dir fs p with
  | Raise e => os_err e p
  | Ret w =>
      match fs !! p with
      | Some (NDir _ _ _) => os_err EISDIR p
      | Some (NFile _ _ _) => Ret (<[p := NFile content size now]> fs)
      | None => if w then Ret (<[p := NFile content size now]> fs) else os_err EACCES p
      end
  end.

(** ** Well-formed file systems *)

Definition dir_at (fs : fsys) (p : path) : bool :=
  match fs !! p with Some (NDir _ _ _) => true | _ => false end.

Definition parent_ok (fs : fsys) (p : path) : Prop :=
  match p with [] => True | _ :: q => dir_at fs q = true end.

Definition fs_wf (fs : fsys) : Prop :=
  dir_at fs [] = true /\ map_Forall (fun p _ => parent_ok fs p) fs.

#[export] Instance parent_ok_dec fs p : Decision (parent_ok fs p).
Proof. destruct p; simpl; apply _. Defined.
#[export] Instance fs_wf_dec fs : Decision (fs_wf fs).
Proof. unfold fs_wf. apply _. Defined.

End Posix.
Export Posix.
