(* ===== verification/FsRename.v ===== *)
(** * Renaming a directory keeps the tree well formed

    [os.rename] of a directory re-roots every entry below the source at
    the destination ([move_tree]).  This file characterises the entries
    of the re-rooted map ([move_tree_lookup]) and shows that a rename
    that succeeds on a well-formed tree returns a well-formed tree
    ([os_rename_wf]), directories included. *)

From S2P Require Import Prelude PyStr Fs FsFacts.

(** ** Paths below a path *)

Lemma is_under_spec (a p : path) : is_under a p = true <-> exists r, p = (r ++ a)%list.
Proof.
  unfold is_under. rewrite andb_true_iff, Nat.leb_le, bool_decide_eq_true. split.
  - intros [_ Hd]. exists (take (length p - length a) p). by rewrite <- Hd at 2; rewrite take_drop.
  - intros [r ->]. rewrite length_app. split; [lia|].
    apply drop_app_length'. lia.
Qed.

Lemma is_under_false (a p : path) : is_under a p = false <-> forall r, p <> (r ++ a)%list.
Proof.
  rewrite <- not_true_iff_false, is_under_spec. naive_solver.
Qed.

Lemma reroot_app (r src dst : path) :
  (take (length (r ++ src) - length src) (r ++ src) ++ dst)%list = (r ++ dst)%list.
Proof. rewrite length_app, Nat.add_sub. by rewrite take_app_length. Qed.

Lemma app_suffix_inj (r1 r2 a : path) : (r1 ++ a)%list = (r2 ++ a)%list -> r1 = r2.
Proof. apply app_inv_tail. Qed.

(** In a well-formed tree an entry strictly below [p] means [p] has a
    child. *)
Lemma below_has_child fs p r nd :
  fs_wf fs -> r <> [] -> fs !! (r ++ p)%list = Some nd -> exists n nd', fs !! (n :: p) = Some nd'.
Proof.
  intros Hwf. induction r as [|n r IH] in nd |- *; [done|]. intros _ H.
  destruct r as [|m r]; [eauto|].
  apply (wf_parent fs Hwf) in H. apply dir_at_Some in H as (w & sz & ct & H).
  by apply (IH (NDir w sz ct)).
Qed.

(** ** The entries of a re-rooted tree *)

Section MoveTree.
Context (src dst : path) (fs : fsys).

Local Definition moved_list : list (path * node) :=
  (fun kv : path * node => ((take (length kv.1 - length src) kv.1 ++ dst)%list, kv.2))
    <$> filter (fun kv : path * node => is_under src kv.1 = true) (map_to_list fs).

Lemma moved_list_NoDup : NoDup moved_list.*1.
Proof.
  unfold moved_list. rewrite <- list_fmap_compose.
  apply NoDup_fmap_2_strong; [|apply NoDup_filter, NoDup_map_to_list].
  intros [k1 v1] [k2 v2] H1 H2 Heq.
  apply list_elem_of_filter in H1 as [Hu1 H1], H2 as [Hu2 H2]. simpl in Hu1, Hu2, Heq.
  apply is_under_spec in Hu1 as [r1 ->], Hu2 as [r2 ->].
  rewrite !reroot_app in Heq. apply app_suffix_inj in Heq as ->.
  apply elem_of_map_to_list in H1, H2. congruence.
Qed.

Lemma moved_lookup k nd :
  (list_to_map moved_list : fsys) !! k = Some nd <-> exists r, k = (r ++ dst)%list /\ fs !! (r ++ src)%list = Some nd.
Proof.
  rewrite <- elem_of_list_to_map by apply moved_list_NoDup. unfold moved_list.
  rewrite list_elem_of_fmap. split.
  - intros ([k' v] & [= -> ->] & Hin). apply list_elem_of_filter in Hin as [Hu Hin].
    simpl in Hu. apply is_under_spec in Hu as [r ->]. simpl.
    exists r. rewrite reroot_app. split; [done|]. by apply elem_of_map_to_list.
  - intros (r & -> & H). exists ((r ++ src)%list, nd). simpl. rewrite reroot_app. split; [done|].
    apply list_elem_of_filter. split; [apply is_under_spec; eauto|]. by apply elem_of_map_to_list.
Qed.

Lemma move_tree_lookup k nd :
  move_tree src dst fs !! k = Some nd <->
  (exists r, k = (r ++ dst)%list /\ fs !! (r ++ src)%list = Some nd) \/
  ((forall r, k = (r ++ dst)%list -> fs !! (r ++ src)%list = None) /\
   is_under src k = false /\ k <> dst /\ fs !! k = Some nd).
Proof.
  unfold move_tree. fold moved_list. rewrite lookup_union_Some_raw, moved_lookup, map_lookup_filter_Some.
  rewrite eq_None_not_Some. unfold is_Some. setoid_rewrite moved_lookup. simpl. split.
  - intros [H | [Hn [Hk [Hu Hd]]]]; [by left|right]. split_and!; [|done..].
    intros r -> . destruct (fs !! (r ++ src)%list) eqn:E; [|done]. exfalso. eauto.
  - intros [H | (Hn & Hu & Hd & Hk)]; [by left|right]. split_and!; [|done..].
    intros (nd' & r & -> & H). rewrite Hn in H; [done|done].
Qed.

End MoveTree.

(** ** Well-formedness *)

Section MoveTreeWf.
Context (fs : fsys) (Hwf : fs_wf fs) (src dst : path).

Lemma move_tree_keep k :
  (forall r, k <> (r ++ dst)%list) -> is_under src k = false -> move_tree src dst fs !! k = fs !! k.
Proof.
  intros Hd Hu. destruct (fs !! k) as [nd|] eqn:E.
  - apply move_tree_lookup. right. split_and!; [|done|..|done].
    + intros r Hr. by destruct (Hd r).
    + intros ->. by destruct (Hd []).
  - destruct (move_tree src dst fs !! k) as [nd|] eqn:M; [|done].
    apply move_tree_lookup in M as [(r & -> & _) | (_ & _ & _ & H)]; [by destruct (Hd r)|congruence].
Qed.

End MoveTreeWf.

Lemma move_tree_wf fs s0 src0 d0 dst0 :
  fs_wf fs -> dir_at fs dst0 = true -> is_under (s0 :: src0) (d0 :: dst0) = false ->
  (forall n, fs !! (n :: d0 :: dst0) = None) ->
  fs_wf (move_tree (s0 :: src0) (d0 :: dst0) fs).
Proof.
  intros Hwf Hpd Hu Hempty.
  assert (Hnil : forall r, ([] : path) <> (r ++ d0 :: dst0)%list) by (intros [] ?; discriminate).
  assert (Hroot : is_under (s0 :: src0) [] = false) by (apply is_under_false; intros [] ?; discriminate).
  split.
  { unfold dir_at. rewrite (move_tree_keep fs) by done. apply Hwf. }
  intros [|n q] nd Hk; [done|]. simpl.
  apply move_tree_lookup in Hk as [(r & Hq & Hr) | (_ & Hu' & _ & Hk)].
  - destruct r as [|m r]; simplify_list_eq.
    + unfold dir_at. rewrite (move_tree_keep fs); [by apply dir_at_Some in Hpd as (?&?&?&->)| |].
      * intros r Hr2. apply (f_equal length) in Hr2. rewrite length_app in Hr2. simpl in Hr2. lia.
      * apply is_under_false. intros r ->. apply not_true_iff_false in Hu. apply Hu, is_under_spec. by exists (d0 :: r).
    + apply (wf_parent fs Hwf) in Hr. apply dir_at_Some in Hr as (w & sz & ct & Hr).
      apply dir_at_Some. exists w, sz, ct. apply move_tree_lookup. left. eauto.
  - pose proof (wf_parent fs Hwf n q nd Hk) as Hq. unfold dir_at in *.
    rewrite (move_tree_keep fs); [done| |].
    + intros r ->. destruct (below_has_child fs (d0 :: dst0) (n :: r) nd Hwf) as (m & nd' & Hm);
        [done|exact Hk|]. by rewrite Hempty in Hm.
    + apply is_under_false. intros r ->. apply not_true_iff_false in Hu'. apply Hu', is_under_spec. by exists (n :: r).
Qed.

Lemma has_child_true fs d n nd : fs !! (n :: d) = Some nd -> has_children fs d = true.
Proof.
  intros H. destruct (has_children fs d) eqn:E; [done|].
  apply has_children_false with (n := n) in E. congruence.
Qed.

(** Every rename that succeeds on a well-formed tree, of a file or of a
    directory, returns a well-formed tree. *)
Lemma os_rename_wf fs src dst fs' : fs_wf fs -> os_rename fs src dst = Ret fs' -> fs_wf fs'.
Proof.
  intros Hwf H. destruct (fs !! src) as [[c sz ct|w sz ct]|] eqn:Hsrc.
  { by eapply os_rename_file_wf. }
  2: { unfold os_rename in H. rewrite Hsrc in H. by repeat case_match. }
  unfold os_rename in H. destruct src as [|s0 src0]; [discriminate|].
  destruct (parent_dir fs (s0 :: src0)) as [ws|]; [|discriminate]. rewrite Hsrc in H.
  destruct dst as [|d0 dst0].
  - destruct (below_has_child fs [] (s0 :: src0) (NDir w sz ct) Hwf) as (m & nd & Hm); [done|by rewrite app_nil_r|].
    pose proof (has_child_true _ _ _ _ Hm) as Hc.
    destruct (root_is_dir fs Hwf) as (rw & rsz & rct & Hr).
    unfold parent_dir, path_parent in H; simpl in H. rewrite Hr in H.
    repeat (case_match; try discriminate); simplify_eq; congruence.
  - destruct (parent_dir fs (d0 :: dst0)) as [wd|] eqn:Hpd; [|discriminate].
    pose proof (parent_dir_ok fs d0 dst0 wd Hwf Hpd) as Hdir. simpl in Hdir.
    unfold rename_node in H; simpl in H.
    repeat (case_match; simplify_eq/=; try discriminate); try done.
    all: apply move_tree_wf; [done|done| |].
    all: first
      [ by apply has_children_false
      | intros n; by apply absent_no_children
      | apply not_true_iff_false; intros Hu; rewrite Hu in *; simpl in *; try discriminate;
        match goal with H : negb (bool_decide (_ = _)) = false |- _ =>
          apply negb_false_iff, bool_decide_eq_true in H; subst; congruence end ].
Qed.

(** A rename of a directory to a free name outside it, both parents
    writable and the directory writable unless it keeps its parent,
    re-roots the subtree. *)
Lemma os_rename_dir_ok fs src dst w sz ct :
  fs_wf fs -> fs !! src = Some (NDir w sz ct) ->
  parent_dir fs src = Ret true -> parent_dir fs dst = Ret true ->
  (w = true \/ path_parent src = path_parent dst) ->
  is_under src dst = false -> fs !! dst = None ->
  os_rename fs src dst = Ret (move_tree src dst fs).
Proof.
  intros Hwf Hsrc Hps Hpd Hw Hu Hdst. unfold os_rename.
  destruct src as [|s0 src0].
  { apply not_true_iff_false in Hu. destruct Hu. apply is_under_spec. exists dst. by rewrite app_nil_r. }
  rewrite Hps, Hsrc, Hpd. cbn [negb andb].
  destruct w; [|destruct Hw as [[=]|Hw]; rewrite bool_decide_eq_true_2 by done]; by rewrite Hu, Hdst.
Qed.

(** ** The invariant *)

(** Every system call of the model that succeeds on a well-formed
    tree returns a well-formed tree: [mkdir], [unlink], [rmdir], writing a
    file, and [rename] of a regular file or of a whole directory. *)
Theorem syscalls_preserve_wf (fs : fsys) (now : Z) (p q : path) (c : positive) (sz : Z) :
  fs_wf fs ->
  (forall fs', os_mkdir fs now p = Ret fs' -> fs_wf fs') /\
  (forall fs', os_unlink fs p = Ret fs' -> fs_wf fs') /\
  (forall fs', os_rmdir fs p = Ret fs' -> fs_wf fs') /\
  (forall fs', os_write_file fs now p c sz = Ret fs' -> fs_wf fs') /\
  (forall fs', os_rename fs p q = Ret fs' -> fs_wf fs').
Proof.
  intros Hwf. split_and!; intros fs';
    eauto using os_mkdir_wf, os_unlink_wf, os_rmdir_wf, os_write_file_wf, os_rename_wf.
Qed.

(** The root with [/a] a directory holding [/a/b]: renaming [/a] to [/c]
    moves the subtree. *)
Definition two_dirs : fsys := {[ [] := NDir true 64 0; ["a"] := NDir true 64 0; ["b"; "a"] := NFile 1 5 0 ]}.

Lemma syscalls_preserve_wf_witness :
  fs_wf two_dirs /\
  os_rename two_dirs ["a"] ["c"] = Ret (move_tree ["a"] ["c"] two_dirs) /\
  ((forall fs', os_mkdir two_dirs 0 ["a"] = Ret fs' -> fs_wf fs') /\
   (forall fs', os_unlink two_dirs ["a"] = Ret fs' -> fs_wf fs') /\
   (forall fs', os_rmdir two_dirs ["a"] = Ret fs' -> fs_wf fs') /\
   (forall fs', os_write_file two_dirs 0 ["a"] 2 7 = Ret fs' -> fs_wf fs') /\
   (forall fs', os_rename two_dirs ["a"] ["c"] = Ret fs' -> fs_wf fs')).
Proof.
  assert (H : fs_wf two_dirs) by (apply (bool_decide_eq_true _); vm_compute; reflexivity).
  split; [exact H|]. split; [vm_compute; reflexivity|].
  exact (syscalls_preserve_wf two_dirs 0 ["a"] ["c"] 2 7 H).
Defined.
