(* ===== verification/PyMonad.v ===== *)
(** * The Python process: its world and the monad the program runs in

    A run of the program reads and changes a [world]: the file system,
    what is left to read on standard input, what has been written to
    standard output and standard error, and the clock.  [PyM A] is a
    state-and-exception monad over it: a computation returns a value or
    a raised exception, together with the world as it is at that point,
    so that what a composite library call did before it raised is kept
    (a copy made before a failing [unlink], files moved before an error).

    - [syscall f] runs one system call of [Fs]: atomic, it changes the
      file system only when it succeeds.
    - [print s] writes [s] and a newline; [input prompt] writes the
      prompt and reads one line, raising [EOFError] at end of input and
      [KeyboardInterrupt] when the user types Ctrl-C.
    - [try_except p m h] is [try: m except E as e: h(e)] where [p] says
      which exceptions the clause [E] catches. *)

From S2P Require Import Prelude PyStr Fs FsFacts.

Inductive input_event : Type :=
  | Line (s : string)
  | CtrlC.

Record world : Type := mk_world {
  w_fs : fsys;
  w_in : list input_event;
  w_out : list string;
  w_err : list string;
  w_now : Z
}.

Definition set_fs (w : world) (fs : fsys) : world :=
  mk_world fs (w_in w) (w_out w) (w_err w) (w_now w).

Definition PyM (A : Type) : Type := world -> outcome exn A * world.

#[export] Instance pym_ret : MRet PyM := fun A a w => (Ret a, w).
#[export] Instance pym_bind : MBind PyM := fun A B k m w =>
  match m w with
  | (Ret a, w') => k a w'
  | (Raise e, w') => (Raise e, w')
  end.
#[export] Instance pym_throw : MThrow exn PyM := fun A e w => (Raise e, w).

(** ** Primitive effects *)

Definition get_world : PyM world := fun w => (Ret w, w).

Definition read_fs {A} (f : fsys -> A) : PyM A := fun w => (Ret (f (w_fs w)), w).

Definition now : PyM Z := fun w => (Ret (w_now w), w).

(** A read-only system call ([stat]) that may raise. *)
Definition query {A} (f : fsys -> outcome exn A) : PyM A := fun w => (f (w_fs w), w).

(** A system call that changes the file system when it succeeds. *)
Definition syscall (f : fsys -> outcome exn fsys) : PyM unit := fun w =>
  match f (w_fs w) with
  | Ret fs' => (Ret tt, set_fs w fs')
  | Raise e => (Raise e, w)
  end.

Definition write_out (s : string) : PyM unit := fun w =>
  (Ret tt, mk_world (w_fs w) (w_in w) (w_out w ++ [s]) (w_err w) (w_now w)).

Definition write_err (s : string) : PyM unit := fun w =>
  (Ret tt, mk_world (w_fs w) (w_in w) (w_out w) (w_err w ++ [s]) (w_now w)).

(** [print(s)] *)
Definition print (s : string) : PyM unit := write_out (s ++ nl).

Definition read_line : PyM string := fun w =>
  match w_in w with
  | [] => (Raise EOFError, w)
  | Line s :: rest => (Ret s, mk_world (w_fs w) rest (w_out w) (w_err w) (w_now w))
  | CtrlC :: rest => (Raise KeyboardInterrupt, mk_world (w_fs w) rest (w_out w) (w_err w) (w_now w))
  end.

(** [input(prompt)] *)
Definition input (prompt : string) : PyM string := write_out prompt;; read_line.

(** [try: m except <p> as e: h(e)] *)
Definition try_except {A} (p : exn -> bool) (m : PyM A) (h : exn -> PyM A) : PyM A := fun w =>
  match m w with
  | (Raise e, w') => if p e then h e w' else (Raise e, w')
  | r => r
  end.

(** The classes of the [except] clauses the program and the library use. *)
Definition is_Exception (e : exn) : bool :=
  match e with KeyboardInterrupt => false | _ => true end.

Definition is_OSError (e : exn) : bool :=
  match e with OSError _ _ _ | OSErrorMsg _ _ | ShutilError _ => true | _ => false end.

(** [for x in l: body(x)] *)
Fixpoint for_each {A} (l : list A) (body : A -> PyM unit) : PyM unit :=
  match l with
  | [] => mret tt
  | x :: l' => body x;; for_each l' body
  end.

(** ** Monad laws and running lemmas *)

Lemma bind_ret_l {A B} (a : A) (k : A -> PyM B) w : (mret a ≫= k) w = k a w.
Proof. reflexivity. Qed.

Lemma bind_run {A B} (m : PyM A) (k : A -> PyM B) w :
  (m ≫= k) w = match m w with (Ret a, w') => k a w' | (Raise e, w') => (Raise e, w') end.
Proof. reflexivity. Qed.

Lemma bind_assoc {A B C} (m : PyM A) (k1 : A -> PyM B) (k2 : B -> PyM C) w :
  ((m ≫= k1) ≫= k2) w = (m ≫= (fun a => k1 a ≫= k2)) w.
Proof. rewrite !bind_run. destruct (m w) as [[a|e] w']; reflexivity. Qed.

Lemma for_each_app {A} (l1 l2 : list A) (body : A -> PyM unit) w :
  for_each (l1 ++ l2) body w = (for_each l1 body;; for_each l2 body) w.
Proof.
  induction l1 as [|x l IH] in w |- *; simpl; [done|].
  rewrite bind_assoc, !bind_run. destruct (body x w) as [[[]|e] w']; [|done]. apply IH.
Qed.

(** ** The process environment the program reads but never changes *)

Record env : Type := mk_env {
  env_system : string;     (** [platform.system()] *)
  env_home : path;         (** [Path.home()], from [$HOME] *)
  env_utcoffset : Z -> Z   (** seconds east of UTC of the local time zone at an instant *)
}.

(** A pure computation that may raise, run in [PyM]. *)
Definition lift {A} (m : outcome exn A) : PyM A := fun w => (m, w).
