(* ===== verification/PyFacts.v ===== *)
(** * Reasoning about [PyM] programs

    [Preserves R m] says that every run of [m], whatever its outcome,
    relates the world before and after by [R].  With [R] a preorder the
    class is closed under [mret], [≫=], [try_except], [if] and loops, so
    instance resolution proves that a whole action leaves the disk
    ([same_fs]), standard input ([same_in]) or standard output
    ([same_out]) as it was, from instances for the primitives.  The
    [run_*] lemmas compute one primitive on a world of known shape. *)

From S2P Require Import Prelude PyStr Fs FsFacts FsRename PyMonad.

Class Preserves (R : relation world) {A} (m : PyM A) : Prop :=
  preserves : forall w r w', m w = (r, w') -> R w w'.
Global Hint Mode Preserves ! - ! : typeclass_instances.

Definition same_fs : relation world := fun w w' => w_fs w' = w_fs w.
Definition same_in : relation world := fun w w' => w_in w' = w_in w.
Definition same_out : relation world := fun w w' => w_out w' = w_out w.

#[export] Instance same_fs_preorder : PreOrder same_fs.
Proof. split; unfold same_fs; [done|intros ??? -> ->; done]. Qed.
#[export] Instance same_in_preorder : PreOrder same_in.
Proof. split; unfold same_in; [done|intros ??? -> ->; done]. Qed.
#[export] Instance same_out_preorder : PreOrder same_out.
Proof. split; unfold same_out; [done|intros ??? -> ->; done]. Qed.

Section Combinators.
Context (R : relation world) `{!PreOrder R}.

#[export] Instance preserves_ret {A} (a : A) : Preserves R (mret a).
Proof. intros w r w' [= _ <-]. reflexivity. Qed.

#[export] Instance preserves_throw {A} (e : exn) : Preserves R (mthrow (A:=A) e).
Proof. intros w r w' [= _ <-]. reflexivity. Qed.

#[export] Instance preserves_bind {A B} (m : PyM A) (k : A -> PyM B) :
  Preserves R m -> (forall a, Preserves R (k a)) -> Preserves R (m ≫= k).
Proof.
  intros Hm Hk w r w'. rewrite bind_run. destruct (m w) as [[a|e] w1] eqn:E.
  - intros H. etrans; [exact (Hm _ _ _ E)|exact (Hk a _ _ _ H)].
  - intros [= _ <-]. exact (Hm _ _ _ E).
Qed.

#[export] Instance preserves_try {A} p (m : PyM A) (h : exn -> PyM A) :
  Preserves R m -> (forall e, Preserves R (h e)) -> Preserves R (try_except p m h).
Proof.
  intros Hm Hh w r w'. unfold try_except. destruct (m w) as [[a|e] w1] eqn:E.
  - intros [= _ <-]. exact (Hm _ _ _ E).
  - destruct (p e).
    + intros H. etrans; [exact (Hm _ _ _ E)|exact (Hh e _ _ _ H)].
    + intros [= _ <-]. exact (Hm _ _ _ E).
Qed.

#[export] Instance preserves_if {A} (b : bool) (m1 m2 : PyM A) :
  Preserves R m1 -> Preserves R m2 -> Preserves R (if b then m1 else m2).
Proof. by destruct b. Qed.

#[export] Instance preserves_pair {A B C} (p : A * B) (f : A -> B -> PyM C) :
  (forall a b, Preserves R (f a b)) -> Preserves R (let '(a, b) := p in f a b).
Proof. destruct p. auto. Qed.

#[export] Instance preserves_match_node {A} (nd : node) (f : positive -> Z -> Z -> PyM A) (g : bool -> Z -> Z -> PyM A) :
  (forall c sz ct, Preserves R (f c sz ct)) -> (forall w sz ct, Preserves R (g w sz ct)) ->
  Preserves R (match nd with NFile c sz ct => f c sz ct | NDir w sz ct => g w sz ct end).
Proof. by destruct nd. Qed.

#[export] Instance preserves_for_each {A} (l : list A) (body : A -> PyM unit) :
  (forall x, Preserves R (body x)) -> Preserves R (for_each l body).
Proof. intros H. induction l; simpl; apply _. Qed.

#[export] Instance preserves_foldl {A B} (f : PyM B -> A -> PyM B) (l : list A) (m : PyM B) :
  (forall acc x, Preserves R acc -> Preserves R (f acc x)) -> Preserves R m ->
  Preserves R (foldl f m l).
Proof. intros Hf. induction l as [|x l IH] in m |- *; simpl; auto. Qed.

#[export] Instance preserves_read_fs {A} (f : fsys -> A) : Preserves R (read_fs f).
Proof. intros w r w' [= _ <-]. reflexivity. Qed.

#[export] Instance preserves_query {A} (f : fsys -> outcome exn A) : Preserves R (query f).
Proof. intros w r w' [= _ <-]. reflexivity. Qed.

#[export] Instance preserves_lift {A} (m : outcome exn A) : Preserves R (lift m).
Proof. intros w r w' [= _ <-]. reflexivity. Qed.

#[export] Instance preserves_now : Preserves R now.
Proof. intros w r w' [= _ <-]. reflexivity. Qed.

End Combinators.

(** ** The primitives *)

#[export] Instance print_same_fs s : Preserves same_fs (print s).
Proof. intros w r w' [= _ <-]. done. Qed.
#[export] Instance print_same_in s : Preserves same_in (print s).
Proof. intros w r w' [= _ <-]. done. Qed.
#[export] Instance write_err_same_fs s : Preserves same_fs (write_err s).
Proof. intros w r w' [= _ <-]. done. Qed.
#[export] Instance input_same_fs p : Preserves same_fs (input p).
Proof.
  intros w r w'. unfold input. rewrite bind_run. simpl.
  unfold read_line; simpl. destruct (w_in w) as [|[] ?]; intros [= _ <-]; done.
Qed.
#[export] Instance syscall_same_in f : Preserves same_in (syscall f).
Proof. intros w r w'. unfold syscall. destruct (f (w_fs w)); intros [= _ <-]; done. Qed.
#[export] Instance syscall_same_out f : Preserves same_out (syscall f).
Proof. intros w r w'. unfold syscall. destruct (f (w_fs w)); intros [= _ <-]; done. Qed.

(** ** Well-formedness of the disk along a run *)

(** [wf_kept w w']: if the disk of [w] is well formed, so is that of
    [w'].  It is a preorder, so [Preserves wf_kept] is closed under the
    combinators like the other relations. *)
Definition wf_kept : relation world := fun w w' => fs_wf (w_fs w) -> fs_wf (w_fs w').

#[export] Instance wf_kept_preorder : PreOrder wf_kept.
Proof. split; unfold wf_kept; [by intros ?|intros ??? H1 H2 ?; auto]. Qed.

(** A system call that keeps the tree well formed when it succeeds. *)
Class FsWf (f : fsys -> outcome exn fsys) : Prop :=
  fs_wf_kept : forall fs fs', fs_wf fs -> f fs = Ret fs' -> fs_wf fs'.
Global Hint Mode FsWf ! : typeclass_instances.

#[export] Instance syscall_wf_kept f : FsWf f -> Preserves wf_kept (syscall f).
Proof.
  intros Hf w r w'. unfold syscall, wf_kept. destruct (f (w_fs w)) eqn:E; intros [= _ <-]; [|done].
  intros Hwf. exact (Hf _ _ Hwf E).
Qed.

Lemma same_fs_wf_kept {A} (m : PyM A) : Preserves same_fs m -> Preserves wf_kept m.
Proof. intros Hm w r w' H. unfold wf_kept. by rewrite (Hm _ _ _ H). Qed.

#[export] Instance print_wf_kept s : Preserves wf_kept (print s).
Proof. apply same_fs_wf_kept, _. Qed.
#[export] Instance write_err_wf_kept s : Preserves wf_kept (write_err s).
Proof. apply same_fs_wf_kept, _. Qed.
#[export] Instance input_wf_kept p : Preserves wf_kept (input p).
Proof. apply same_fs_wf_kept, _. Qed.

#[export] Instance os_mkdir_FsWf t p : FsWf (fun fs => os_mkdir fs t p).
Proof. intros ??. apply os_mkdir_wf. Qed.
#[export] Instance os_unlink_FsWf p : FsWf (fun fs => os_unlink fs p).
Proof. intros ??. apply os_unlink_wf. Qed.
#[export] Instance os_rmdir_FsWf p : FsWf (fun fs => os_rmdir fs p).
Proof. intros ??. apply os_rmdir_wf. Qed.
#[export] Instance os_rename_FsWf p q : FsWf (fun fs => os_rename fs p q).
Proof. intros ??. apply os_rename_wf. Qed.
#[export] Instance os_write_file_FsWf t p c sz : FsWf (fun fs => os_write_file fs t p c sz).
Proof. intros ??. apply os_write_file_wf. Qed.

(** ** Which exceptions a computation can raise *)

(** [Raises P m]: every exception a run of [m] lets escape satisfies [P].
    [FsRaises P f] is the same for a pure function of the disk, as the
    system calls are. *)
Class Raises (P : exn -> Prop) {A} (m : PyM A) : Prop :=
  raises : forall w e w', m w = (Raise e, w') -> P e.
Global Hint Mode Raises ! - ! : typeclass_instances.

Class FsRaises (P : exn -> Prop) {A} (f : fsys -> outcome exn A) : Prop :=
  fs_raises : forall fs e, f fs = Raise e -> P e.
Global Hint Mode FsRaises ! - ! : typeclass_instances.

(** The exceptions an [except Exception] clause catches. *)
Definition catchable (e : exn) : Prop := is_Exception e = true.

Section RaisesCombinators.
Context (P : exn -> Prop).

#[export] Instance raises_ret {A} (a : A) : Raises P (mret a).
Proof. by intros w e w' [=]. Qed.

#[export] Instance raises_bind {A B} (m : PyM A) (k : A -> PyM B) :
  Raises P m -> (forall a, Raises P (k a)) -> Raises P (m ≫= k).
Proof.
  intros Hm Hk w e w'. rewrite bind_run. destruct (m w) as [[a|e'] w1] eqn:E.
  - apply Hk.
  - intros [= -> _]. exact (Hm _ _ _ E).
Qed.

(** A handler runs only on an exception [m] raised and the clause
    accepted, so it may re-raise it. *)
#[export] Instance raises_try {A} p (m : PyM A) (h : exn -> PyM A) :
  Raises P m -> (forall e, P e -> p e = true -> Raises P (h e)) -> Raises P (try_except p m h).
Proof.
  intros Hm Hh w e w'. unfold try_except. destruct (m w) as [[a|e'] w1] eqn:E; [by intros [=]|].
  destruct (p e') eqn:Hp; [apply Hh; [exact (Hm _ _ _ E)|done]|]. intros [= -> _]. exact (Hm _ _ _ E).
Qed.

Lemma raises_throw {A} (e : exn) : P e -> Raises P (mthrow (A:=A) e).
Proof. intros He w e' w' [= <- _]. exact He. Qed.

#[export] Instance raises_if {A} (b : bool) (m1 m2 : PyM A) :
  Raises P m1 -> Raises P m2 -> Raises P (if b then m1 else m2).
Proof. by destruct b. Qed.

#[export] Instance raises_match_node {A} (nd : node) (f : positive -> Z -> Z -> PyM A) (g : bool -> Z -> Z -> PyM A) :
  (forall c sz ct, Raises P (f c sz ct)) -> (forall w sz ct, Raises P (g w sz ct)) ->
  Raises P (match nd with NFile c sz ct => f c sz ct | NDir w sz ct => g w sz ct end).
Proof. by destruct nd. Qed.

#[export] Instance raises_pair {A B C} (p : A * B) (f : A -> B -> PyM C) :
  (forall a b, Raises P (f a b)) -> Raises P (let '(a, b) := p in f a b).
Proof. destruct p. auto. Qed.

#[export] Instance raises_for_each {A} (l : list A) (body : A -> PyM unit) :
  (forall x, Raises P (body x)) -> Raises P (for_each l body).
Proof. intros H. induction l; simpl; apply _. Qed.

#[export] Instance raises_foldl {A B} (f : PyM B -> A -> PyM B) (l : list A) (m : PyM B) :
  (forall acc x, Raises P acc -> Raises P (f acc x)) -> Raises P m -> Raises P (foldl f m l).
Proof. intros Hf. induction l as [|x l IH] in m |- *; simpl; auto. Qed.

#[export] Instance raises_read_fs {A} (f : fsys -> A) : Raises P (read_fs f).
Proof. by intros w e w' [=]. Qed.

#[export] Instance raises_now : Raises P now.
Proof. by intros w e w' [=]. Qed.

#[export] Instance raises_print s : Raises P (print s).
Proof. by intros w e w' [=]. Qed.

#[export] Instance raises_query {A} (f : fsys -> outcome exn A) : FsRaises P f -> Raises P (query f).
Proof. intros Hf w e w' [= He _]. exact (Hf _ _ He). Qed.

#[export] Instance raises_syscall (f : fsys -> outcome exn fsys) : FsRaises P f -> Raises P (syscall f).
Proof. intros Hf w e w'. unfold syscall. destruct (f (w_fs w)) eqn:E; intros [= <- _]. exact (Hf _ _ E). Qed.

End RaisesCombinators.

(** Every system call of the model fails with an [OSError]. *)
Ltac os_catchable :=
  let e := fresh "e" in let H := fresh "H" in
  intros ? e; unfold os_err; repeat case_match; intros H; invc H; exact eq_refl.

#[export] Instance os_stat_catchable p : FsRaises catchable (fun fs => os_stat fs p).
Proof. unfold os_stat. os_catchable. Qed.
#[export] Instance os_mkdir_catchable t p : FsRaises catchable (fun fs => os_mkdir fs t p).
Proof. unfold os_mkdir. os_catchable. Qed.
#[export] Instance os_unlink_catchable p : FsRaises catchable (fun fs => os_unlink fs p).
Proof. unfold os_unlink. os_catchable. Qed.
#[export] Instance os_rmdir_catchable p : FsRaises catchable (fun fs => os_rmdir fs p).
Proof. unfold os_rmdir. os_catchable. Qed.
#[export] Instance os_rename_catchable p q : FsRaises catchable (fun fs => os_rename fs p q).
Proof. unfold os_rename. os_catchable. Qed.
#[export] Instance os_write_file_catchable t p c sz : FsRaises catchable (fun fs => os_write_file fs t p c sz).
Proof. unfold os_write_file. os_catchable. Qed.

(** A [raise] of an exception known to satisfy the predicate, by a
    hypothesis (a re-raise in a handler) or by computation. *)
#[export] Hint Extern 1 (Raises _ (mthrow _)) =>
  apply raises_throw; first [assumption | exact eq_refl] : typeclass_instances.

Lemma raises_lift_catchable {A} (m : outcome exn A) :
  (forall e, m = Raise e -> is_Exception e = true) -> Raises catchable (lift m).
Proof. intros H w e w' [= He _]. exact (H e He). Qed.

(** [try ... except Exception] around code that raises only exceptions
    of that class, with a handler that does not raise, does not raise. *)
Lemma raises_try_catch_all {A} (m : PyM A) (h : exn -> PyM A) :
  Raises catchable m -> (forall e, Raises (fun _ => False) (h e)) ->
  Raises (fun _ => False) (try_except is_Exception m h).
Proof.
  intros Hm Hh w e w'. unfold try_except. destruct (m w) as [[a|e'] w1] eqn:E; [by intros [=]|].
  rewrite (Hm _ _ _ E). apply Hh.
Qed.

(** ** Running primitives *)

Lemma run_print s w :
  print s w = (Ret tt, mk_world (w_fs w) (w_in w) (w_out w ++ [s ++ nl]) (w_err w) (w_now w)).
Proof. reflexivity. Qed.

Lemma run_input_line p a rest w :
  w_in w = Line a :: rest ->
  input p w = (Ret a, mk_world (w_fs w) rest (w_out w ++ [p]) (w_err w) (w_now w)).
Proof. intros H. unfold input. rewrite bind_run. simpl. unfold read_line; simpl. by rewrite H. Qed.

Lemma run_syscall_ok f w fs' :
  f (w_fs w) = Ret fs' -> syscall f w = (Ret tt, set_fs w fs').
Proof. intros H. unfold syscall. by rewrite H. Qed.

Lemma run_syscall_err f w e :
  f (w_fs w) = Raise e -> syscall f w = (Raise e, w).
Proof. intros H. unfold syscall. by rewrite H. Qed.

Lemma run_try_ok {A} p (m : PyM A) h w a w' :
  m w = (Ret a, w') -> try_except p m h w = (Ret a, w').
Proof. intros H. unfold try_except. by rewrite H. Qed.

Lemma run_try_caught {A} p (m : PyM A) h w e w' :
  m w = (Raise e, w') -> p e = true -> try_except p m h w = h e w'.
Proof. intros H Hp. unfold try_except. by rewrite H, Hp. Qed.

Lemma run_for_each_cons {A} (x : A) (l : list A) body w :
  for_each (x :: l) body w =
  match body x w with (Ret _, w1) => for_each l body w1 | (Raise e, w1) => (Raise e, w1) end.
Proof. simpl. rewrite bind_run. by destruct (body x w) as [[[]|] ?]. Qed.

(** [input] either returns the next line or raises, leaving the disk. *)
Lemma input_cases p w r w' :
  input p w = (r, w') ->
  (exists a rest, w_in w = Line a :: rest /\ r = Ret a /\ w_in w' = rest /\ w_fs w' = w_fs w) \/
  (exists e, r = Raise e /\ w_fs w' = w_fs w).
Proof.
  unfold input. rewrite bind_run. simpl. unfold read_line; simpl.
  destruct (w_in w) as [|[a|] rest]; intros [= <- <-]; simpl; [right|left|right]; eauto 10.
Qed.

Lemma run_read_fs {A} (f : fsys -> A) w : read_fs f w = (Ret (f (w_fs w)), w).
Proof. reflexivity. Qed.
Lemma run_now w : now w = (Ret (w_now w), w).
Proof. reflexivity. Qed.
Lemma run_query {A} (f : fsys -> outcome exn A) w : query f w = (f (w_fs w), w).
Proof. reflexivity. Qed.
Lemma run_lift {A} (m : outcome exn A) w : lift m w = (m, w).
Proof. reflexivity. Qed.
Lemma run_ret {A} (a : A) w : (mret a : PyM A) w = (Ret a, w).
Proof. reflexivity. Qed.

Lemma run_throw {A} (e : exn) w : (mthrow e : PyM A) w = (Raise e, w).
Proof. reflexivity. Qed.

(** Unfold binds and run the primitives of a goal [m w = ...]. *)
Ltac pym_run :=
  repeat first [ progress cbn [w_fs w_in w_out w_err w_now andb orb negb node_ctime node_size]
               | rewrite bind_run | rewrite run_print | rewrite run_read_fs | rewrite run_now
               | rewrite run_query | rewrite run_lift | rewrite run_ret ].
