(* ===== verification/Sample.v ===== *)
(** * A sample Mac home directory, used by the witnesses

    [/Users/alice] with [Desktop], [Downloads] and [Pictures]; a
    screenshot of 2024-05-01 on the Desktop, one of 2024-06-01 in
    Downloads, and a [notes.txt] that is not a screenshot.  The time zone
    is UTC and the clock reads 2027-01-15. *)

From S2P Require Import Prelude PyStr Fs PyMonad.

Module Sample.

Definition home : path := ["alice"; "Users"].

Definition dir : node := NDir true 64 0.

Definition shot_may : path := "Screenshot 2024-05-01 at 10.00.00.png" :: "Desktop" :: home.
Definition shot_june : path := "Screenshot 2024-06-01 at 10.00.00.png" :: "Downloads" :: home.
Definition notes : path := "notes.txt" :: "Desktop" :: home.

Definition fs0 : fsys :=
  list_to_map [([], dir); (["Users"], dir); (home, dir);
               ("Desktop" :: home, dir); ("Downloads" :: home, dir); ("Pictures" :: home, dir);
               (shot_may, NFile 1 1536 1714557600); (shot_june, NFile 2 2048 1717236000);
               (notes, NFile 3 10 0)].

(** The same disk once [~/Pictures/Screenshots] exists. *)
Definition fs_shots : fsys := <["Screenshots" :: "Pictures" :: home := dir]> fs0.

Definition env0 : env := mk_env "Darwin" home (fun _ => 0%Z).

Definition world0 (inp : list input_event) : world := mk_world fs0 inp [] [] 1800000000.

Definition run {A} (m : PyM A) (inp : list input_event) : outcome exn A * world := m (world0 inp).

End Sample.
