(* ===== verification/Shutil.v ===== *)
(** * The library calls the organizer makes: [Path.mkdir] and [shutil.move]

    Modelled from CPython 3.12's [pathlib] and [shutil] on macOS, in the
    [PyM] monad so that a call that raises after changing the disk leaves
    the change in place:

    - [path_mkdir p parents exist_ok] is [Path.mkdir]: [os.mkdir], on
      [FileNotFoundError] with [parents] the parent first, on any other
      [OSError] success only when [exist_ok] and [p] is a directory.
    - [shutil_move src dst] is [shutil.move(src, dst)]: into [dst/name]
      when [dst] is a directory (an existing [dst/name] is a
      [shutil.Error]), else onto [dst]; [os.rename] first, and on any
      [OSError] from it the fallback: [copy2] then [os.unlink] for a
      file, [copytree] then [rmtree] for a directory.
    - [copytree] and [rmtree] walk a directory tree; their recursion is on
      a fuel bound by the depth of the tree ([tree_fuel]). *)

From S2P Require Import Prelude PyStr Fs FsFacts PyMonad.

Module Shutil.

Definition is_ENOENT (e : exn) : bool :=
  match e with OSError ENOENT _ _ => true | _ => false end.

Definition is_FileExistsError (e : exn) : bool :=
  match e with OSError EEXIST _ _ => true | _ => false end.

(** ** [Path.mkdir(parents=..., exist_ok=...)] *)

Definition mkdir_at (p : path) : PyM unit :=
  t ← now; syscall (fun fs => os_mkdir fs t p).

(** The [except OSError] clause: success when [exist_ok] and [p] is a
    directory, else re-raise. *)
Definition mkdir_exists_ok (p : path) (exist_ok : bool) (e : exn) : PyM unit :=
  isd ← read_fs (fun fs => path_isdir fs p);
  if exist_ok && (isd : bool) then mret tt else mthrow e.

Definition mkdir_noparents (p : path) (exist_ok : bool) : PyM unit :=
  try_except is_OSError (mkdir_at p)
    (fun e => if is_ENOENT e then mthrow e else mkdir_exists_ok p exist_ok e).

Fixpoint mkdir_parents (p : path) (exist_ok : bool) : PyM unit :=
  try_except is_OSError (mkdir_at p)
    (fun e =>
       if is_ENOENT e then
         match p with
         | [] => mthrow e
         | _ :: q => mkdir_parents q true;; mkdir_noparents p exist_ok
         end
       else mkdir_exists_ok p exist_ok e).

Definition path_mkdir (p : path) (parents exist_ok : bool) : PyM unit :=
  if parents then mkdir_parents p exist_ok else mkdir_noparents p exist_ok.

(** ** [os.makedirs(p, exist_ok)] *)

Fixpoint os_makedirs (p : path) (exist_ok : bool) : PyM unit :=
  match p with
  | [] => mkdir_noparents [] exist_ok
  | _ :: q =>
      ex ← read_fs (fun fs => path_exists fs q);
      (if negb (ex : bool) then try_except is_FileExistsError (os_makedirs q exist_ok) (fun _ => mret tt)
       else mret tt);;
      try_except is_OSError (mkdir_at p) (mkdir_exists_ok p exist_ok)
  end.

(** [shutil._samefile] by [os.path.samefile]: both paths name one
    existing entry (an [OSError] of its [stat] gives [False]). *)
Definition samefile (fs : fsys) (a b : path) : bool :=
  bool_decide (a = b) && path_exists fs a.

(** ** [shutil.copy2(src, dst)] for a file *)

Definition copy2 (src dst : path) : PyM unit :=
  isd ← read_fs (fun fs => path_isdir fs dst);
  let dst : path := if (isd : bool) then basename src :: dst else dst in
  same ← read_fs (fun fs => samefile fs src dst);
  if (same : bool) then
    mthrow (ShutilError (py_repr (path_str src) ++ " and " ++ py_repr (path_str dst) ++ " are the same file"))
  else
    nd ← query (fun fs => os_stat fs src);
    match (nd : node) with
    | NDir _ _ _ => mthrow (OSError EISDIR (path_str src) None)
    | NFile c sz _ => t ← now; syscall (fun fs => os_write_file fs t dst c sz)
    end.

(** ** [shutil.copystat] on a directory: its mode (write permission) *)

Definition copystat_dir (src dst : path) : PyM unit :=
  t ← now;
  syscall (fun fs =>
    match fs !! src, fs !! dst with
    | Some (NDir w _ _), Some (NDir _ sz _) => Ret (<[dst := NDir w sz t]> fs)
    | _, _ => Ret fs
    end).

(** ** [shutil.copytree(src, dst)] *)

Abbreviation copy_error := (string * string * string)%type.

Definition render_copy_errors (errs : list copy_error) : string :=
  "[" ++ join ", " ((fun '(a, b, c) => "(" ++ py_repr a ++ ", " ++ py_repr b ++ ", " ++ py_repr c ++ ")") <$> errs) ++ "]".

(** One level of [_copytree]: the entries are listed before [dst] is
    made; an entry that fails is recorded and the copy goes on. *)
Fixpoint copytree_go (fuel : nat) (src dst : path) : PyM (list copy_error) :=
  match fuel with
  | O => mret []
  | S f =>
      entries ← read_fs (fun fs => (fun n => (n, dir_at fs (n :: src))) <$> listdir fs src);
      os_makedirs dst false;;
      errs ← foldl (fun (acc : PyM (list copy_error)) '((n, isdir) : string * bool) =>
                errs ← acc;
                try_except is_OSError
                  (if isdir then errs' ← copytree_go f (n :: src) (n :: dst); mret (errs ++ errs')%list
                   else copy2 (n :: src) (n :: dst);; mret errs)
                  (fun e => mret (errs ++ [(path_str (n :: src), path_str (n :: dst), str_exn e)])%list))
              (mret []) entries;
      copystat_dir src dst;;
      mret errs
  end.

(** Depth bound: one more than the longest path of the tree. *)
Definition tree_fuel (fs : fsys) : nat := S (foldr max 0 (length <$> (map_to_list fs).*1)).

Definition copytree (src dst : path) : PyM unit :=
  fuel ← read_fs tree_fuel;
  errs ← copytree_go fuel src dst;
  if bool_decide ((errs : list copy_error) = []) then mret tt else mthrow (ShutilError (render_copy_errors errs)).

(** ** [shutil.rmtree(path)] (the [dir_fd] walk of macOS) *)

(** Errors inside the walk name the entry relative to its directory. *)
Definition relative (n : string) (m : PyM unit) : PyM unit :=
  try_except is_OSError m (fun e =>
    match e with OSError er _ f2 => mthrow (OSError er n f2) | _ => mthrow e end).

Fixpoint rmtree_go (fuel : nat) (d : path) : PyM unit :=
  match fuel with
  | O => mret tt
  | S f =>
      entries ← read_fs (fun fs => (fun n => (n, dir_at fs (n :: d))) <$> listdir fs d);
      foldl (fun (acc : PyM unit) '((n, isdir) : string * bool) =>
               acc;;
               if isdir then rmtree_go f (n :: d);; relative n (syscall (fun fs => os_rmdir fs (n :: d)))
               else relative n (syscall (fun fs => os_unlink fs (n :: d))))
            (mret tt) entries
  end.

Definition rmtree (p : path) : PyM unit :=
  fuel ← read_fs tree_fuel;
  rmtree_go fuel p;;
  syscall (fun fs => os_rmdir fs p).

(** ** [shutil.move(src, dst)] *)

(** [_destinsrc]: [dst] is the directory [src] or lies inside it (the
    test of CPython compares the paths with a trailing separator). *)
Definition destinsrc (src dst : path) : bool :=
  is_under src dst.

Definition dir_writable (fs : fsys) (p : path) : bool :=
  match fs !! p with Some (NDir w _ _) => w | _ => true end.

Definition move_fallback (src real_dst dst : path) : PyM unit :=
  srcdir ← read_fs (fun fs => path_isdir fs src);
  if (srcdir : bool) then
    if destinsrc src dst then
      mthrow (ShutilError ("Cannot move a directory '" ++ path_str src ++ "' into itself '"
                           ++ path_str dst ++ "'."))
    else
      locked ← read_fs (fun fs => negb (dir_writable fs src) && has_children fs src);
      if (locked : bool) then
        mthrow (OSErrorMsg EACCES ("Cannot move the non-empty directory '" ++ path_str src
                  ++ "': Lacking write permission to '" ++ path_str src ++ "'."))
      else copytree src real_dst;; rmtree src
  else
    copy2 src real_dst;; syscall (fun fs => os_unlink fs src).

Definition shutil_move (src dst : path) : PyM unit :=
  isd ← read_fs (fun fs => path_isdir fs dst);
  same ← read_fs (fun fs => samefile fs src dst);
  if (isd : bool) && (same : bool) then syscall (fun fs => os_rename fs src dst)
  else
    real_dst ← (if (isd : bool) then
                  let r := basename src :: dst in
                  ex ← read_fs (fun fs => path_exists fs r);
                  if (ex : bool) then mthrow (ShutilError ("Destination path '" ++ path_str r ++ "' already exists"))
                  else mret r
                else mret dst);
    try_except is_OSError (syscall (fun fs => os_rename fs src real_dst))
      (fun _ => move_fallback src real_dst dst).

End Shutil.
