(* ===== verification/ShutilFacts.v ===== *)
(** * What [shutil.move] does with a regular file

    When the source is a regular file in a writable directory and the
    destination is free or holds a regular file, [os.rename] succeeds at
    once: the file appears at the destination and any file that was
    there is gone, with no error ([shutil_move_file]).  A directory moved
    to a free name outside it is also one rename, when both parents are
    writable and the directory is too if it changes parent
    ([shutil_move_dir]); a file in a read-only directory is copied by the
    fallback, which then fails to unlink it ([run_shutil_move_readonly]). *)

From S2P Require Import Prelude PyStr Fs FsFacts FsRename PyMonad PyFacts Sample Shutil.

Module ShutilFacts.
Import Shutil.

(** [Path.mkdir(exist_ok=True)] in a writable directory: made when
    absent, accepted when a directory is already there. *)
Lemma run_mkdir_exist_ok w n q sz ct :
  fs_wf (w_fs w) -> w_fs w !! q = Some (NDir true sz ct) ->
  (w_fs w !! (n :: q) = None \/ exists wr dsz dct, w_fs w !! (n :: q) = Some (NDir wr dsz dct)) ->
  path_mkdir (n :: q) false true w =
  (Ret tt, set_fs w (match w_fs w !! (n :: q) with
                     | None => <[n :: q := NDir true 64 (w_now w)]> (w_fs w)
                     | Some _ => w_fs w
                     end)).
Proof.
  intros Hwf Hq Hp. unfold path_mkdir, mkdir_noparents, mkdir_at.
  destruct Hp as [Hp | (wr & dsz & dct & Hp)]; rewrite Hp.
  - apply run_try_ok. pym_run. apply run_syscall_ok. by apply os_mkdir_new with sz ct.
  - destruct (os_mkdir_exists (w_fs w) (w_now w) n q _ Hwf Hp) as (e & He & ->).
    rewrite (run_try_caught _ _ _ _ (OSError EEXIST (path_str (n :: q)) None) w); [|by pym_run; apply run_syscall_err|done].
    cbn. unfold mkdir_exists_ok. pym_run.
    rewrite (path_isdir_dir _ _ _ _ _ Hwf Hp). cbn. unfold set_fs. by destruct w.
Qed.

(** [Path.mkdir(parents=True, exist_ok=True)] of a directory that exists
    changes nothing. *)
Lemma run_mkdir_parents_exists w n q wr sz ct :
  fs_wf (w_fs w) -> w_fs w !! (n :: q) = Some (NDir wr sz ct) ->
  path_mkdir (n :: q) true true w = (Ret tt, w).
Proof.
  intros Hwf Hp. unfold path_mkdir. cbn [mkdir_parents].
  destruct (os_mkdir_exists (w_fs w) (w_now w) n q _ Hwf Hp) as (e & He & ->).
  unfold mkdir_at. rewrite (run_try_caught _ _ _ _ (OSError EEXIST (path_str (n :: q)) None) w);
    [|by pym_run; apply run_syscall_err|done].
  cbn. unfold mkdir_exists_ok. pym_run. by rewrite (path_isdir_dir _ _ _ _ _ Hwf Hp).
Qed.

(** [Path.mkdir(exist_ok=True)] where a regular file stands raises
    [FileExistsError] and changes nothing. *)
Lemma run_mkdir_blocked w n q c sz ct :
  fs_wf (w_fs w) -> w_fs w !! (n :: q) = Some (NFile c sz ct) ->
  path_mkdir (n :: q) false true w = (Raise (OSError EEXIST (path_str (n :: q)) None), w).
Proof.
  intros Hwf Hp. unfold path_mkdir, mkdir_noparents, mkdir_at.
  destruct (os_mkdir_exists (w_fs w) (w_now w) n q _ Hwf Hp) as (e & He & ->).
  rewrite (run_try_caught _ _ _ _ (OSError EEXIST (path_str (n :: q)) None) w);
    [|by pym_run; apply run_syscall_err|done].
  cbn. unfold mkdir_exists_ok. pym_run. by rewrite (path_isdir_file _ _ _ _ _ Hwf Hp).
Qed.

(** [shutil.move] of a regular file out of a read-only directory to a
    free name: [os.rename] fails with [EACCES], the fallback copies the
    file with [copy2] and then fails to unlink the source, so the call
    raises with the copy left at [dst] and the original in place. *)
Lemma run_shutil_move_readonly (w : world) (src dst : path) (c : positive) (sz ct : Z) :
  fs_wf (w_fs w) -> w_fs w !! src = Some (NFile c sz ct) ->
  parent_dir (w_fs w) src = Ret false -> parent_dir (w_fs w) dst = Ret true -> w_fs w !! dst = None ->
  shutil_move src dst w =
  (Raise (OSError EACCES (path_str src) None), set_fs w (<[dst := NFile c sz (w_now w)]> (w_fs w))).
Proof.
  intros Hwf Hsrc Hps Hpd Hdst.
  assert (Hne : src <> dst) by (intros ->; congruence).
  destruct src as [|s0 q]; [destruct (root_is_dir _ Hwf) as (? & ? & ? & ?); congruence|].
  set (fs' := <[dst := NFile c sz (w_now w)]> (w_fs w)).
  assert (Hren : os_rename (w_fs w) (s0 :: q) dst = Raise (OSError EACCES (path_str (s0 :: q)) (Some (path_str dst)))).
  { unfold os_rename. by rewrite Hps, Hsrc, Hpd. }
  assert (Hwr : os_write_file (w_fs w) (w_now w) dst c sz = Ret fs') by (unfold os_write_file; by rewrite Hpd, Hdst).
  assert (Hunl : os_unlink fs' (s0 :: q) = Raise (OSError EACCES (path_str (s0 :: q)) None)).
  { pose proof Hps as Hq. apply (parent_dir_wf _ Hwf) in Hq as (psz & pct & Hq).
    assert (Hwf' : fs_wf fs') by (eapply os_write_file_wf; eauto).
    assert (Hq' : fs' !! q = Some (NDir false psz pct)) by (unfold fs'; rewrite lookup_insert_ne; congruence).
    unfold os_unlink. rewrite (proj2 (parent_dir_wf _ Hwf' s0 q false) (ex_intro _ psz (ex_intro _ pct Hq'))).
    cbn iota. unfold fs'. rewrite lookup_insert_ne by congruence. by rewrite Hsrc. }
  unfold shutil_move. pym_run. rewrite (path_isdir_absent _ _ Hwf Hdst). unfold samefile.
  rewrite bool_decide_eq_false_2 by done. pym_run.
  rewrite (run_try_caught _ _ _ _ _ w (run_syscall_err (fun fs => os_rename fs (s0 :: q) dst) w _ Hren)) by done.
  unfold move_fallback. pym_run. rewrite (path_isdir_file _ _ _ _ _ Hwf Hsrc).
  unfold copy2, samefile. pym_run. rewrite (path_isdir_absent _ _ Hwf Hdst). cbn. rewrite bool_decide_eq_false_2 by done.
  pym_run. rewrite (os_stat_wf _ _ _ Hwf Hsrc). pym_run. rewrite (run_syscall_ok (fun fs => os_write_file fs (w_now w) dst c sz) w _ Hwr). pym_run.
  by rewrite (run_syscall_err (fun fs => os_unlink fs (s0 :: q)) (set_fs w fs') _ Hunl).
Qed.

(** Running [shutil.move] on a regular file. *)
Lemma run_shutil_move_file (w : world) (src dst : path) (c : positive) (sz ct : Z) :
  fs_wf (w_fs w) -> w_fs w !! src = Some (NFile c sz ct) ->
  parent_dir (w_fs w) src = Ret true -> parent_dir (w_fs w) dst = Ret true -> src <> dst ->
  (w_fs w !! dst = None \/ exists c' sz' ct', w_fs w !! dst = Some (NFile c' sz' ct')) ->
  shutil_move src dst w = (Ret tt, set_fs w (<[dst := NFile c sz ct]> (delete src (w_fs w)))).
Proof.
  intros Hwf Hsrc Hps Hpd Hne Hdst. unfold shutil_move.
  assert (Hnd : path_isdir (w_fs w) dst = false).
  { destruct Hdst as [H | (? & ? & ? & H)]; eauto using path_isdir_absent, path_isdir_file. }
  pym_run. rewrite Hnd. pym_run.
  rewrite (run_try_ok _ _ _ _ tt (set_fs w (<[dst := NFile c sz ct]> (delete src (w_fs w))))); [done|].
  apply run_syscall_ok. by apply os_rename_file_ok.
Qed.

(** C18: [shutil.move(src, dst)] on a directory, with both parent
    directories writable, the directory itself writable unless it keeps
    its parent (macOS rewrites its [..] entry), [dst] free and not inside
    [src], renames the
    whole tree in one step: every entry below [src] is now below [dst],
    nothing else changes, and nothing is raised. *)
Theorem shutil_move_dir (w : world) (src dst : path) (wr : bool) (sz ct : Z) :
  fs_wf (w_fs w) -> w_fs w !! src = Some (NDir wr sz ct) ->
  parent_dir (w_fs w) src = Ret true -> parent_dir (w_fs w) dst = Ret true ->
  (wr = true \/ path_parent src = path_parent dst) ->
  is_under src dst = false -> w_fs w !! dst = None ->
  shutil_move src dst w = (Ret tt, set_fs w (move_tree src dst (w_fs w))).
Proof.
  intros Hwf Hsrc Hps Hpd Hwr Hu Hdst. unfold shutil_move.
  pym_run. rewrite (path_isdir_absent _ _ Hwf Hdst). pym_run.
  rewrite (run_try_ok _ _ _ _ tt (set_fs w (move_tree src dst (w_fs w)))); [done|].
  apply run_syscall_ok. by eapply os_rename_dir_ok.
Qed.

(** C17: [shutil.move(src, dst)] on a regular file, with both
    directories writable and [dst] free or a regular file, renames the
    file in one step: the disk afterwards is the old one with [src]
    removed and its node at [dst], replacing whatever file [dst] held,
    and nothing is raised. *)
Theorem shutil_move_file (w : world) (src dst : path) (c : positive) (sz ct : Z) :
  fs_wf (w_fs w) -> w_fs w !! src = Some (NFile c sz ct) ->
  parent_dir (w_fs w) src = Ret true -> parent_dir (w_fs w) dst = Ret true -> src <> dst ->
  (w_fs w !! dst = None \/ exists c' sz' ct', w_fs w !! dst = Some (NFile c' sz' ct')) ->
  shutil_move src dst w = (Ret tt, set_fs w (<[dst := NFile c sz ct]> (delete src (w_fs w)))).
Proof. apply run_shutil_move_file. Qed.

(** ** [shutil.move] raises only exceptions of class [Exception]

    Every failure inside [Path.mkdir] and [shutil.move] is an [OSError]
    or a [shutil.Error]; the instances below let instance search show it
    for the whole of [shutil_move], fallback included. *)

#[export] Instance mkdir_at_catchable p : Raises catchable (mkdir_at p).
Proof. unfold mkdir_at. apply _. Qed.

#[export] Instance mkdir_exists_ok_catchable p b e : catchable e -> Raises catchable (mkdir_exists_ok p b e).
Proof. intros. unfold mkdir_exists_ok. apply _. Qed.

#[export] Instance mkdir_noparents_catchable p b : Raises catchable (mkdir_noparents p b).
Proof. unfold mkdir_noparents. apply _. Qed.

#[export] Instance mkdir_parents_catchable p b : Raises catchable (mkdir_parents p b).
Proof. induction p in b |- *; simpl; apply _. Qed.

#[export] Instance path_mkdir_catchable p a b : Raises catchable (path_mkdir p a b).
Proof. unfold path_mkdir. apply _. Qed.

#[export] Instance os_makedirs_catchable p b : Raises catchable (os_makedirs p b).
Proof. induction p; simpl; apply _. Qed.

#[export] Instance copy2_catchable src dst : Raises catchable (copy2 src dst).
Proof. unfold copy2. apply _. Qed.

#[export] Instance copystat_dir_catchable src dst : Raises catchable (copystat_dir src dst).
Proof.
  unfold copystat_dir. apply raises_bind; [apply _|intros t].
  apply raises_syscall. intros fs e. by repeat case_match.
Qed.

#[export] Instance copytree_go_catchable fuel src dst : Raises catchable (copytree_go fuel src dst).
Proof. induction fuel in src, dst |- *; simpl; apply _. Qed.

#[export] Instance copytree_catchable src dst : Raises catchable (copytree src dst).
Proof. unfold copytree. apply _. Qed.

#[export] Instance relative_catchable n m : Raises catchable m -> Raises catchable (relative n m).
Proof.
  intros Hm. unfold relative. apply raises_try; [done|].
  intros [] He _; try (apply raises_throw; exact eq_refl); by apply raises_throw.
Qed.

#[export] Instance rmtree_go_catchable fuel d : Raises catchable (rmtree_go fuel d).
Proof. induction fuel in d |- *; cbn [rmtree_go]; apply _. Qed.

#[export] Instance rmtree_catchable p : Raises catchable (rmtree p).
Proof. unfold rmtree. apply _. Qed.

#[export] Instance move_fallback_catchable src r dst : Raises catchable (move_fallback src r dst).
Proof. unfold move_fallback. apply _. Qed.

#[export] Instance shutil_move_catchable src dst : Raises catchable (shutil_move src dst).
Proof. unfold shutil_move. apply _. Qed.

(** ** [Path.mkdir] and [shutil.move] keep the tree well formed *)

#[export] Instance copystat_dir_wf src dst : Preserves wf_kept (copystat_dir src dst).
Proof.
  unfold copystat_dir. apply (preserves_bind wf_kept); [apply _|intros t].
  apply syscall_wf_kept. intros fs fs' Hwf.
  repeat case_match; intros [= <-]; try done. by eapply wf_replace_dir.
Qed.

#[export] Instance mkdir_parents_wf p b : Preserves wf_kept (mkdir_parents p b).
Proof. induction p in b |- *; simpl; unfold mkdir_noparents, mkdir_exists_ok, mkdir_at; apply _. Qed.

#[export] Instance path_mkdir_wf p a b : Preserves wf_kept (path_mkdir p a b).
Proof. unfold path_mkdir, mkdir_noparents, mkdir_exists_ok, mkdir_at. apply _. Qed.

#[export] Instance os_makedirs_wf p b : Preserves wf_kept (os_makedirs p b).
Proof. induction p; simpl; unfold mkdir_noparents, mkdir_exists_ok, mkdir_at; apply _. Qed.

#[export] Instance copytree_go_wf fuel src dst : Preserves wf_kept (copytree_go fuel src dst).
Proof. induction fuel in src, dst |- *; cbn [copytree_go]; unfold copy2; apply _. Qed.

#[export] Instance relative_preserves R `{!PreOrder R} n m : Preserves R m -> Preserves R (relative n m).
Proof. intros Hm. unfold relative. apply (preserves_try R); [done|]. intros []; apply _. Qed.

#[export] Instance rmtree_go_wf fuel d : Preserves wf_kept (rmtree_go fuel d).
Proof. induction fuel in d |- *; cbn [rmtree_go]; apply _. Qed.

#[export] Instance shutil_move_wf src dst : Preserves wf_kept (shutil_move src dst).
Proof. unfold shutil_move, move_fallback, copytree, rmtree, copy2. apply _. Qed.

(** ** What [Path.mkdir] and [shutil.move] leave alone

    Every relation that all system calls preserve (the standard streams,
    for instance) is preserved by [Path.mkdir] and [shutil.move]: they
    print nothing and read no input. *)
Section SyscallRelation.
Context (R : relation world) `{!PreOrder R} (Hsys : forall f, Preserves R (syscall f)).

#[export] Instance path_mkdir_rel p a b : Preserves R (path_mkdir p a b).
Proof.
  unfold path_mkdir. destruct a; [|unfold mkdir_noparents, mkdir_exists_ok, mkdir_at; apply _].
  induction p in b |- *; simpl; unfold mkdir_noparents, mkdir_exists_ok, mkdir_at; apply _.
Qed.

#[export] Instance shutil_move_rel src dst : Preserves R (shutil_move src dst).
Proof.
  assert (forall p b, Preserves R (os_makedirs p b)).
  { intros p. induction p; intros b; simpl; unfold mkdir_noparents, mkdir_exists_ok, mkdir_at; apply _. }
  assert (forall f s d, Preserves R (copytree_go f s d)).
  { intros f. induction f; intros s d; cbn [copytree_go]; unfold copy2, copystat_dir; apply _. }
  assert (forall f d, Preserves R (rmtree_go f d)).
  { intros f. induction f; intros d; cbn [rmtree_go]; apply _. }
  unfold shutil_move, move_fallback, copytree, rmtree, copy2. apply _.
Qed.

End SyscallRelation.

End ShutilFacts.

Section Witness.
Import Sample.

Lemma shutil_move_file_witness :
  Shutil.shutil_move shot_may ("moved.png" :: "Desktop" :: home) (world0 []) =
  (Ret tt, set_fs (world0 []) (<[("moved.png" :: "Desktop" :: home) := NFile 1 1536 1714557600]>
                                (delete shot_may (w_fs (world0 []))))).
Proof.
  apply ShutilFacts.shutil_move_file.
  - apply (bool_decide_eq_true _). vm_compute. reflexivity.
  - vm_compute. reflexivity.
  - vm_compute. reflexivity.
  - vm_compute. reflexivity.
  - discriminate.
  - left. vm_compute. reflexivity.
Defined.

Lemma shutil_move_dir_witness :
  Shutil.shutil_move ["a"] ["c"] (mk_world two_dirs [] [] [] 0) =
  (Ret tt, set_fs (mk_world two_dirs [] [] [] 0) (move_tree ["a"] ["c"] two_dirs)).
Proof.
  apply (ShutilFacts.shutil_move_dir (mk_world two_dirs [] [] [] 0) ["a"] ["c"] true 64 0).
  - apply (bool_decide_eq_true _). vm_compute. reflexivity.
  - vm_compute. reflexivity.
  - vm_compute. reflexivity.
  - vm_compute. reflexivity.
  - by left.
  - vm_compute. reflexivity.
  - vm_compute. reflexivity.
Defined.

End Witness.

