(* ===== verification/ShutilFuel.v ===== *)
(** * The fuel of [shutil.rmtree] and [shutil.copytree] is enough

    [rmtree_go] and [copytree_go] walk a directory tree on a fuel that
    cuts the walk off when it runs out; [rmtree] and [copytree] give it
    [tree_fuel fs], one more than the longest path of the disk.  This file
    shows the cut-off is never reached: with more fuel than the depth of
    the tree below the directory, extra fuel does not change the walk
    ([rmtree_go_fuel], [copytree_go_fuel]), and [tree_fuel] is such a
    bound, so both behave as the unbounded walks of CPython
    ([rmtree_enough_fuel], [copytree_enough_fuel]).  The removal only
    removes entries ([shrinks]); the copy only writes keys outside the
    source tree ([same_below], for a target [away] from the source), so
    the bound holds at every step.  [shutil_move_dir_cases] follows
    [shutil.move] of a directory on a well-formed disk: it raises with
    the disk unchanged, or is one [os.rename], or runs [copytree] to a
    target [away] from the source (its guards [destinsrc], [samefile] and
    the existence check ensure it) and then [rmtree]. *)

From S2P Require Import Prelude PyStr Fs FsFacts FsRename PyMonad PyFacts Sample Shutil ShutilFacts.

Module ShutilFuel.
Import Shutil ShutilFacts.

(** ** The walk only removes entries *)

Definition shrinks : relation world := fun w w' => w_fs w' ⊆ w_fs w.

#[export] Instance shrinks_preorder : PreOrder shrinks.
Proof. split; unfold shrinks; [by intros ?|intros ??? H1 H2; by trans (w_fs y)]. Qed.

Lemma syscall_delete_shrinks (f : fsys -> outcome exn fsys) :
  (forall fs fs', f fs = Ret fs' -> fs' ⊆ fs) -> Preserves shrinks (syscall f).
Proof.
  intros Hf w r w'. unfold syscall, shrinks. destruct (f (w_fs w)) eqn:E; intros [= _ <-]; [|done].
  exact (Hf _ _ E).
Qed.

#[export] Instance rmdir_shrinks p : Preserves shrinks (syscall (fun fs => os_rmdir fs p)).
Proof.
  apply syscall_delete_shrinks. intros fs fs'. unfold os_rmdir, os_err.
  repeat case_match; intros Hr; simplify_eq; apply delete_subseteq.
Qed.

#[export] Instance unlink_shrinks p : Preserves shrinks (syscall (fun fs => os_unlink fs p)).
Proof.
  apply syscall_delete_shrinks. intros fs fs'. unfold os_unlink, os_err.
  repeat case_match; intros Hr; simplify_eq; apply delete_subseteq.
Qed.

#[export] Instance rmtree_go_shrinks fuel d : Preserves shrinks (rmtree_go fuel d).
Proof. induction fuel in d |- *; cbn [rmtree_go]; apply _. Qed.

(** ** Folds and loops over the entries *)

Lemma foldl_seq {A : Type} (F : PyM unit -> A -> PyM unit) (body : A -> PyM unit) (m : PyM unit) l w :
  (forall acc x w, F acc x w = (acc;; body x) w) ->
  foldl F m l w = (m;; for_each l body) w.
Proof.
  intros HF. induction l as [|x l IH] in m, w |- *; simpl.
  - rewrite bind_run. by destruct (m w) as [[[]|] ?].
  - rewrite IH, bind_run, HF, bind_run, bind_run. destruct (m w) as [[[]|] w1]; [|done].
    simpl. rewrite bind_run. by destruct (body x w1) as [[[]|] ?].
Qed.

(** Two loop bodies that agree on every world the loop can reach, below
    the disk [fs0], run the same loop. *)
Lemma for_each_congr {A : Type} (fs0 : fsys) (l : list A) (b1 b2 : A -> PyM unit) w :
  (forall x, Preserves shrinks (b1 x)) ->
  (forall x w', x ∈ l -> w_fs w' ⊆ fs0 -> b1 x w' = b2 x w') ->
  w_fs w ⊆ fs0 -> for_each l b1 w = for_each l b2 w.
Proof.
  intros Hp. induction l as [|x l IH] in w |- *; intros Hb Hw; [done|].
  rewrite !run_for_each_cons, <- Hb by (done || by left).
  destruct (b1 x w) as [[[]|e] w1] eqn:E; [|done].
  apply IH; [intros; apply Hb; [by right|done]|]. trans (w_fs w); [exact (Hp x _ _ _ E)|done].
Qed.

(** ** Enough fuel *)

(** Every entry strictly below [d] is fewer than [h] names deeper. *)
Definition below_bound (fs : fsys) (d : path) (h : nat) : Prop :=
  forall r nd, fs !! (r ++ d)%list = Some nd -> length r < h.

Lemma below_bound_child fs fs' d n f :
  fs' ⊆ fs -> below_bound fs d (S f) -> below_bound fs' (n :: d) f.
Proof.
  intros Hsub Hb r nd Hr. apply (lookup_weaken _ _ _ _ Hr) in Hsub.
  specialize (Hb (r ++ [n])%list nd). rewrite <- app_assoc, length_app in Hb. simpl in Hb.
  specialize (Hb Hsub). lia.
Qed.

Lemma listdir_nil fs d : (forall n, fs !! (n :: d) = None) -> listdir fs d = [].
Proof.
  intros H. destruct (listdir fs d) as [|n l] eqn:E; [done|].
  assert (Hn : n ∈ listdir fs d) by (rewrite E; left). apply elem_of_listdir in Hn.
  by rewrite H in Hn; destruct Hn.
Qed.

Lemma rmtree_body_eq (f : nat) (d : path) :
  forall (acc : PyM unit) (x : string * bool) (w : world),
    (let '(n, isdir) := x in
     acc;; if isdir then rmtree_go f (n :: d);; relative n (syscall (fun fs => os_rmdir fs (n :: d)))
           else relative n (syscall (fun fs => os_unlink fs (n :: d)))) w =
    (acc;; (let '(n, isdir) := x in
            if isdir then rmtree_go f (n :: d);; relative n (syscall (fun fs => os_rmdir fs (n :: d)))
            else relative n (syscall (fun fs => os_unlink fs (n :: d))))) w.
Proof. by intros acc [n []] w. Qed.

(** With more fuel than the depth of the tree below [d], the walk of
    [shutil.rmtree] does not depend on the fuel: it never runs out. *)
Lemma rmtree_go_fuel (f k : nat) (d : path) (w : world) :
  below_bound (w_fs w) d f -> rmtree_go f d w = rmtree_go (f + k) d w.
Proof.
  induction f as [|f IH] in d, w |- *; intros Hb.
  - destruct k as [|k]; [done|]. cbn [rmtree_go Nat.add]. rewrite bind_run, run_read_fs.
    rewrite listdir_nil; [done|]. intros n. destruct (w_fs w !! (n :: d)) eqn:E; [|done].
    specialize (Hb [n] n0 E). simpl in Hb. lia.
  - cbn [rmtree_go Nat.add]. rewrite !bind_run, !run_read_fs.
    rewrite !(foldl_seq _ _ _ _ _ (rmtree_body_eq _ d)), !bind_run. cbv beta iota.
    apply (for_each_congr (w_fs w)); [intros [n []]; apply _| |done].
    intros [n []] w' _ Hw'; [|done]. rewrite !bind_run, IH; [done|].
    by eapply below_bound_child.
Qed.

Lemma foldr_max_ge (x : nat) (l : list nat) : x ∈ l -> x <= foldr max 0 l.
Proof. induction 1; simpl; lia. Qed.

Lemma tree_fuel_bound fs d : below_bound fs d (tree_fuel fs).
Proof.
  intros r nd Hr. unfold tree_fuel.
  assert (length (r ++ d)%list <= foldr max 0 (length <$> (map_to_list fs).*1)).
  { apply foldr_max_ge, list_elem_of_fmap. exists (r ++ d)%list. split; [done|].
    apply list_elem_of_fmap. exists ((r ++ d)%list, nd). split; [done|]. by apply elem_of_map_to_list. }
  rewrite length_app in H. lia.
Qed.

(** [shutil.rmtree] as modelled is the unbounded walk: giving the
    walk any amount of fuel beyond [tree_fuel] changes nothing, so the
    fuel bound never cuts the removal short. *)
Theorem rmtree_enough_fuel (p : path) (k : nat) (w : world) :
  rmtree p w = (rmtree_go (tree_fuel (w_fs w) + k) p;; syscall (fun fs => os_rmdir fs p)) w.
Proof.
  unfold rmtree. rewrite bind_run, run_read_fs, !bind_run.
  by rewrite <- rmtree_go_fuel by apply tree_fuel_bound.
Qed.

(** ** The walk of [shutil.copytree] leaves the source tree's keys alone *)

(** The keys of the disk at and below [src] are the same in both worlds. *)
Definition same_below (src : path) : relation world :=
  fun w w' => forall r, is_Some (w_fs w' !! (r ++ src)%list) <-> is_Some (w_fs w !! (r ++ src)%list).

#[export] Instance same_below_preorder src : PreOrder (same_below src).
Proof. unfold same_below. split; [by intros ??|intros ??? H1 H2 r; by rewrite H2, H1]. Qed.

(** A system call that either changes nothing or sets the one key [p]. *)
Class WritesAt (p : path) (f : fsys -> outcome exn fsys) : Prop :=
  writes_at : forall fs fs', f fs = Ret fs' -> fs' = fs \/ exists v, fs' = <[p := v]> fs.

#[export] Instance os_mkdir_writes t p : WritesAt p (fun fs => os_mkdir fs t p).
Proof. intros fs fs'. unfold os_mkdir, os_err. repeat case_match; intros Hr; simplify_eq; eauto. Qed.

#[export] Instance os_write_file_writes t p c sz : WritesAt p (fun fs => os_write_file fs t p c sz).
Proof. intros fs fs'. unfold os_write_file, os_err. repeat case_match; intros Hr; simplify_eq; eauto. Qed.

(** [d] and every path below it lie outside the tree of [src]. *)
Definition away (src d : path) : Prop := forall r, is_under src (r ++ d)%list = false.

Lemma away_cons src d n : away src d -> away src (n :: d).
Proof. intros H r. specialize (H (r ++ [n])%list). by rewrite <- app_assoc in H. Qed.

(** The ancestors of [d] lie outside the tree of [src] too. *)
Lemma away_drop src d i : away src d -> is_under src (drop i d) = false.
Proof.
  intros H. apply is_under_false. intros r Hr. specialize (H []). simpl in H.
  rewrite is_under_false in H. apply (H (take i d ++ r)%list). by rewrite <- app_assoc, <- Hr, take_drop.
Qed.

Lemma is_under_cons_inv n a p : is_under (n :: a) p = true -> is_under a p = true.
Proof. rewrite !is_under_spec. intros [r ->]. exists (r ++ [n])%list. by rewrite <- app_assoc. Qed.

Lemma away_child src d n : away src d -> away (n :: src) (n :: d).
Proof.
  intros H r. destruct (is_under (n :: src) (r ++ n :: d)%list) eqn:E; [|done].
  apply is_under_cons_inv in E. specialize (H (r ++ [n])%list). rewrite <- app_assoc in H. simpl in H. by rewrite H in E.
Qed.

(** One entry of the copy: a sub-walk or a [copy2], errors caught. *)
Ltac copy_entry_same_below R IH C Ha :=
  intros acc [n isdir] Hacc; apply (preserves_bind R); [done|intros errs];
  apply (preserves_try R); [|intros; apply _];
  destruct isdir; (apply (preserves_bind R); [|intros; apply _]);
  [apply IH, away_cons, Ha|apply C, away_cons, Ha].

(** [away] decided: neither path lies in the other's tree. *)
Definition away_b (src d : path) : bool := negb (is_under src d) && negb (is_under d src).

Lemma away_b_spec src d : away_b src d = true -> away src d.
Proof.
  unfold away_b. rewrite andb_true_iff, !negb_true_iff, !is_under_false. intros [H1 H2] r.
  apply is_under_false. intros r' Heq. apply app_eq_inv in Heq as [(k & _ & Hk)|(k & _ & Hk)]; [by eapply H2|by eapply H1].
Qed.

(** [pym_run] on a hypothesis. *)
Local Ltac pym_run_in H :=
  repeat first [ progress cbn [w_fs w_in w_out w_err w_now andb orb negb] in H
               | rewrite bind_run in H | rewrite run_read_fs in H | rewrite run_ret in H | rewrite run_throw in H ].

Section SameBelow.
Context (src : path).
Local Notation R := (same_below src).

Lemma writes_same_below p f : WritesAt p f -> is_under src p = false -> Preserves R (syscall f).
Proof.
  intros Hf Hp w r w'. unfold syscall. destruct (f (w_fs w)) as [fs'|e] eqn:E; intros [= _ <-]; [|done].
  destruct (writes_at _ _ E) as [->|[v ->]]; [done|]. intros r'. simpl. rewrite lookup_insert_ne; [done|].
  rewrite is_under_false in Hp. apply Hp.
Qed.

Lemma mkdir_at_same_below p : is_under src p = false -> Preserves R (mkdir_at p).
Proof. intros Hp. unfold mkdir_at. apply (preserves_bind R); [apply _|intros t]. apply (writes_same_below p); [apply _|done]. Qed.

Lemma os_makedirs_same_below p b : (forall i, is_under src (drop i p) = false) -> Preserves R (os_makedirs p b).
Proof.
  induction p as [|a q IH]; intros Hp; cbn [os_makedirs]; unfold mkdir_noparents, mkdir_exists_ok.
  - apply (preserves_try R); [apply mkdir_at_same_below, (Hp 0)|intros; apply _].
  - apply (preserves_bind R); [apply _|intros ex]. apply (preserves_bind R).
    + destruct ex; cbn [negb]; [apply _|]. apply (preserves_try R); [|intros; apply _].
      apply IH. intros i. apply (Hp (S i)).
    + intros _. apply (preserves_try R); [apply mkdir_at_same_below, (Hp 0)|intros; apply _].
Qed.

Lemma copy2_same_below s d : away src d -> Preserves R (copy2 s d).
Proof.
  intros Ha. unfold copy2. apply (preserves_bind R); [apply _|intros isd]. cbv zeta.
  apply (preserves_bind R); [apply _|intros []]; [apply _|].
  apply (preserves_bind R); [apply _|intros []]; [|apply _].
  apply (preserves_bind R); [apply _|intros t]. apply (writes_same_below (if isd then basename s :: d else d)); [apply _|].
  destruct isd; [exact (away_cons _ _ _ Ha [])|exact (Ha [])].
Qed.

Lemma copystat_dir_same_below s d : is_under src d = false -> Preserves R (copystat_dir s d).
Proof.
  intros Hd. unfold copystat_dir. apply (preserves_bind R); [apply _|intros t].
  apply (writes_same_below d); [|done]. intros fs fs'. repeat case_match; intros Hr; simplify_eq; eauto.
Qed.

Lemma copytree_go_same_below f s d : away src d -> Preserves R (copytree_go f s d).
Proof.
  induction f as [|f IH] in s, d |- *; intros Ha; cbn [copytree_go]; [apply _|].
  apply (preserves_bind R); [apply _|intros entries].
  apply (preserves_bind R); [apply os_makedirs_same_below; intros i; by apply away_drop|intros _].
  apply (preserves_bind R); [|intros errs; apply (preserves_bind R); [apply copystat_dir_same_below, (Ha [])|intros; apply _]].
  apply preserves_foldl; [|apply _]. copy_entry_same_below (same_below src) IH copy2_same_below Ha.
Qed.

End SameBelow.

(** Two accumulating folds agree from [w] on when their steps agree on
    every world reachable from [w0] and the first one stays reachable. *)
Lemma foldl_congr {A B : Type} (R : relation world) `{!PreOrder R} (w0 : world)
    (F1 F2 : PyM B -> A -> PyM B) (l : list A) :
  (forall acc x, Preserves R acc -> Preserves R (F1 acc x)) ->
  (forall acc1 acc2 x w, x ∈ l -> Preserves R acc1 -> (forall w', R w0 w' -> acc1 w' = acc2 w') ->
     R w0 w -> F1 acc1 x w = F2 acc2 x w) ->
  forall m1 m2 w, Preserves R m1 -> (forall w', R w0 w' -> m1 w' = m2 w') -> R w0 w ->
  foldl F1 m1 l w = foldl F2 m2 l w.
Proof.
  intros HF Hs. induction l as [|x l IH]; intros m1 m2 w Hm Heq Hw; simpl; [by apply Heq|].
  apply IH; [intros; apply Hs; auto; by right|apply HF, Hm| |done].
  intros w' Hw'. apply Hs; auto. by left.
Qed.

(** With more fuel than the depth of the tree below [src], the walk of
    [shutil.copytree] does not depend on the fuel, as long as [dst] is
    outside that tree: writing the copy never adds or removes a key
    below [src], so every directory the walk lists is still as deep as
    it was when the walk began. *)
Lemma copytree_go_fuel (f k : nat) (src dst : path) (w : world) :
  below_bound (w_fs w) src f -> is_Some (w_fs w !! src) -> away src dst ->
  copytree_go f src dst w = copytree_go (f + k) src dst w.
Proof.
  induction f as [|f IH] in src, dst, w |- *; intros Hb [nd Hs] Ha.
  { specialize (Hb [] nd Hs). simpl in Hb. lia. }
  cbn [copytree_go Nat.add]. rewrite !bind_run, !run_read_fs, !bind_run.
  destruct (os_makedirs dst false w) as [[[]|e] w1] eqn:Em; [|done].
  assert (Hw1 : same_below src w w1).
  { eapply (os_makedirs_same_below src dst false); [|exact Em]. intros i. by apply away_drop. }
  rewrite !bind_run. erewrite (foldl_congr (same_below src) w); [done| | |apply _|done|done].
  - copy_entry_same_below (same_below src) (copytree_go_same_below src f) (copy2_same_below src) Ha.
  - intros acc1 acc2 [n isdir] w2 Hin Hp Heq Hw2. rewrite !bind_run, <- Heq by done.
    destruct (acc1 w2) as [[errs|e] w3] eqn:E; [|done].
    assert (Hw3 : same_below src w w3) by (etrans; [exact Hw2|exact (Hp _ _ _ E)]).
    destruct isdir; [|done]. unfold try_except. rewrite !bind_run, (IH (n :: src) (n :: dst) w3); [done| | |].
    + intros r nd' Hr. specialize (Hw3 (r ++ [n])%list). rewrite <- app_assoc in Hw3. simpl in Hw3.
      destruct (proj1 Hw3 (mk_is_Some _ _ Hr)) as [nd0 H0]. specialize (Hb (r ++ [n])%list nd0).
      rewrite <- app_assoc, length_app in Hb. simpl in Hb. specialize (Hb H0). lia.
    + apply list_elem_of_fmap in Hin as [m [[= <- _] Hm]]. apply elem_of_listdir in Hm.
      exact (proj2 (Hw3 [n]) Hm).
    + by apply away_child.
Qed.

(** ** Where [shutil.move] calls [copytree] *)

Lemma wf_ancestor_dir fs k p nd : fs_wf fs -> fs !! (k ++ p)%list = Some nd -> k <> [] -> dir_at fs p = true.
Proof.
  intros Hwf. induction k as [|x k IH] in nd |- *; intros H Hk; [done|].
  apply (wf_parent fs Hwf) in H. destruct k as [|y k]; [done|].
  apply dir_at_Some in H as (w & sz & ct & H). by eapply IH.
Qed.

Lemma isdir_lookup fs p : fs_wf fs -> path_isdir fs p = true -> is_Some (fs !! p).
Proof.
  intros Hwf. unfold path_isdir. destruct (resolve fs p) as [nd|] eqn:E; [|done].
  apply (resolve_wf fs Hwf) in E. by eexists.
Qed.

Lemma ancestor_isdir fs k p : fs_wf fs -> path_isdir fs (k ++ p)%list = true -> path_isdir fs p = true.
Proof.
  intros Hwf Hd. destruct k as [|x k]; [done|].
  destruct (isdir_lookup _ _ Hwf Hd) as [nd Hnd]. eapply wf_ancestor_dir in Hnd as Hp; [|done|done].
  apply dir_at_Some in Hp as (w & sz & ct & Hp). by eapply path_isdir_dir.
Qed.



(** [shutil.copytree] as modelled is the unbounded walk of CPython:
    when [src] exists and [dst] lies outside its tree, giving the walk any
    amount of fuel beyond [tree_fuel] changes nothing, so the depth bound
    never cuts the copy short. *)
Theorem copytree_enough_fuel (src dst : path) (k : nat) (w : world) :
  is_Some (w_fs w !! src) -> away src dst ->
  copytree src dst w =
  (errs ← copytree_go (tree_fuel (w_fs w) + k) src dst;
   if bool_decide ((errs : list copy_error) = []) then mret tt
   else mthrow (ShutilError (render_copy_errors errs))) w.
Proof.
  intros Hs Ha. unfold copytree. rewrite bind_run, run_read_fs, !bind_run.
  by rewrite <- copytree_go_fuel by (apply tree_fuel_bound || done).
Qed.

(** The guards of [shutil.move] before its [copytree] fallback (the
    into-itself test and the existence check) put the target outside the
    source tree, on a well-formed disk. *)
Lemma move_copy_away (fs : fsys) (src dst : path) :
  fs_wf fs -> path_isdir fs src = true -> destinsrc src dst = false ->
  (path_isdir fs dst = true -> path_exists fs (basename src :: dst) = false) ->
  away src (if path_isdir fs dst then basename src :: dst else dst).
Proof.
  intros Hwf Hs Hin Hex r. apply is_under_false. intros r' Heq.
  apply app_eq_inv in Heq as [(k & -> & Hk)|(k & -> & Hk)].
  - (* [src] at or below the destination *)
    rewrite Hk in Hs. apply ancestor_isdir in Hs; [|done].
    destruct (path_isdir fs dst) eqn:Ed.
    + specialize (Hex eq_refl). rewrite path_exists_wf, bool_decide_eq_false in Hex by done.
      by apply Hex, isdir_lookup.
    + by rewrite Hs in Ed.
  - (* the destination below [src] *)
    unfold destinsrc in Hin. destruct k as [|x k]; simpl in Hk.
    + rewrite <- Hk in Hs. destruct (path_isdir fs dst) eqn:Ed; [|by rewrite Hs in Ed].
      specialize (Hex eq_refl). rewrite path_exists_wf, bool_decide_eq_false in Hex by done.
      by apply Hex, isdir_lookup.
    + destruct (path_isdir fs dst); [injection Hk as _ Hk|].
      * by rewrite (proj2 (is_under_spec src dst) (ex_intro _ k Hk)) in Hin.
      * by rewrite (proj2 (is_under_spec src dst) (ex_intro _ (x :: k) Hk)) in Hin.
Qed.

(** C14: [shutil.move] of a directory copies only to a place outside it:
    on a well-formed disk, moving a directory [src] either raises with the
    world untouched, or is one successful [os.rename], or runs [copytree]
    into a target [away] from [src] and then [rmtree src]. *)
Theorem shutil_move_dir_cases (w : world) (src dst : path) :
  fs_wf (w_fs w) -> path_isdir (w_fs w) src = true ->
  (exists e, shutil_move src dst w = (Raise e, w)) \/
  (exists rd fs', os_rename (w_fs w) src rd = Ret fs' /\ shutil_move src dst w = (Ret tt, set_fs w fs')) \/
  (exists rd, away src rd /\ shutil_move src dst w = (copytree src rd;; rmtree src) w).
Proof.
  intros Hwf Hs. destruct (shutil_move src dst w) as [res w'] eqn:Hrun. unfold shutil_move in Hrun.
  pym_run_in Hrun.
  destruct (path_isdir (w_fs w) dst && samefile (w_fs w) src dst) eqn:Hsame.
  { unfold syscall in Hrun. destruct (os_rename (w_fs w) src dst) as [fs'|e] eqn:Hr; invc Hrun;
      [right; left; by exists dst, fs'|left; by exists e]. }
  pose proof (move_copy_away (w_fs w) src dst Hwf Hs) as Ha.
  destruct (path_isdir (w_fs w) dst) eqn:Hd; pym_run_in Hrun.
  1: destruct (path_exists (w_fs w) (basename src :: dst)) eqn:Hex; pym_run_in Hrun; [left; invc Hrun; by eexists|].
  all: unfold try_except, syscall in Hrun.
  all: match type of Hrun with context [os_rename _ _ ?r] =>
         destruct (os_rename (w_fs w) src r) as [fs'|e] eqn:Hr; [invc Hrun; right; left; by exists r, fs'|];
         destruct (is_OSError e); [|left; invc Hrun; by eexists];
         unfold move_fallback in Hrun; pym_run_in Hrun; rewrite Hs in Hrun;
         destruct (destinsrc src dst) eqn:Hin; [left; invc Hrun; by eexists|]; pym_run_in Hrun;
         destruct (negb (dir_writable (w_fs w) src) && has_children (w_fs w) src); [left; invc Hrun; by eexists|];
         right; right; exists r; split; [|by invc Hrun]
       end.
  - by apply Ha.
  - apply Ha; [done|discriminate].
Qed.




Section Witnesses.
Import Sample.

Lemma copytree_enough_fuel_witness :
  copytree ("Desktop" :: home) ("Desktop" :: "Pictures" :: home) (world0 []) =
  (errs ← copytree_go (tree_fuel fs0 + 3) ("Desktop" :: home) ("Desktop" :: "Pictures" :: home);
   if bool_decide ((errs : list copy_error) = []) then mret tt
   else mthrow (ShutilError (render_copy_errors errs))) (world0 []).
Proof.
  apply (copytree_enough_fuel ("Desktop" :: home) ("Desktop" :: "Pictures" :: home) 3 (world0 [])).
  - vm_compute. by eexists.
  - apply away_b_spec. vm_compute. reflexivity.
Defined.

Lemma shutil_move_dir_cases_witness :
  let w := mk_world two_dirs [] [] [] 0 in
  (exists e, shutil_move ["a"] ["c"] w = (Raise e, w)) \/
  (exists rd fs', os_rename (w_fs w) ["a"] rd = Ret fs' /\ shutil_move ["a"] ["c"] w = (Ret tt, set_fs w fs')) \/
  (exists rd, away ["a"] rd /\ shutil_move ["a"] ["c"] w = (copytree ["a"] rd;; rmtree ["a"]) w).
Proof.
  intros w. apply (shutil_move_dir_cases w ["a"] ["c"]).
  - apply (bool_decide_unpack _). vm_compute. reflexivity.
  - vm_compute. reflexivity.
Defined.

End Witnesses.

End ShutilFuel.
