(* ===== verification/Rmtree.v ===== *)
(** * [shutil.rmtree] removes exactly the tree it is given

    [rmtree p] walks the directory [p] ([rmtree_go]): for each entry of
    the listing it removes a sub-directory by a recursive walk and then
    [os.rmdir], a file by [os.unlink], and at the end removes [p] itself.
    On a well-formed disk where [p] and every directory below it are
    writable and the parent of [p] is writable, [rmtree_removes_tree]
    shows the walk succeeds and leaves exactly the disk without [p] and
    everything below it.  The walk of one directory is a loop over its
    children; [without d S fs] is the disk whose children [S] of [d] have
    been removed with their trees, the invariant of that loop. *)

From S2P Require Import Prelude PyStr Fs FsFacts FsRename PyMonad PyFacts Sample Shutil ShutilFacts ShutilFuel.

Module Rmtree.
Import Shutil ShutilFuel.

(** [k] lies strictly below [d]. *)
Definition strictly_below (d k : path) : bool := is_under d k && negb (bool_decide (k = d)).

(** The disk without the trees of the children [S] of [d]. *)
Definition without (d : path) (S : list string) (fs : fsys) : fsys :=
  filter (fun kv : path * node => forallb (fun n => negb (is_under (n :: d) kv.1)) S = true) fs.

(** The disk without the entries strictly below [d]. *)
Definition below_removed (d : path) (fs : fsys) : fsys :=
  filter (fun kv : path * node => negb (strictly_below d kv.1) = true) fs.

(** ** Paths below a directory *)

Lemma is_under_refl p : is_under p p = true.
Proof. apply is_under_spec. by exists []. Qed.

Lemma strictly_below_spec d k : strictly_below d k = true <-> exists r, r <> [] /\ k = (r ++ d)%list.
Proof.
  unfold strictly_below. rewrite andb_true_iff, negb_true_iff, bool_decide_eq_false, is_under_spec.
  split.
  - intros [[r ->] Hne]. exists r. split; [|done]. intros ->. by apply Hne.
  - intros (r & Hr & ->). split; [by exists r|]. intros Heq.
    apply (f_equal length) in Heq. rewrite length_app in Heq. destruct r; [done|simpl in Heq; lia].
Qed.

Lemma under_child_below n d k : is_under (n :: d) k = true -> strictly_below d k = true.
Proof.
  rewrite is_under_spec, strictly_below_spec. intros [r ->].
  exists (r ++ [n])%list. split; [by destruct r|]. by rewrite <- app_assoc.
Qed.

Lemma below_under_child d k : strictly_below d k = true -> exists n, is_under (n :: d) k = true.
Proof.
  rewrite strictly_below_spec. intros (r & Hr & ->).
  destruct (exists_last Hr) as (r' & n & ->). exists n. apply is_under_spec. exists r'.
  by rewrite <- app_assoc.
Qed.

Lemma under_child_inj n m d k : is_under (n :: d) k = true -> is_under (m :: d) k = true -> n = m.
Proof.
  rewrite !is_under_spec. intros [r1 ->] [r2 Heq].
  change (n :: d) with ([n] ++ d)%list in Heq. change (m :: d) with ([m] ++ d)%list in Heq.
  rewrite !app_assoc in Heq. apply app_suffix_inj, app_inj_tail in Heq. by destruct Heq.
Qed.

Lemma under_cases p k : is_under p k = true <-> k = p \/ strictly_below p k = true.
Proof.
  unfold strictly_below. destruct (is_under p k) eqn:E; simpl.
  - case_bool_decide; simpl; naive_solver.
  - split; [done|]. intros [->|H]; [by rewrite is_under_refl in E|done].
Qed.

(** ** Lookups in the shrinking disks *)

Lemma without_lookup d S fs k :
  without d S fs !! k = if forallb (fun n => negb (is_under (n :: d) k)) S then fs !! k else None.
Proof.
  unfold without. rewrite map_lookup_filter. destruct (fs !! k); simpl; case_match;
    [by rewrite option_guard_True|by rewrite option_guard_False|done|done].
Qed.

Lemma below_removed_lookup d fs k :
  below_removed d fs !! k = if strictly_below d k then None else fs !! k.
Proof.
  unfold below_removed. rewrite map_lookup_filter. destruct (fs !! k); simpl; case_match;
    [by rewrite option_guard_False|by rewrite option_guard_True|done|done].
Qed.

Lemma without_nil d fs : without d [] fs = fs.
Proof. apply map_eq. intros k. by rewrite without_lookup. Qed.


Lemma is_under_cons a x q : is_under a q = true -> is_under a (x :: q) = true.
Proof. rewrite !is_under_spec. intros [r ->]. by exists (x :: r). Qed.

Lemma not_under_nil n d : is_under (n :: d) [] = false.
Proof. apply is_under_false. intros r Heq. by destruct r. Qed.

Lemma not_below_nil d : strictly_below d [] = false.
Proof. apply not_true_iff_false. rewrite strictly_below_spec. intros (r & Hr & Heq). by destruct r. Qed.

Lemma below_cons d x q : strictly_below d q = true -> strictly_below d (x :: q) = true.
Proof. rewrite !strictly_below_spec. intros (r & _ & ->). by exists (x :: r). Qed.

(** ** The shrinking disks stay well formed *)

Lemma filter_lookup_keep (P : path -> bool) (fs : fsys) k :
  P k = true -> filter (fun kv : path * node => P kv.1 = true) fs !! k = fs !! k.
Proof. intros Hk. rewrite map_lookup_filter. destruct (fs !! k); simpl; [by rewrite option_guard_True|done]. Qed.

(** Keeping a set of keys that holds the root and the parent of each of
    its keys keeps the tree well formed. *)
Lemma wf_filter_closed (P : path -> bool) (fs : fsys) :
  fs_wf fs -> P [] = true -> (forall x q, P (x :: q) = true -> P q = true) ->
  fs_wf (filter (fun kv : path * node => P kv.1 = true) fs).
Proof.
  intros [Hroot Hall] H0 Hcl. split.
  - unfold dir_at in *. by rewrite filter_lookup_keep.
  - intros k nd Hk. apply map_lookup_filter_Some in Hk as [Hk Pk]. simpl in Pk.
    specialize (Hall k nd Hk). destruct k as [|x q]; [done|]. simpl in *.
    unfold dir_at in *. rewrite filter_lookup_keep; [done|]. by apply (Hcl x).
Qed.

Lemma without_wf d S fs : fs_wf fs -> fs_wf (without d S fs).
Proof.
  intros Hwf. apply (wf_filter_closed (fun k => forallb (fun n => negb (is_under (n :: d) k)) S)); [done| |].
  - apply forallb_forall. intros n _. by rewrite not_under_nil.
  - intros x q. rewrite !forallb_forall. intros H n Hn. specialize (H n Hn).
    destruct (is_under (n :: d) q) eqn:E; [|done]. by rewrite (is_under_cons _ x _ E) in H.
Qed.

Lemma below_removed_wf d fs : fs_wf fs -> fs_wf (below_removed d fs).
Proof.
  intros Hwf. apply (wf_filter_closed (fun k => negb (strictly_below d k))); [done|by rewrite not_below_nil|].
  intros x q. destruct (strictly_below d q) eqn:E; [|done]. by rewrite (below_cons _ x _ E).
Qed.

(** ** Entries below an entry *)

Lemma ancestor_present (fs : fsys) r p nd : fs_wf fs -> fs !! (r ++ p)%list = Some nd -> exists nd', fs !! p = Some nd'.
Proof.
  intros Hwf. induction r as [|x r IH] in nd |- *; [eauto|]. simpl. intros H.
  apply (wf_parent fs Hwf) in H. apply dir_at_Some in H as (w & sz & ct & H). eauto.
Qed.

Lemma file_no_below (fs : fsys) p c sz ct k :
  fs_wf fs -> fs !! p = Some (NFile c sz ct) -> strictly_below p k = true -> fs !! k = None.
Proof.
  intros Hwf Hp Hk. destruct (fs !! k) as [nd|] eqn:E; [|done].
  apply strictly_below_spec in Hk as (r & Hr & ->). destruct (exists_last Hr) as (r' & m & ->).
  rewrite <- app_assoc in E. simpl in E. destruct (ancestor_present fs r' (m :: p) nd Hwf E) as [nd' H'].
  by rewrite (file_no_children fs Hwf p c sz ct m Hp) in H'.
Qed.

(** ** The two system calls of one entry *)

Lemma rmdir_emptied (fs : fsys) n d sz ct wr dsz dct :
  fs_wf fs -> fs !! d = Some (NDir true sz ct) -> fs !! (n :: d) = Some (NDir wr dsz dct) ->
  (forall m, fs !! (m :: n :: d) = None) -> os_rmdir fs (n :: d) = Ret (delete (n :: d) fs).
Proof.
  intros Hwf Hd Hnd Hempty. unfold os_rmdir.
  rewrite (proj2 (parent_dir_wf fs Hwf n d true) (ex_intro _ sz (ex_intro _ ct Hd))), Hnd.
  cbn [negb]. by rewrite (proj2 (has_children_false fs (n :: d)) Hempty).
Qed.

Lemma not_under_child_self m d : is_under (m :: d) d = false.
Proof.
  apply is_under_false. intros r Heq. apply (f_equal length) in Heq.
  rewrite length_app in Heq. simpl in Heq. lia.
Qed.

Lemma not_below_child_self m d : strictly_below (m :: d) d = false.
Proof. unfold strictly_below. by rewrite not_under_child_self. Qed.

Lemma not_below_self p : strictly_below p p = false.
Proof. unfold strictly_below. by rewrite bool_decide_eq_true_2, andb_false_r. Qed.

Lemma below_grandchild m n d : strictly_below (n :: d) (m :: n :: d) = true.
Proof. apply strictly_below_spec. by exists [m]. Qed.

(** ** One child of the loop *)

(** The tree of a child not yet removed is intact. *)
Lemma without_keep_child d S fs n k :
  n ∉ S -> is_under (n :: d) k = true -> without d S fs !! k = fs !! k.
Proof.
  intros Hn Hk. rewrite without_lookup.
  replace (forallb _ S) with true; [done|]. symmetry. apply forallb_forall. intros m Hm.
  destruct (is_under (m :: d) k) eqn:E; [|done]. apply list_elem_of_In in Hm.
  by rewrite (under_child_inj m n d k E Hk) in Hm.
Qed.

Lemma without_keep_dir d S fs : without d S fs !! d = fs !! d.
Proof.
  rewrite without_lookup. replace (forallb _ S) with true; [done|]. symmetry.
  apply forallb_forall. intros m _. by rewrite not_under_child_self.
Qed.

(** Removing a sub-directory's tree, then the sub-directory. *)
Lemma without_step_dir d S fs n :
  delete (n :: d) (below_removed (n :: d) (without d S fs)) = without d (S ++ [n]) fs.
Proof.
  apply map_eq. intros k. rewrite (without_lookup d (S ++ [n])), forallb_app. simpl.
  destruct (decide (k = n :: d)) as [->|Hk].
  - by rewrite lookup_delete_eq, is_under_refl, andb_false_r.
  - rewrite lookup_delete_ne by congruence. rewrite below_removed_lookup, without_lookup.
    destruct (is_under (n :: d) k) eqn:E; simpl.
    + apply under_cases in E as [Heq|E2]; [done|]. by rewrite E2, andb_false_r.
    + destruct (strictly_below (n :: d) k) eqn:E'.
      * apply not_true_iff_false in E. exfalso. apply E, under_cases. by right.
      * by rewrite andb_true_r.
Qed.

(** Removing a file, below which nothing lies. *)
Lemma without_step_file (d : path) (S : list string) (fs : fsys) (n : string) (c : positive) (sz ct : Z) :
  fs_wf fs -> fs !! (n :: d) = Some (NFile c sz ct) ->
  delete (n :: d) (without d S fs) = without d (S ++ [n]) fs.
Proof.
  intros Hwf Hf. apply map_eq. intros k. rewrite (without_lookup d (S ++ [n])), forallb_app. simpl.
  destruct (decide (k = n :: d)) as [->|Hk].
  - by rewrite lookup_delete_eq, is_under_refl, andb_false_r.
  - rewrite lookup_delete_ne by congruence. rewrite without_lookup.
    destruct (is_under (n :: d) k) eqn:E; simpl.
    + apply under_cases in E as [Heq|E2]; [done|]. rewrite (file_no_below fs _ c sz ct k Hwf Hf E2).
      by destruct (forallb _ S).
    + by rewrite andb_true_r.
Qed.

(** After the loop over every child, nothing strictly below [d] is left. *)
Lemma without_all (d : path) (fs : fsys) : fs_wf fs -> without d (listdir fs d) fs = below_removed d fs.
Proof.
  intros Hwf. apply map_eq. intros k. rewrite without_lookup, below_removed_lookup.
  destruct (strictly_below d k) eqn:E.
  - destruct (fs !! k) as [nd|] eqn:Ek; [|by destruct (forallb _ _)].
    destruct (below_under_child d k E) as [n Hn].
    assert (Hin : n ∈ listdir fs d).
    { apply elem_of_listdir. apply is_under_spec in Hn as [r ->].
      destruct (ancestor_present fs r (n :: d) nd Hwf Ek) as [nd' H']. eauto. }
    destruct (forallb _ _) eqn:F; [|done]. apply list_elem_of_In in Hin.
    rewrite forallb_forall in F. specialize (F n Hin). by rewrite Hn in F.
  - replace (forallb _ _) with true; [done|]. symmetry. apply forallb_forall. intros m _.
    destruct (is_under (m :: d) k) eqn:Em; [|done]. by rewrite (under_child_below m d k Em) in E.
Qed.

(** ** The walk *)

(** One entry of the walk of [d], as [rmtree_go] runs it. *)
Definition rm_entry (f : nat) (d : path) (x : string * bool) : PyM unit :=
  let '(n, isdir) := x in
  if isdir then rmtree_go f (n :: d);; relative n (syscall (fun fs => os_rmdir fs (n :: d)))
  else relative n (syscall (fun fs => os_unlink fs (n :: d))).

(** The walk of [p] with fuel [f] can remove the tree of [p]: the disk is
    well formed, the tree is less than [f] deep, [p] is a writable
    directory and so is every directory below it. *)
Definition removable (f : nat) (p : path) (fs : fsys) : Prop :=
  fs_wf fs /\ below_bound fs p f /\ (exists sz ct, fs !! p = Some (NDir true sz ct)) /\
  (forall r wr sz ct, fs !! (r ++ p)%list = Some (NDir wr sz ct) -> wr = true).

Lemma run_relative_ok n (m : PyM unit) w w' : m w = (Ret tt, w') -> relative n m w = (Ret tt, w').
Proof. intros H. unfold relative. by apply run_try_ok. Qed.

(** After the walk of [n :: d] has removed everything below it, the
    [os.rmdir] of [n :: d] succeeds in the writable directory [d]. *)
Lemma rmdir_after_walk (fs : fsys) n d sz ct wr dsz dct :
  fs_wf fs -> fs !! d = Some (NDir true sz ct) -> fs !! (n :: d) = Some (NDir wr dsz dct) ->
  os_rmdir (below_removed (n :: d) fs) (n :: d) = Ret (delete (n :: d) (below_removed (n :: d) fs)).
Proof.
  intros Hwf Hd Hnd. apply (rmdir_emptied _ n d sz ct wr dsz dct).
  - by apply below_removed_wf.
  - by rewrite below_removed_lookup, not_below_child_self.
  - by rewrite below_removed_lookup, not_below_self.
  - intros m. by rewrite below_removed_lookup, below_grandchild.
Qed.

Section Loop.
Context (f : nat) (d : path) (fs0 : fsys).
Hypothesis Hrem : removable (S f) d fs0.
Hypothesis IH : forall p w, removable f p (w_fs w) -> rmtree_go f p w = (Ret tt, set_fs w (below_removed p (w_fs w))).

Lemma rm_step (S : list string) (n : string) (w : world) :
  w_fs w = without d S fs0 -> n ∉ S -> is_Some (fs0 !! (n :: d)) ->
  rm_entry f d (n, dir_at fs0 (n :: d)) w = (Ret tt, set_fs w (without d (S ++ [n]) fs0)).
Proof.
  destruct Hrem as (Hwf0 & Hb0 & (sz0 & ct0 & Hd0) & Hwr0). intros Hw Hn [nd Hnd].
  assert (Hkeep : forall k, is_under (n :: d) k = true -> w_fs w !! k = fs0 !! k)
    by (intros k Hk; rewrite Hw; by apply (without_keep_child d S fs0 n)).
  assert (Hwf : fs_wf (w_fs w)) by (rewrite Hw; by apply without_wf).
  assert (Hdw : w_fs w !! d = Some (NDir true sz0 ct0)) by (by rewrite Hw, without_keep_dir).
  assert (Hpar : parent_dir (w_fs w) (n :: d) = Ret true) by (apply (parent_dir_wf _ Hwf n d true); eauto).
  pose proof (Hkeep _ (is_under_refl _)) as Hn1. rewrite Hnd in Hn1.
  unfold rm_entry, dir_at. rewrite Hnd. destruct nd as [c sz ct|wr sz ct].
  - apply run_relative_ok, (run_syscall_ok (fun fs => os_unlink fs (n :: d))).
    rewrite (os_unlink_file_ok _ _ c sz ct Hn1 Hpar), Hw. by rewrite (without_step_file d S fs0 n c sz ct).
  - assert (wr = true) as -> by exact (Hwr0 [n] wr sz ct Hnd).
    rewrite bind_run, IH.
    + rewrite (run_relative_ok _ _ _ _ (run_syscall_ok (fun fs => os_rmdir fs (n :: d)) (set_fs w (below_removed (n :: d) (w_fs w))) _
                 (rmdir_after_walk (w_fs w) n d sz0 ct0 true sz ct Hwf Hdw Hn1))).
      by rewrite Hw, without_step_dir.
    + assert (Hsub : w_fs w ⊆ fs0) by (rewrite Hw; apply map_filter_subseteq).
      split_and!; [done|by eapply below_bound_child|eauto|].
      intros r wr' sz' ct' Hr. apply (lookup_weaken _ _ _ _ Hr) in Hsub.
      apply (Hwr0 (r ++ [n])%list wr' sz' ct'). by rewrite <- app_assoc.
Qed.

Lemma rm_loop (L S : list string) (w : world) :
  w_fs w = without d S fs0 -> NoDup (S ++ L) -> (forall n, n ∈ L -> is_Some (fs0 !! (n :: d))) ->
  for_each ((fun n => (n, dir_at fs0 (n :: d))) <$> L) (rm_entry f d) w =
  (Ret tt, set_fs w (without d (S ++ L) fs0)).
Proof.
  induction L as [|n L IHL] in S, w |- *; intros Hw Hnd Hin.
  - rewrite app_nil_r, <- Hw. by destruct w.
  - rewrite fmap_cons, run_for_each_cons.
    assert (Hn : n ∉ S) by (intros Hn; apply NoDup_app in Hnd as (_ & Hdis & _); apply (Hdis n Hn); left).
    rewrite (rm_step S n w Hw Hn (Hin n ltac:(left))).
    rewrite (IHL (S ++ [n])%list); [by rewrite <- app_assoc| |by rewrite <- app_assoc|].
    + done.
    + intros m Hm. apply Hin. by right.
Qed.

End Loop.

Lemma rmtree_go_removes (f : nat) :
  forall p w, removable f p (w_fs w) -> rmtree_go f p w = (Ret tt, set_fs w (below_removed p (w_fs w))).
Proof.
  induction f as [|f IHf]; intros p w Hrem.
  - destruct Hrem as (_ & Hb & (sz & ct & Hp) & _). specialize (Hb [] _ Hp). simpl in Hb. lia.
  - cbn [rmtree_go]. rewrite bind_run, run_read_fs.
    rewrite (foldl_seq _ _ _ _ _ (rmtree_body_eq _ p)), bind_run, run_ret.
    etrans; [exact (rm_loop f p (w_fs w) Hrem IHf (listdir (w_fs w) p) [] w
                      ltac:(by rewrite without_nil) (NoDup_listdir _ _) (fun n => proj1 (elem_of_listdir _ _ n)))|].
    destruct Hrem as [Hwf _]. by rewrite app_nil_l, without_all.
Qed.

(** The last [os.rmdir] of [rmtree] removes [p] itself. *)
Lemma tree_removed_eq (p : path) (fs : fsys) :
  delete p (below_removed p fs) = filter (fun kv : path * node => is_under p kv.1 = false) fs.
Proof.
  apply map_eq. intros k. rewrite map_lookup_filter. destruct (decide (k = p)) as [->|Hk].
  - rewrite lookup_delete_eq. destruct (fs !! p); simpl; [|done].
    rewrite option_guard_False; [done|]. by rewrite is_under_refl.
  - rewrite lookup_delete_ne by congruence. rewrite below_removed_lookup.
    destruct (fs !! k) as [nd|]; simpl; [|by destruct (strictly_below p k)].
    destruct (is_under p k) eqn:E.
    + assert (E2 : strictly_below p k = true) by (by apply under_cases in E as [?|?]).
      by rewrite E2, option_guard_False.
    + assert (E2 : strictly_below p k = false).
      { destruct (strictly_below p k) eqn:E2; [|done]. rewrite <- E. symmetry. apply under_cases. by right. }
      by rewrite E2, option_guard_True.
Qed.

(** The writability of the tree, decided over the whole disk. *)
Lemma writable_below (fs : fsys) (p : path) :
  map_Forall (fun k nd => is_under p k = true -> match nd with NDir wr _ _ => wr | NFile _ _ _ => true end = true) fs ->
  forall r wr dsz dct, fs !! (r ++ p)%list = Some (NDir wr dsz dct) -> wr = true.
Proof. intros H r wr dsz dct Hr. apply (H _ _ Hr), is_under_spec. by exists r. Qed.

(** C34: [shutil.rmtree] removes exactly the tree it is given: on a
    well-formed disk where [p] is a directory other than the root whose
    parent is writable, and [p] and every directory below it are
    writable, [rmtree p] does not raise and leaves the disk without [p]
    and every entry below it, every other entry unchanged. *)
Theorem rmtree_removes_tree (p : path) (w : world) (sz ct : Z) :
  fs_wf (w_fs w) -> p <> [] -> parent_dir (w_fs w) p = Ret true ->
  w_fs w !! p = Some (NDir true sz ct) ->
  (forall r wr dsz dct, w_fs w !! (r ++ p)%list = Some (NDir wr dsz dct) -> wr = true) ->
  rmtree p w = (Ret tt, set_fs w (filter (fun kv : path * node => is_under p kv.1 = false) (w_fs w))).
Proof.
  intros Hwf Hne Hpar Hp Hwr. destruct p as [|n q]; [done|].
  apply (parent_dir_wf _ Hwf) in Hpar as (qsz & qct & Hq).
  unfold rmtree. rewrite bind_run, run_read_fs, bind_run.
  rewrite (rmtree_go_removes _ (n :: q) w); [|split_and!; eauto using tree_fuel_bound].
  rewrite (run_syscall_ok (fun fs => os_rmdir fs (n :: q)) (set_fs w (below_removed (n :: q) (w_fs w))) _
    (rmdir_after_walk (w_fs w) n q qsz qct true sz ct Hwf Hq Hp)).
  by rewrite tree_removed_eq.
Qed.

Section Witnesses.
Import Sample.

Lemma rmtree_removes_tree_witness :
  let old := "Old" :: "Desktop" :: home in
  let fs := <["b.png" :: "sub" :: old := NFile 5 10 0]> (<["sub" :: old := dir]>
              (<["a.png" :: old := NFile 4 10 0]> (<[old := dir]> fs0))) in
  let w := mk_world fs [] [] [] 0 in
  rmtree old w = (Ret tt, set_fs w (filter (fun kv : path * node => is_under old kv.1 = false) fs)).
Proof.
  intros old fs w. apply (rmtree_removes_tree old w 64 0).
  - apply (bool_decide_unpack _). vm_compute. reflexivity.
  - discriminate.
  - vm_compute. reflexivity.
  - vm_compute. reflexivity.
  - apply writable_below. apply (bool_decide_unpack _). vm_compute. reflexivity.
Defined.

End Witnesses.

End Rmtree.
