(* ===== verification/Copytree.v ===== *)
(** * [shutil.copytree] copies exactly the tree it is given

    [copytree src dst] lists [src], makes [dst] ([os.makedirs]), copies
    each entry (a sub-directory by a recursive walk, a file by [copy2])
    and then copies the directory's mode ([copystat]).  On a well-formed
    disk where [src] is a directory and [dst] is a free name in a
    writable directory, outside the tree of [src] (what the guards of
    [shutil.move] ensure, [ShutilFuel.shutil_move_dir_cases]),
    [copytree_copies_tree] shows the copy succeeds and describes every key
    of the disk it leaves: below [dst], the copy of the entry at the same
    place below [src] ([copy_node]: a file keeps its contents and size,
    a directory its write bit, both stamped with the current time);
    elsewhere, the entry as it was.  The loop over the children of one
    directory keeps the invariant [copy_state]: [dst] made and the trees
    of the children done so far copied. *)

From S2P Require Import Prelude PyStr Fs FsFacts FsRename PyMonad PyFacts Sample Shutil ShutilFacts ShutilFuel Rmtree.

Module Copytree.
Import Shutil ShutilFuel Rmtree.

(** The copy of one entry at time [t]: [copy2] keeps contents and size;
    [os.makedirs] makes a directory of size 64 whose mode [copystat]
    then sets from the source. *)
Definition copy_node (t : Z) (nd : node) : node :=
  match nd with NFile c sz _ => NFile c sz t | NDir wr _ _ => NDir wr 64 t end.

(** The place of [k] below [d]: [k = rel d k ++ d] when [k] is below [d]. *)
Definition rel (d k : path) : path := take (length k - length d) k.

(** The copy, at [k] below [dst], of the entry at the same place below [src]. *)
Definition copy_at (src dst : path) (t : Z) (fs : fsys) (k : path) : option node :=
  copy_node t <$> fs !! (rel dst k ++ src)%list.

(** The disk once [dst] is made and the trees of the children [S] of
    [src] are copied below it. *)
Definition copy_state (src dst : path) (t : Z) (fs0 : fsys) (S : list string) (k : path) : option node :=
  if is_under dst k then
    if bool_decide (k = dst) then Some (NDir true 64 t)
    else if existsb (fun n => is_under (n :: dst) k) S then copy_at src dst t fs0 k else None
  else fs0 !! k.

(** ** Places below a directory *)

Lemma rel_app (r d : path) : rel d (r ++ d) = r.
Proof. unfold rel. rewrite length_app, Nat.add_sub, take_app_length. done. Qed.

Lemma rel_child n (r d : path) : rel d (r ++ n :: d) = (r ++ [n])%list.
Proof. change (n :: d) with ([n] ++ d)%list. by rewrite app_assoc, rel_app. Qed.

Lemma rel_self (d : path) : rel d d = [].
Proof. exact (rel_app [] d). Qed.

Lemma rel_self_child n (d : path) : rel d (n :: d) = [n].
Proof. exact (rel_child n [] d). Qed.

Lemma under_below_child (r : path) n (d : path) : is_under d (r ++ n :: d)%list = true.
Proof. apply is_under_spec. exists (r ++ [n])%list. by rewrite <- app_assoc. Qed.

Lemma copy_at_child src dst t fs n k :
  is_under (n :: dst) k = true -> copy_at src dst t fs k = copy_at (n :: src) (n :: dst) t fs k.
Proof.
  rewrite is_under_spec. intros [r ->]. unfold copy_at. rewrite rel_child, rel_app.
  by rewrite <- app_assoc.
Qed.

(** Below a target [away] from the source there is no key of the source tree. *)
Lemma away_not_under src dst k : away src dst -> is_under dst k = true -> is_under src k = false.
Proof. intros Ha. rewrite is_under_spec. intros [r ->]. apply Ha. Qed.

(** Nothing lies below an absent entry of a well-formed tree. *)
Lemma absent_no_below (fs : fsys) (p k : path) : fs_wf fs -> fs !! p = None -> is_under p k = true -> fs !! k = None.
Proof.
  intros Hwf Hp Hk. apply is_under_spec in Hk as [r ->].
  destruct (fs !! (r ++ p)%list) as [nd|] eqn:E; [|done].
  destruct (ancestor_present fs r p nd Hwf E) as [? H]. by rewrite H in Hp.
Qed.

(** ** The invariant of the loop *)

Section State.
Context (src dst : path) (t : Z) (fs0 : fsys).

Lemma copy_state_src S k : away src dst -> is_under src k = true -> copy_state src dst t fs0 S k = fs0 !! k.
Proof.
  intros Ha Hk. unfold copy_state. destruct (is_under dst k) eqn:E; [|done].
  by rewrite (away_not_under src dst k Ha E) in Hk.
Qed.

Lemma copy_state_dst S : copy_state src dst t fs0 S dst = Some (NDir true 64 t).
Proof. unfold copy_state. by rewrite is_under_refl, bool_decide_eq_true_2. Qed.

Lemma copy_state_other S n k :
  is_under (n :: dst) k = false -> copy_state src dst t fs0 S k = copy_state src dst t fs0 (S ++ [n]) k.
Proof. intros Hk. unfold copy_state. by rewrite existsb_app; simpl; rewrite Hk, orb_false_r. Qed.

Lemma copy_state_new S n k :
  is_under (n :: dst) k = true -> copy_state src dst t fs0 (S ++ [n]) k = copy_at src dst t fs0 k.
Proof.
  intros Hk. unfold copy_state. rewrite (is_under_cons_inv n dst k Hk).
  rewrite bool_decide_eq_false_2; [by rewrite existsb_app; simpl; rewrite Hk, orb_true_r|].
  intros ->. by rewrite not_under_child_self in Hk.
Qed.

Lemma copy_state_fresh S n k :
  n ∉ S -> is_under (n :: dst) k = true -> copy_state src dst t fs0 S k = None.
Proof.
  intros Hn Hk. unfold copy_state. rewrite (is_under_cons_inv n dst k Hk).
  rewrite bool_decide_eq_false_2; [|intros ->; by rewrite not_under_child_self in Hk].
  destruct (existsb _ S) eqn:E; [|done]. apply existsb_exists in E as (m & Hm & Hmk).
  rewrite (under_child_inj m n dst k Hmk Hk) in Hm. by apply list_elem_of_In in Hm.
Qed.

End State.

(** ** One level of the copy *)

(** The copy of [src] to [dst] can run with fuel [f]: the disk is well
    formed, the tree of [src] is less than [f] deep, [src] is a
    directory, and [dst] is a free name in a writable directory outside
    the tree of [src]. *)
Definition copyable (f : nat) (src dst : path) (fs : fsys) : Prop :=
  fs_wf fs /\ below_bound fs src f /\ (exists sw ssz sct, fs !! src = Some (NDir sw ssz sct)) /\
  dst <> [] /\ fs !! dst = None /\ parent_dir fs dst = Ret true /\ away src dst.

(** [fs'] is [fs] with the tree of [src] copied at [dst] at time [t]. *)
Definition copied (src dst : path) (t : Z) (fs fs' : fsys) : Prop :=
  fs_wf fs' /\ forall k, fs' !! k = if is_under dst k then copy_at src dst t fs k else fs !! k.

(** One entry of the loop of [copytree_go], as it runs it. *)
Definition cp_entry (f : nat) (src dst : path) (errs : list copy_error) (x : string * bool) : PyM (list copy_error) :=
  let '(n, isdir) := x in
  try_except is_OSError
    (if isdir then errs' ← copytree_go f (n :: src) (n :: dst); mret (errs ++ errs')%list
     else copy2 (n :: src) (n :: dst);; mret errs)
    (fun e => mret (errs ++ [(path_str (n :: src), path_str (n :: dst), str_exn e)])%list).

Lemma foldl_ext {A B : Type} (F G : A -> B -> A) (a : A) (l : list B) :
  (forall a x, F a x = G a x) -> foldl F a l = foldl G a l.
Proof. intros H. induction l as [|x l IH] in a |- *; simpl; [done|]. by rewrite H, IH. Qed.

(** [os.makedirs(dst)] of a free name in a writable directory is one
    [os.mkdir]. *)
Lemma run_makedirs_new (w : world) (dn : string) (dq : path) (qsz qct : Z) :
  fs_wf (w_fs w) -> w_fs w !! dq = Some (NDir true qsz qct) -> w_fs w !! (dn :: dq) = None ->
  os_makedirs (dn :: dq) false w = (Ret tt, set_fs w (<[dn :: dq := NDir true 64 (w_now w)]> (w_fs w))).
Proof.
  intros Hwf Hq Hfree. cbn [os_makedirs]. pym_run.
  rewrite (path_exists_wf _ _ Hwf), bool_decide_eq_true_2 by eauto. cbn. pym_run.
  apply run_try_ok. unfold mkdir_at. pym_run.
  by rewrite (run_syscall_ok (fun fs => os_mkdir fs (w_now w) (dn :: dq)) w _ (os_mkdir_new _ _ dn dq qsz qct Hwf Hq Hfree)).
Qed.

Section Loop.
Context (f : nat) (src dst : path) (fs0 : fsys) (t : Z).
Hypothesis Hcp : copyable (S f) src dst fs0.
Hypothesis IH : forall src' dst' w, copyable f src' dst' (w_fs w) ->
  exists fs', copytree_go f src' dst' w = (Ret [], set_fs w fs') /\ copied src' dst' (w_now w) (w_fs w) fs'.

Lemma cp_step (S : list string) (n : string) (w : world) (fsS : fsys) :
  w_now w = t -> fs_wf fsS -> (forall k, fsS !! k = copy_state src dst t fs0 S k) -> n ∉ S ->
  is_Some (fs0 !! (n :: src)) ->
  exists fs', cp_entry f src dst [] (n, dir_at fs0 (n :: src)) (set_fs w fsS) = (Ret [], set_fs w fs') /\
    fs_wf fs' /\ forall k, fs' !! k = copy_state src dst t fs0 (S ++ [n]) k.
Proof.
  destruct Hcp as (Hwf0 & Hb0 & _ & _ & _ & _ & Ha).
  intros Hnow HwfS HS Hn [nd Hnd].
  assert (Hsrc : forall k, is_under src k = true -> fsS !! k = fs0 !! k)
    by (intros k Hk; rewrite HS; by apply copy_state_src).
  assert (Hdst : fsS !! dst = Some (NDir true 64 t)) by (by rewrite HS, copy_state_dst).
  assert (Hfree : fsS !! (n :: dst) = None)
    by (rewrite HS; apply (copy_state_fresh _ _ _ _ S n); [done|apply is_under_refl]).
  assert (Hpar : parent_dir fsS (n :: dst) = Ret true)
    by (apply (proj2 (parent_dir_wf _ HwfS n dst true)); eauto).
  assert (Hsd : n :: src <> n :: dst).
  { intros [= Heq]. specialize (Ha []). simpl in Ha. by rewrite Heq, is_under_refl in Ha. }
  pose proof (Hsrc _ (under_below_child [] n src)) as Hn1. simpl in Hn1. rewrite Hnd in Hn1.
  unfold cp_entry, dir_at. rewrite Hnd. destruct nd as [c sz ct|sw ssz sct].
  - (* a file: [copy2] *)
    set (fs' := <[n :: dst := NFile c sz t]> fsS).
    assert (Hwr : os_write_file fsS t (n :: dst) c sz = Ret fs') by (unfold os_write_file; by rewrite Hpar, Hfree).
    exists fs'. split_and!.
    + apply run_try_ok. unfold copy2, samefile. pym_run. change (w_fs (set_fs w fsS)) with fsS.
      rewrite (path_isdir_absent _ _ HwfS Hfree). cbn.
      rewrite bool_decide_eq_false_2 by done. pym_run. change (w_fs (set_fs w fsS)) with fsS.
      rewrite (os_stat_wf _ _ _ HwfS Hn1). pym_run.
      change (w_now (set_fs w fsS)) with (w_now w). rewrite Hnow.
      by rewrite (run_syscall_ok (fun fs => os_write_file fs t (n :: dst) c sz) (set_fs w fsS) _ Hwr).
    + by apply (os_write_file_wf _ _ _ _ _ _ HwfS Hwr).
    + intros k. unfold fs'. destruct (decide (k = n :: dst)) as [->|Hk].
      * rewrite lookup_insert_eq, copy_state_new by apply is_under_refl.
        unfold copy_at. by rewrite rel_self_child; simpl; rewrite Hnd.
      * rewrite lookup_insert_ne by congruence. rewrite HS. destruct (is_under (n :: dst) k) eqn:E.
        -- rewrite (copy_state_fresh _ _ _ _ S n k Hn E), copy_state_new by done.
           apply is_under_spec in E as [r ->]. unfold copy_at. rewrite rel_child, <- app_assoc.
           destruct r as [|x r]; [done|]. simpl.
           rewrite (file_no_below fs0 (n :: src) c sz ct); [done|done|done|].
           apply strictly_below_spec. by exists (x :: r).
        -- by apply copy_state_other.
  - (* a directory: the walk one level down *)
    destruct (IH (n :: src) (n :: dst) (set_fs w fsS)) as (fs' & Hrun & Hwf' & Hk').
    { split_and!; [done| |cbn; rewrite Hn1; eauto|done|done|done|by apply away_child].
      intros r nd Hr. cbn [w_fs set_fs] in Hr. rewrite Hsrc in Hr by apply under_below_child.
      specialize (Hb0 (r ++ [n])%list nd). rewrite <- app_assoc, length_app in Hb0. simpl in Hb0.
      specialize (Hb0 Hr). lia. }
    exists fs'. split_and!; [|done|].
    + apply run_try_ok. by rewrite bind_run, Hrun.
    + intros k. rewrite Hk'. cbn [w_fs w_now set_fs]. rewrite Hnow.
      destruct (is_under (n :: dst) k) eqn:E.
      * rewrite copy_state_new, (copy_at_child src dst t fs0 n k E) by done.
        apply is_under_spec in E as [r ->]. unfold copy_at. rewrite rel_app.
        by rewrite Hsrc by apply under_below_child.
      * rewrite HS. by apply copy_state_other.
Qed.

Lemma cp_loop (L S : list string) (acc : PyM (list copy_error)) (w : world) (fsS : fsys) :
  w_now w = t -> acc w = (Ret [], set_fs w fsS) -> fs_wf fsS ->
  (forall k, fsS !! k = copy_state src dst t fs0 S k) -> NoDup (S ++ L) ->
  (forall n, n ∈ L -> is_Some (fs0 !! (n :: src))) ->
  exists fs', foldl (fun acc x => errs ← acc; cp_entry f src dst errs x) acc
                ((fun n => (n, dir_at fs0 (n :: src))) <$> L) w = (Ret [], set_fs w fs') /\
    fs_wf fs' /\ forall k, fs' !! k = copy_state src dst t fs0 (S ++ L) k.
Proof.
  induction L as [|n L IHL] in S, acc, fsS |- *; intros Hnow Hacc HwfS HS Hnd Hin.
  - exists fsS. rewrite app_nil_r. by split_and!.
  - assert (Hn : n ∉ S) by (intros Hn; apply NoDup_app in Hnd as (_ & Hdis & _); apply (Hdis n Hn); left).
    destruct (cp_step S n w fsS Hnow HwfS HS Hn (Hin n ltac:(left))) as (fs1 & Hrun1 & Hwf1 & HS1).
    rewrite fmap_cons. cbn [foldl].
    destruct (IHL (S ++ [n])%list (errs ← acc; cp_entry f src dst errs (n, dir_at fs0 (n :: src))) fs1)
      as (fs' & Hrun & Hwf' & HS'); [done|by rewrite bind_run, Hacc|done|done|by rewrite <- app_assoc| |].
    + intros m Hm. apply Hin. by right.
    + exists fs'. rewrite <- app_assoc in HS'. by split_and!.
Qed.

End Loop.

(** After the loop, the entries below [dst] are exactly the copies. *)
Lemma copy_state_all (src dst : path) (t : Z) (fs0 : fsys) (k : path) :
  fs_wf fs0 -> is_under dst k = true -> k <> dst ->
  existsb (fun n => is_under (n :: dst) k) (listdir fs0 src) = false -> copy_at src dst t fs0 k = None.
Proof.
  intros Hwf Hk Hne Hex. apply is_under_spec in Hk as [r ->].
  destruct r as [|x r] using rev_ind; [done|]. clear IHr. rewrite <- app_assoc in *. simpl in *.
  unfold copy_at. rewrite rel_child, <- app_assoc. simpl.
  destruct (fs0 !! (r ++ x :: src)%list) as [nd|] eqn:E; [|done].
  destruct (ancestor_present fs0 r (x :: src) nd Hwf E) as [nd' Hx].
  assert (Hin : In x (listdir fs0 src)) by (apply list_elem_of_In, elem_of_listdir; eauto).
  assert (existsb (fun n => is_under (n :: dst) (r ++ x :: dst)%list) (listdir fs0 src) = true) as Ht.
  { apply existsb_exists. exists x. split; [done|]. apply is_under_spec. by exists r. }
  by rewrite Ht in Hex.
Qed.

Lemma copytree_go_copies (f : nat) :
  forall src dst w, copyable f src dst (w_fs w) ->
  exists fs', copytree_go f src dst w = (Ret [], set_fs w fs') /\ copied src dst (w_now w) (w_fs w) fs'.
Proof.
  induction f as [|f IHf]; intros src dst w Hcp.
  - destruct Hcp as (_ & Hb & (sw & ssz & sct & Hs) & _). specialize (Hb [] _ Hs). simpl in Hb. lia.
  - pose proof Hcp as (Hwf & _ & (sw & ssz & sct & Hs) & Hne & Hfree & Hpar & Ha).
    destruct dst as [|dn dq]; [done|]. apply (parent_dir_wf _ Hwf) in Hpar as (qsz & qct & Hq).
    set (fs0 := w_fs w) in *. set (t := w_now w). set (fsd := <[dn :: dq := NDir true 64 t]> fs0).
    assert (Hwfd : fs_wf fsd) by (apply (os_mkdir_wf fs0 t (dn :: dq)); [done|by apply os_mkdir_new with qsz qct]).
    cbn [copytree_go]. rewrite bind_run, run_read_fs, bind_run, (run_makedirs_new w dn dq qsz qct Hwf Hq Hfree), bind_run.
    change (w_fs w) with fs0. change (w_now w) with t. change (<[dn :: dq := NDir true 64 t]> fs0) with fsd.
    rewrite (foldl_ext _ (fun acc x => errs ← acc; cp_entry f src (dn :: dq) errs x)) by (intros ? [? ?]; reflexivity).
    destruct (cp_loop f src (dn :: dq) fs0 t Hcp IHf (listdir fs0 src) [] (mret []) (set_fs w fsd) fsd)
      as (fsL & HrunL & HwfL & HL); [done|done|done| |apply NoDup_listdir|intros n; apply elem_of_listdir|].
    { intros k. unfold fsd. destruct (decide (k = dn :: dq)) as [->|Hk]; [by rewrite lookup_insert_eq, copy_state_dst|].
      rewrite lookup_insert_ne by congruence. unfold copy_state. destruct (is_under (dn :: dq) k) eqn:E; [|done].
      rewrite bool_decide_eq_false_2 by done. by apply (absent_no_below fs0 (dn :: dq)). }
    rewrite HrunL, bind_run. unfold copystat_dir. pym_run.
    change (w_fs (set_fs (set_fs w fsd) fsL)) with fsL. change (w_now (set_fs (set_fs w fsd) fsL)) with t.
    rewrite (run_syscall_ok _ (set_fs (set_fs w fsd) fsL) (<[dn :: dq := NDir sw 64 t]> fsL));
      [|cbn [w_fs set_fs]; by rewrite !HL, copy_state_src, copy_state_dst, Hs by (done || apply is_under_refl)].
    eexists. split; [reflexivity|]. split.
    + apply (wf_replace_dir fsL _ true 64 t); [done|]. by rewrite HL, copy_state_dst.
    + intros k. destruct (decide (k = dn :: dq)) as [->|Hk].
      * rewrite lookup_insert_eq, is_under_refl. unfold copy_at. by rewrite rel_self; simpl; rewrite Hs.
      * rewrite lookup_insert_ne by congruence. rewrite HL. unfold copy_state.
        destruct (is_under (dn :: dq) k) eqn:E; [|done]. rewrite bool_decide_eq_false_2 by done.
        destruct (existsb _ _) eqn:Ex; [done|]. symmetry. by apply copy_state_all.
Qed.

(** C35: [shutil.copytree] copies exactly the tree it is given: on a
    well-formed disk where [src] is a directory and [dst] is a free name
    in a writable directory, with [dst] and everything below it outside
    the tree of [src], [copytree src dst] does not raise; below [dst] the
    disk then holds, at each place, the copy of the entry at the same
    place below [src] (a file with its contents and size, a directory
    with its write bit, both stamped with the current time), and every
    other entry is unchanged. *)
Theorem copytree_copies_tree (src dst : path) (w : world) (sw : bool) (ssz sct : Z) :
  fs_wf (w_fs w) -> w_fs w !! src = Some (NDir sw ssz sct) ->
  dst <> [] -> w_fs w !! dst = None -> parent_dir (w_fs w) dst = Ret true -> away src dst ->
  exists fs', copytree src dst w = (Ret tt, set_fs w fs') /\
    forall k, fs' !! k = if is_under dst k then copy_node (w_now w) <$> w_fs w !! (rel dst k ++ src)%list
                         else w_fs w !! k.
Proof.
  intros Hwf Hs Hne Hfree Hpar Ha. unfold copytree. rewrite bind_run, run_read_fs, bind_run.
  destruct (copytree_go_copies (tree_fuel (w_fs w)) src dst w) as (fs' & Hrun & _ & Hk).
  { split_and!; eauto using tree_fuel_bound. }
  rewrite Hrun. exists fs'. split; [done|]. exact Hk.
Qed.

Section Witnesses.
Import Sample.

Lemma copytree_copies_tree_witness :
  let w := world0 [] in
  let src := "Desktop" :: home in
  let dst := "Desktop" :: "Pictures" :: home in
  exists fs', copytree src dst w = (Ret tt, set_fs w fs') /\
    forall k, fs' !! k = if is_under dst k then copy_node (w_now w) <$> w_fs w !! (rel dst k ++ src)%list
                         else w_fs w !! k.
Proof.
  intros w src dst. apply (copytree_copies_tree src dst w true 64 0).
  - apply (bool_decide_unpack _). vm_compute. reflexivity.
  - vm_compute. reflexivity.
  - discriminate.
  - vm_compute. reflexivity.
  - vm_compute. reflexivity.
  - apply away_b_spec. vm_compute. reflexivity.
Defined.

End Witnesses.

End Copytree.
