(* ===== verification/DateTime.v ===== *)
(** * Month folders: [datetime.fromtimestamp(t).strftime("%Y-%m")]
    (src/main.py, lines 71-72)

    [datetime.fromtimestamp] converts a POSIX timestamp to local civil
    time through the C library's [localtime]; the local time zone is the
    environment's offset function [env_utcoffset].  The calendar
    conversion is the proleptic Gregorian one ([civil_from_days], days
    since 1970-01-01 to year, month, day); [datetime] refuses years
    outside 1..9999 with a [ValueError].  [%Y] and [%m] are zero-padded to
    four and two digits by macOS's [strftime].

    [st_ctime] is a float in Python; it is modelled by its integer
    seconds, so the microsecond rounding of [fromtimestamp] is not. *)

From S2P Require Import Prelude PyStr Fs PyMonad.

Module DateTime.

(** Days since 1970-01-01 to (year, month, day), proleptic Gregorian. *)
Definition civil_from_days (days : Z) : Z * Z * Z :=
  let z := (days + 719468)%Z in
  let era := (z / 146097)%Z in
  let doe := (z - era * 146097)%Z in
  let yoe := ((doe - doe / 1460 + doe / 36524 - doe / 146096) / 365)%Z in
  let y := (yoe + era * 400)%Z in
  let doy := (doe - (365 * yoe + yoe / 4 - yoe / 100))%Z in
  let mp := ((5 * doy + 2) / 153)%Z in
  let d := (doy - (153 * mp + 2) / 5 + 1)%Z in
  let m := if (mp <? 10)%Z then (mp + 3)%Z else (mp - 9)%Z in
  ((if (m <=? 2)%Z then y + 1 else y)%Z, m, d).

(** The inverse direction, (year, month, day) to days since the epoch. *)
Definition days_from_civil (y m d : Z) : Z :=
  let y := if (m <=? 2)%Z then (y - 1)%Z else y in
  let era := (y / 400)%Z in
  let yoe := (y - era * 400)%Z in
  let mp := if (2 <? m)%Z then (m - 3)%Z else (m + 9)%Z in
  let doy := ((153 * mp + 2) / 5 + d - 1)%Z in
  let doe := (yoe * 365 + yoe / 4 - yoe / 100 + doy)%Z in
  (era * 146097 + doe - 719468)%Z.

(** [datetime.fromtimestamp(t)]: the local (year, month). *)
Definition fromtimestamp (E : env) (t : Z) : outcome exn (Z * Z) :=
  let local := (t + env_utcoffset E t)%Z in
  let '(y, m, _) := civil_from_days (local / 86400)%Z in
  if ((1 <=? y) && (y <=? 9999))%Z then Ret (y, m)
  else Raise (ValueError ("year " ++ str_of_Z y ++ " is out of range")).

(** [.strftime("%Y-%m")] *)
Definition strftime_ym (ym : Z * Z) : string :=
  zfill 4 (str_of_Z ym.1) ++ "-" ++ zfill 2 (str_of_Z ym.2).

Definition month_folder (E : env) (t : Z) : outcome exn string :=
  ym ← fromtimestamp E t; mret (strftime_ym ym).

(** ** Bounds of the calendar conversion *)

Lemma civil_from_days_month (days : Z) :
  let '(_, m, d) := civil_from_days days in (1 <= m <= 12)%Z /\ (1 <= d <= 31)%Z.
Proof.
  unfold civil_from_days.
  set (z := (days + 719468)%Z).
  pose proof (Z.div_mod z 146097 ltac:(lia)) as H1. pose proof (Z.mod_pos_bound z 146097 ltac:(lia)) as B1.
  set (doe := (z - z / 146097 * 146097)%Z).
  assert (0 <= doe <= 146096)%Z as Hdoe by (unfold doe; lia).
  pose proof (Z.div_mod doe 1460 ltac:(lia)); pose proof (Z.mod_pos_bound doe 1460 ltac:(lia)).
  pose proof (Z.div_mod doe 36524 ltac:(lia)); pose proof (Z.mod_pos_bound doe 36524 ltac:(lia)).
  pose proof (Z.div_mod doe 146096 ltac:(lia)); pose proof (Z.mod_pos_bound doe 146096 ltac:(lia)).
  set (yoe := ((doe - doe / 1460 + doe / 36524 - doe / 146096) / 365)%Z).
  pose proof (Z.div_mod (doe - doe / 1460 + doe / 36524 - doe / 146096) 365 ltac:(lia)).
  pose proof (Z.mod_pos_bound (doe - doe / 1460 + doe / 36524 - doe / 146096) 365 ltac:(lia)).
  pose proof (Z.div_mod yoe 4 ltac:(lia)); pose proof (Z.mod_pos_bound yoe 4 ltac:(lia)).
  pose proof (Z.div_mod yoe 100 ltac:(lia)); pose proof (Z.mod_pos_bound yoe 100 ltac:(lia)).
  set (doy := (doe - (365 * yoe + yoe / 4 - yoe / 100))%Z).
  assert (0 <= doy <= 365)%Z as Hdoy by (unfold doy, yoe in *; lia).
  set (mp := ((5 * doy + 2) / 153)%Z).
  pose proof (Z.div_mod (5 * doy + 2) 153 ltac:(lia)); pose proof (Z.mod_pos_bound (5 * doy + 2) 153 ltac:(lia)).
  assert (0 <= mp <= 11)%Z as Hmp by (unfold mp in *; lia).
  pose proof (Z.div_mod (153 * mp + 2) 5 ltac:(lia)); pose proof (Z.mod_pos_bound (153 * mp + 2) 5 ltac:(lia)).
  repeat match goal with
         | |- context [(?a <? ?b)%Z] => destruct (Z.ltb_spec a b)
         | |- context [(?a <=? ?b)%Z] => destruct (Z.leb_spec a b)
         end; simpl; split; lia.
Qed.

(** ** Reading a month folder name back *)

(** [int(s[0:4]), int(s[5:7])]: the inverse of [strftime_ym]. *)
Definition parse_ym (s : string) : option (Z * Z) :=
  y ← parse_N (String.substring 0 4 s);
  m ← parse_N (String.substring 5 2 s);
  Some (Z.of_N y, Z.of_N m).

(** Every year of [datetime]'s range is four digits after padding and
    reads back; checked over the whole range by evaluation. *)
Definition pad_ok (w : nat) (n : nat) : bool :=
  let s := zfill w (str_of_Z (Z.of_nat n)) in
  (String.length s =? w)%nat && bool_decide (parse_N s = Some (N.of_nat n)).

Lemma pad_ok_years : forallb (pad_ok 4) (seq 1 9999) = true.
Proof. vm_compute. reflexivity. Qed.

Lemma pad_ok_months : forallb (pad_ok 2) (seq 1 12) = true.
Proof. vm_compute. reflexivity. Qed.

Lemma pad_ok_range (w lo len : nat) (z : Z) :
  forallb (pad_ok w) (seq lo len) = true -> (Z.of_nat lo <= z < Z.of_nat (lo + len))%Z ->
  String.length (zfill w (str_of_Z z)) = w /\ parse_N (zfill w (str_of_Z z)) = Some (Z.to_N z).
Proof.
  intros Hall Hz. rewrite forallb_forall in Hall.
  assert (Hok : pad_ok w (Z.to_nat z) = true) by (apply Hall, in_seq; lia).
  unfold pad_ok in Hok. rewrite Z2Nat.id in Hok by lia.
  apply andb_prop in Hok as [Hl%Nat.eqb_eq Hp].
  split; [done|]. apply bool_decide_eq_true in Hp. rewrite Hp. f_equal. lia.
Qed.

Lemma fromtimestamp_range (E : env) (t : Z) (ym : Z * Z) :
  fromtimestamp E t = Ret ym -> (1 <= ym.1 <= 9999)%Z /\ (1 <= ym.2 <= 12)%Z.
Proof.
  unfold fromtimestamp.
  pose proof (civil_from_days_month ((t + env_utcoffset E t) / 86400)) as Hm.
  destruct (civil_from_days _) as [[y m] d].
  destruct (Z.leb_spec 1 y), (Z.leb_spec y 9999); simpl; intros Hr; invc Hr; simpl; lia.
Qed.

(** C27: every month folder name the program makes is seven characters,
    [YYYY-MM], and reads back as the (year, month) of the timestamp: two
    files land in the same folder exactly when their local times fall in
    the same month. *)
Theorem month_folder_roundtrip (E : env) (t : Z) (ym : Z * Z) :
  fromtimestamp E t = Ret ym ->
  month_folder E t = Ret (strftime_ym ym) /\
  String.length (strftime_ym ym) = 7%nat /\ parse_ym (strftime_ym ym) = Some ym.
Proof.
  intros Hym. destruct (fromtimestamp_range E t ym Hym) as [Hy Hm].
  unfold month_folder. rewrite Hym. split; [done|].
  destruct ym as [y m]. simpl in Hy, Hm.
  destruct (pad_ok_range 4 1 9999 y pad_ok_years ltac:(change (Z.of_nat (1 + 9999)) with 10000%Z; simpl; lia)) as [Ly Py].
  destruct (pad_ok_range 2 1 12 m pad_ok_months ltac:(simpl; lia)) as [Lm Pm].
  unfold strftime_ym, parse_ym. simpl.
  rewrite !string_length_app, Ly, Lm. split; [done|].
  rewrite <- Ly at 1. rewrite substring_app_l, Py. simpl.
  rewrite <- string_app_assoc.
  replace 5%nat with (String.length (zfill 4 (str_of_Z y) ++ "-")) by (rewrite string_length_app, Ly; done).
  rewrite <- Lm at 2. rewrite substring_app_r, Pm. simpl. by rewrite !Z2N.id by lia.
Qed.

Lemma month_folder_roundtrip_witness :
  let E := mk_env "Darwin" [] (fun _ => 0%Z) in
  fromtimestamp E 1714557600 = Ret (2024, 5)%Z /\
  month_folder E 1714557600 = Ret (strftime_ym (2024, 5)%Z) /\
  String.length (strftime_ym (2024, 5)%Z) = 7%nat /\ parse_ym (strftime_ym (2024, 5)%Z) = Some (2024, 5)%Z.
Proof.
  assert (H : fromtimestamp (mk_env "Darwin" [] (fun _ => 0%Z)) 1714557600 = Ret (2024, 5)%Z)
    by (vm_compute; reflexivity).
  split; [exact H|]. exact (month_folder_roundtrip _ _ _ H).
Defined.

End DateTime.
