(* ===== verification/Discovery.v ===== *)
(** * Discovery: [find_screenshots] (src/main.py, lines 10-26)

    For each of [~/Desktop], [~/Downloads] and [~/Pictures], in that
    order, if the location exists its entries matching
    [Screenshot*.png] are appended, in directory order.  [Path.glob]
    yields nothing for a location that is not a directory (pathlib checks
    [is_dir] before it scans).  The walk only reads the file system: it
    is [find_screenshots_fs], a function of the file system, lifted into
    [PyM] by [find_screenshots]. *)

From S2P Require Import Prelude PyStr Glob Fs FsFacts PyMonad.

Module Discovery.

Definition locations (E : env) : list path :=
  [env_home E </> "Desktop"; env_home E </> "Downloads"; env_home E </> "Pictures"].

(** [location.glob(pattern)] *)
Definition path_glob (fs : fsys) (loc : path) (pattern : string) : list path :=
  if path_isdir fs loc then
    (fun n => n :: loc) <$> filter (fun n => Glob.glob_match (Glob.glob_compile pattern) n = true) (listdir fs loc)
  else [].

Definition find_screenshots_fs (E : env) (fs : fsys) : list path :=
  foldl (fun screenshot_files location =>
           if path_exists fs location
           then (screenshot_files ++ path_glob fs location Glob.screenshot_pattern)%list
           else screenshot_files)
        [] (locations E).

Definition find_screenshots (E : env) : PyM (list path) := read_fs (find_screenshots_fs E).

(** ** Lemmas *)

Lemma find_screenshots_fs_concat E fs :
  find_screenshots_fs E fs =
  mjoin ((fun loc => if path_exists fs loc then path_glob fs loc Glob.screenshot_pattern else [])
            <$> locations E).
Proof. unfold find_screenshots_fs. by rewrite foldl_extend. Qed.

Lemma elem_of_path_glob fs loc p :
  p ∈ path_glob fs loc Glob.screenshot_pattern <->
  path_isdir fs loc = true /\ exists n, p = n :: loc /\ is_Some (fs !! p) /\ Glob.is_screenshot_name n = true.
Proof.
  unfold path_glob. destruct (path_isdir fs loc); [|split; [set_solver | naive_solver]].
  rewrite list_elem_of_fmap. setoid_rewrite list_elem_of_filter.
  setoid_rewrite elem_of_listdir. setoid_rewrite Glob.glob_match_screenshot_pattern. naive_solver.
Qed.

Lemma isdir_exists fs loc : path_isdir fs loc = true -> path_exists fs loc = true.
Proof. unfold path_isdir, path_exists. by destruct (resolve fs loc) as [[]|]. Qed.

Lemma NoDup_path_glob fs loc : NoDup (path_glob fs loc Glob.screenshot_pattern).
Proof.
  unfold path_glob. destruct (path_isdir fs loc); [|constructor].
  apply NoDup_fmap_2; [intros ?? [=]; done|]. apply NoDup_filter, NoDup_listdir.
Qed.

(** ** Properties of discovery *)

(** Membership in the discovered list. *)
Lemma elem_of_find_screenshots (E : env) (fs : fsys) (p : path) :
  p ∈ find_screenshots_fs E fs <->
  exists loc n, loc ∈ locations E /\ path_isdir fs loc = true /\ p = n :: loc /\
                is_Some (fs !! p) /\ Glob.is_screenshot_name n = true.
Proof.
  rewrite find_screenshots_fs_concat, list_elem_of_join. split.
  - intros (l & Hp & Hl). apply list_elem_of_fmap in Hl as (loc & -> & Hloc).
    destruct (path_exists fs loc); [|set_solver].
    apply elem_of_path_glob in Hp as (Hd & n & -> & Hs & Hn). eauto 10.
  - intros (loc & n & Hloc & Hd & -> & Hs & Hn).
    eexists. split; [|apply list_elem_of_fmap; eauto].
    rewrite (isdir_exists _ _ Hd). apply elem_of_path_glob. eauto.
Qed.

(** C24: a path is discovered iff it is an entry of one of the three
    search locations, that location is a directory, and its name starts
    with "Screenshot" and ends with ".png"; a missing or non-directory
    location contributes nothing and raises nothing. *)
Theorem find_screenshots_spec (E : env) (fs : fsys) (p : path) :
  p ∈ find_screenshots_fs E fs <->
  exists loc n, loc ∈ locations E /\ path_isdir fs loc = true /\ p = n :: loc /\
                is_Some (fs !! p) /\ Glob.is_screenshot_name n = true.
Proof. apply elem_of_find_screenshots. Qed.

(** C25: discovery lists every file at most once (the three locations are
    distinct directories and a directory lists each name once). *)
Theorem find_screenshots_NoDup (E : env) (fs : fsys) : NoDup (find_screenshots_fs E fs).
Proof.
  rewrite find_screenshots_fs_concat. apply NoDup_join_fmap.
  - unfold locations. repeat constructor; set_solver.
  - intros loc. case_match; [apply NoDup_path_glob|constructor].
  - intros l1 l2 p Hne H1 H2. repeat case_match; try set_solver.
    apply elem_of_path_glob in H1 as (_ & ? & -> & _).
    apply elem_of_path_glob in H2 as (_ & ? & ? & _). congruence.
Qed.

(** Discovery never raises and changes nothing in the world, and
    its result is the matches of ~/Desktop, ~/Downloads and ~/Pictures
    concatenated in that order, each location on its own: a missing
    location contributes nothing and the others are still searched. *)
Theorem find_screenshots_in_order (E : env) (w : world) :
  find_screenshots E w =
  (Ret (mjoin ((fun loc => if path_exists (w_fs w) loc then path_glob (w_fs w) loc Glob.screenshot_pattern else [])
                 <$> locations E)), w).
Proof. unfold find_screenshots, read_fs. by rewrite find_screenshots_fs_concat. Qed.

End Discovery.
