(* ===== verification/Organizer.v ===== *)
(** * The organizer: [get_size_ext] and [organize_screenshots]
    (src/main.py, lines 36-100)

    [organize_screenshots files] prints a summary of the discovered files
    ([summary], lines 49-54), reads a menu choice ([menu], lines 59-64)
    and runs one action:
    - "1": [move_action] (lines 66-80): make [~/Pictures/Screenshots],
      then for each file read its [st_ctime], make the [YYYY-MM] folder
      and [shutil.move] the file into it; only the move and its report
      are inside the [try];
    - "2": [delete_action] (lines 82-92): ask for confirmation, and on
      ["yes"] (after [lower()]) unlink each file inside a [try];
    - "3": [list_action] (lines 94-97): print each name and size;
    - anything else: print "Operation cancelled".
    An empty list prints "No screenshot files found" and stops. *)

From S2P Require Import Prelude PyStr HumanSize Fs FsFacts PyMonad PyFacts Shutil DateTime.

Module Organizer.
Section Organizer.
Context (E : env).

(** ** [Path.name], [Path.suffix] *)

Definition path_name (p : path) : string := basename p.

Definition suffix (name : string) : string :=
  match rfind_char "." name with
  | Some i =>
      if (0 <? i)%nat && (i <? String.length name - 1)%nat
      then String.substring i (String.length name - i) name
      else ""
  | None => ""
  end.

(** ** [get_size_ext] (lines 36-41) *)

Definition stat (p : path) : PyM node := query (fun fs => os_stat fs p).

(** [sum(f.stat().st_size for f in files)] *)
Fixpoint sum_sizes (files : list path) : PyM Z :=
  match files with
  | [] => mret 0%Z
  | f :: rest => nd ← stat f; s ← sum_sizes rest; mret (node_size nd + s)%Z
  end.

(** [{f.suffix for f in files}], a set kept as a duplicate-free list. *)
Definition extensions (files : list path) : list string :=
  remove_dups (suffix ∘ path_name <$> files).

Definition get_size_ext (files : list path) : PyM (Z * list string) :=
  size ← sum_sizes files; mret (size, extensions files).

(** ** The summary and the menu (lines 49-64) *)

Definition file_types_line (exts : list string) : string :=
  "File types: " ++ join ", " (merge_sort String.le exts).

Definition summary (files : list path) : PyM unit :=
  '(size, exts) ← get_size_ext files;
  print (nl ++ "Found " ++ str_of_nat (length files) ++ " screenshots");;
  print ("Total size: " ++ HumanSize.human_size size);;
  print (file_types_line exts).

Definition screenshots_dir : path := env_home E </> "Pictures" </> "Screenshots".

Definition menu_prompt : string :=
  nl ++ "Choose action:" ++ nl ++
  "1. Move to organized folders by date" ++ nl ++
  "2. Delete all found screenshots" ++ nl ++
  "3. List all screenshots" ++ nl ++
  "4. Cancel" ++ nl ++
  "Enter choice (1-4): ".

(** ** Action 1: move into month folders (lines 66-80) *)

Definition move_one (file : path) : PyM unit :=
  nd ← stat file;
  folder ← lift (DateTime.month_folder E (node_ctime nd));
  let month_dir := screenshots_dir </> folder in
  Shutil.path_mkdir month_dir false true;;
  try_except is_Exception
    (Shutil.shutil_move file (month_dir </> path_name file);;
     print ("Moved: " ++ path_name file ++ " → " ++ path_str month_dir))
    (fun e => print ("Error moving " ++ path_name file ++ ": " ++ str_exn e)).

Definition move_action (files : list path) : PyM unit :=
  Shutil.path_mkdir screenshots_dir true true;;
  for_each files move_one.

(** ** Action 2: delete after confirmation (lines 82-92) *)

Definition delete_one (file : path) : PyM unit :=
  try_except is_Exception
    (syscall (fun fs => os_unlink fs file);;
     print ("Deleted: " ++ path_name file))
    (fun e => print ("Error deleting " ++ path_name file ++ ": " ++ str_exn e)).

Definition confirm_prompt (files : list path) : string :=
  nl ++ "Are you sure you want to delete " ++ str_of_nat (length files) ++ " screenshots? (yes/no): ".

Definition delete_action (files : list path) : PyM unit :=
  confirm ← input (confirm_prompt files);
  if String.eqb (py_lower confirm) "yes" then for_each files delete_one
  else print "Operation cancelled".

(** ** Action 3: list (lines 94-97) *)

Definition list_one (file : path) : PyM unit :=
  nd ← stat file;
  print (path_name file ++ " (" ++ HumanSize.human_size (node_size nd) ++ ")").

Definition list_action (files : list path) : PyM unit :=
  print (nl ++ "Found screenshots:");;
  for_each files list_one.

(** ** [organize_screenshots] (lines 43-100) *)

Definition dispatch (files : list path) (action : string) : PyM unit :=
  if String.eqb action "1" then move_action files
  else if String.eqb action "2" then delete_action files
  else if String.eqb action "3" then list_action files
  else print "Operation cancelled".

Definition organize_screenshots (files : list path) : PyM unit :=
  match files with
  | [] => print "No screenshot files found"
  | _ :: _ =>
      summary files;;
      action ← input menu_prompt;
      dispatch files action
  end.

End Organizer.
End Organizer.
