(* ===== verification/OrganizerFacts.v ===== *)
(** * What the organizer does to the disk

    The read-only parts of [organize_screenshots] (summary, listing,
    cancelling) are shown read-only by [Preserves] instances; the
    delete loop is computed by a pure reference function
    ([delete_spec]) that makes its per-file failure isolation explicit,
    and [delete_loop_effect] states what the loop of [delete_one] does to
    any disk.  One file of the move loop is run on every branch the
    theorems need: moved ([run_move_one]), left with a copy when its
    folder is read-only ([move_one_readonly_leaves_copy]), and the whole
    batch stopped by a regular file where its month folder should be
    ([move_loop_blocked_month_aborts]).  The confirmation of the delete
    is not stripped ([delete_answer_trailing_space_cancels]), and a
    directory is refused by [delete_one] ([delete_one_directory_refused]). *)

From S2P Require Import Prelude PyStr HumanSize Glob Fs FsFacts PyMonad PyFacts Sample Shutil ShutilFacts DateTime Discovery Organizer.

Module OrganizerFacts.
Import Organizer ShutilFacts.
Section Facts.
Context (E : env).

#[local] Instance stat_pres R `{!PreOrder R} p : Preserves R (stat p).
Proof. unfold stat. apply _. Qed.

#[local] Instance sum_sizes_pres R `{!PreOrder R} files : Preserves R (sum_sizes files).
Proof. induction files; simpl; apply _. Qed.

#[local] Instance summary_same_fs files : Preserves same_fs (summary files).
Proof. unfold summary, get_size_ext. apply _. Qed.
#[local] Instance summary_same_in files : Preserves same_in (summary files).
Proof. unfold summary, get_size_ext. apply _. Qed.

#[local] Instance list_action_same_fs files : Preserves same_fs (list_action files).
Proof. unfold list_action, list_one. apply _. Qed.

(** C2: the organizer changes the disk only when the user chose "1"
    (move), or chose "2" (delete) and confirmed with a line whose
    [lower()] is "yes": cancelling, listing, an unconfirmed delete, an
    empty file list, end of input and Ctrl-C at a prompt all leave every
    file where it was. *)
Theorem organize_disk_changes_only_if_asked (files : list path) (w w' : world) r :
  organize_screenshots E files w = (r, w') -> w_fs w' <> w_fs w ->
  (exists rest, w_in w = Line "1" :: rest) \/
  (exists c rest, w_in w = Line "2" :: Line c :: rest /\ py_lower c = "yes").
Proof.
  intros Hrun Hchg. destruct files as [|f fl].
  { apply print_same_fs in Hrun. contradiction. }
  simpl in Hrun. rewrite bind_run in Hrun.
  destruct (summary (f :: fl) w) as [r1 w1] eqn:Hs.
  pose proof (summary_same_fs _ _ _ _ Hs) as F1. pose proof (summary_same_in _ _ _ _ Hs) as I1.
  unfold same_fs, same_in in F1, I1.
  destruct r1 as [[]|e]; [|by inv Hrun].
  rewrite bind_run in Hrun. destruct (input menu_prompt w1) as [r2 w2] eqn:Hi.
  apply input_cases in Hi as [(a & rest & Hin & -> & Hin2 & F2) | (e & -> & F2)];
    [|inv Hrun; congruence].
  rewrite I1 in Hin. unfold dispatch in Hrun.
  destruct (String.eqb a "1") eqn:H1; [apply String.eqb_eq in H1; subst; left; eauto|].
  destruct (String.eqb a "2") eqn:H2.
  - apply String.eqb_eq in H2; subst.
    unfold delete_action in Hrun. rewrite bind_run in Hrun.
    destruct (input (confirm_prompt (f :: fl)) w2) as [r3 w3] eqn:Hi3.
    apply input_cases in Hi3 as [(c & rest3 & Hin3 & -> & _ & F3) | (e & -> & F3)];
      [|inv Hrun; congruence].
    destruct (String.eqb (py_lower c) "yes") eqn:Hy.
    + apply String.eqb_eq in Hy. right. exists c, rest3. split; [congruence|done].
    + apply print_same_fs in Hrun. unfold same_fs in Hrun. congruence.
  - destruct (String.eqb a "3").
    + apply list_action_same_fs in Hrun. unfold same_fs in Hrun. congruence.
    + apply print_same_fs in Hrun. unfold same_fs in Hrun. congruence.
Qed.

(** ** The delete loop *)

(** Reference loop: each file is unlinked on its own; a failure is
    reported and the loop goes on with the disk as it was. *)
Fixpoint delete_spec (fs : fsys) (files : list path) : fsys * list string :=
  match files with
  | [] => (fs, [])
  | f :: rest =>
      match os_unlink fs f with
      | Ret fs' =>
          let '(fs2, out) := delete_spec fs' rest in
          (fs2, (("Deleted: " ++ path_name f) ++ nl) :: out)
      | Raise e =>
          let '(fs2, out) := delete_spec fs rest in
          (fs2, (("Error deleting " ++ path_name f ++ ": " ++ str_exn e) ++ nl) :: out)
      end
  end.

Lemma os_unlink_raise fs p e : os_unlink fs p = Raise e -> is_Exception e = true.
Proof. unfold os_unlink, os_err. by repeat case_match; intros [= <-]. Qed.

Lemma run_delete_loop files w :
  for_each files delete_one w =
  (Ret tt, mk_world (delete_spec (w_fs w) files).1 (w_in w)
             (w_out w ++ (delete_spec (w_fs w) files).2) (w_err w) (w_now w)).
Proof.
  induction files as [|f fl IH] in w |- *.
  - simpl. by rewrite app_nil_r; destruct w.
  - rewrite run_for_each_cons. unfold delete_one. simpl delete_spec.
    destruct (os_unlink (w_fs w) f) as [fs'|e] eqn:Hu.
    + rewrite (run_try_ok _ _ _ _ tt (mk_world fs' (w_in w) (w_out w ++ [("Deleted: " ++ path_name f) ++ nl]) (w_err w) (w_now w)));
        [|by rewrite bind_run, (run_syscall_ok _ _ fs')].
      rewrite IH. simpl. destruct (delete_spec fs' fl). by rewrite <- app_assoc.
    + rewrite (run_try_caught _ _ _ _ e w); [| by rewrite bind_run, (run_syscall_err _ _ e) | by eapply os_unlink_raise].
      rewrite run_print, IH. simpl. destruct (delete_spec (w_fs w) fl). by rewrite <- app_assoc.
Qed.

Lemma delete_spec_absent fs files p :
  fs !! p = None -> (delete_spec fs files).1 !! p = None.
Proof.
  induction files as [|f fl IH] in fs |- *; simpl; [done|]. intros Hp.
  destruct (os_unlink fs f) as [fs'|e] eqn:Hu.
  - apply os_unlink_ok_inv in Hu as [-> _].
    destruct (delete_spec (delete f fs) fl) as [fs2 out] eqn:Hd. simpl.
    change fs2 with (fs2, out).1. rewrite <- Hd. apply IH. by rewrite lookup_delete_None; right.
  - destruct (delete_spec fs fl) as [fs2 out] eqn:Hd. simpl.
    change fs2 with (fs2, out).1. rewrite <- Hd. by apply IH.
Qed.

(** The reference loop step by step. *)
Lemma delete_spec_cons fs f fl :
  (delete_spec fs (f :: fl)).1 =
  match os_unlink fs f with Ret fs' => (delete_spec fs' fl).1 | Raise _ => (delete_spec fs fl).1 end /\
  length (delete_spec fs (f :: fl)).2 = S (length (delete_spec match os_unlink fs f with Ret fs' => fs' | Raise _ => fs end fl).2).
Proof. simpl. destruct (os_unlink fs f); by destruct (delete_spec _ fl). Qed.

(** The reference loop removes every listed regular file whose
    directory is writable, leaves every unlisted path as it was, and
    prints exactly one line per listed file. *)
Lemma delete_spec_effect (fs : fsys) (files : list path) :
  (forall p, p ∉ files -> (delete_spec fs files).1 !! p = fs !! p) /\
  (forall f c sz ct, f ∈ files -> fs !! f = Some (NFile c sz ct) -> parent_dir fs f = Ret true ->
                     (delete_spec fs files).1 !! f = None) /\
  length (delete_spec fs files).2 = length files.
Proof.
  induction files as [|f fl IH] in fs |- *; [split_and!; set_solver|].
  destruct (delete_spec_cons fs f fl) as [Hfs Hlen]. rewrite Hfs, Hlen.
  destruct (os_unlink fs f) as [fs'|e] eqn:Hu.
  - pose proof Hu as [-> (cf & szf & ctf & Hf)]%os_unlink_ok_inv.
    destruct (IH (delete f fs)) as (IH1 & IH2 & IH3). split_and!.
    + intros p Hp. rewrite IH1 by set_solver. apply lookup_delete_ne. set_solver.
    + intros g c sz ct Hg Hgf Hpar. destruct (decide (g = f)) as [->|Hne].
      * apply delete_spec_absent, lookup_delete_eq.
      * apply (IH2 g c sz ct); [set_solver| by rewrite lookup_delete_ne |].
        by eapply parent_dir_delete_file.
    + by rewrite IH3.
  - destruct (IH fs) as (IH1 & IH2 & IH3). split_and!.
    + intros p Hp. apply IH1. set_solver.
    + intros g c sz ct Hg Hgf Hpar. destruct (decide (g = f)) as [->|Hne].
      * by rewrite (os_unlink_file_ok _ _ _ _ _ Hgf Hpar) in Hu.
      * apply (IH2 g c sz ct); [set_solver|done|done].
    + by rewrite IH3.
Qed.

(** The line [delete_one] prints for [f]. *)
Definition delete_report (f : path) (l : string) : Prop :=
  l = ("Deleted: " ++ path_name f) ++ nl \/
  exists e, l = ("Error deleting " ++ path_name f ++ ": " ++ str_exn e) ++ nl.

Lemma delete_spec_reports fs files : Forall2 delete_report files (delete_spec fs files).2.
Proof.
  induction files as [|f fl IH] in fs |- *; simpl; [constructor|].
  destruct (os_unlink fs f) as [fs'|e].
  - specialize (IH fs'). destruct (delete_spec fs' fl). constructor; [by left|done].
  - specialize (IH fs). destruct (delete_spec fs fl). constructor; [right; by eexists|done].
Qed.

(** C5: the delete loop of [delete_action] never raises: it removes every
    listed regular file whose directory is writable, leaves every
    unlisted path as it was and the input unread, and adds exactly one
    "Deleted:" or "Error deleting" line per file, in order. *)
Theorem delete_loop_effect (files : list path) (w : world) :
  exists w', for_each files delete_one w = (Ret tt, w') /\ w_in w' = w_in w /\
    (forall p, p ∉ files -> w_fs w' !! p = w_fs w !! p) /\
    (forall f c sz ct, f ∈ files -> w_fs w !! f = Some (NFile c sz ct) -> parent_dir (w_fs w) f = Ret true ->
                       w_fs w' !! f = None) /\
    exists lines, w_out w' = (w_out w ++ lines)%list /\ Forall2 delete_report files lines.
Proof.
  destruct (delete_spec_effect (w_fs w) files) as (H1 & H2 & _).
  eexists. rewrite run_delete_loop. split_and!; [done|done|exact H1|exact H2|].
  eexists. split; [done|]. apply delete_spec_reports.
Qed.

(** C13: the confirmation is compared without stripping: for any files and
    any answer that ends in a space, such as "yes ", the delete action
    prints its prompt and "Operation cancelled" and deletes nothing (the
    spec compares the trimmed answer with "yes"). *)
Theorem delete_answer_trailing_space_cancels (files : list path) (w : world) (c : string) rest :
  w_in w = Line (c ++ " ") :: rest ->
  delete_action files w =
  (Ret tt, mk_world (w_fs w) rest (w_out w ++ [confirm_prompt files; ("Operation cancelled" ++ nl)%string])%list
                    (w_err w) (w_now w)).
Proof.
  intros Hin. unfold delete_action. rewrite bind_run, (run_input_line _ _ _ _ Hin). cbv beta iota.
  rewrite py_lower_app_space. destruct (String.eqb_spec (py_lower c ++ " ") "yes") as [H|_].
  { by apply app_space_not_yes in H. }
  rewrite run_print. cbn. by rewrite <- app_assoc.
Qed.

(** C15: a screenshot that is a directory cannot be deleted: for any world
    where [f] is a directory, [delete_one f] catches the [PermissionError]
    ([EPERM]) that [os.unlink] raises on macOS, prints "Error deleting"
    with it, and leaves the disk as it was (the spec speaks only of
    files, while the glob also yields directories). *)
Theorem delete_one_directory_refused (w : world) (f : path) (wr : bool) (sz ct : Z) :
  fs_wf (w_fs w) -> w_fs w !! f = Some (NDir wr sz ct) -> f <> [] ->
  delete_one f w =
  (Ret tt, mk_world (w_fs w) (w_in w)
             (w_out w ++ [(("Error deleting " ++ path_name f ++ ": " ++ str_exn (OSError EPERM (path_str f) None)) ++ nl)%string])%list
             (w_err w) (w_now w)).
Proof.
  intros Hwf Hf Hne. destruct f as [|n q]; [done|].
  assert (Hu : os_unlink (w_fs w) (n :: q) = Raise (OSError EPERM (path_str (n :: q)) None)).
  { pose proof (wf_parent _ Hwf n q _ Hf) as Hq. apply dir_at_Some in Hq as (qw & qsz & qct & Hq).
    unfold os_unlink. rewrite (proj2 (parent_dir_wf _ Hwf n q qw) (ex_intro _ qsz (ex_intro _ qct Hq))), Hf.
    reflexivity. }
  unfold delete_one. rewrite (run_try_caught _ _ _ _ (OSError EPERM (path_str (n :: q)) None) w);
    [|by rewrite bind_run, (run_syscall_err _ _ _ Hu)|done].
  by rewrite run_print.
Qed.

(** ** One file of the move loop *)

(** The disk after [Path.mkdir(exist_ok=True)] of a directory. *)
Definition with_dir (fs : fsys) (p : path) (t : Z) : fsys :=
  match fs !! p with None => <[p := NDir true 64 t]> fs | Some _ => fs end.

(** Making the month folder: on a well-formed disk whose Screenshots
    folder is a writable directory and whose month folder is absent or a
    writable directory, [with_dir] keeps the disk well formed, leaves a
    writable month folder, changes no other entry and keeps every parent
    directory's mode. *)
Lemma month_dir_ready (fs : fsys) (t : Z) (ym : string) (ssz sct : Z) :
  fs_wf fs -> fs !! screenshots_dir E = Some (NDir true ssz sct) ->
  (fs !! (ym :: screenshots_dir E) = None \/
   exists dsz dct, fs !! (ym :: screenshots_dir E) = Some (NDir true dsz dct)) ->
  fs_wf (with_dir fs (ym :: screenshots_dir E) t) /\
  (forall n, parent_dir (with_dir fs (ym :: screenshots_dir E) t) (n :: ym :: screenshots_dir E) = Ret true) /\
  (forall k, k <> ym :: screenshots_dir E -> with_dir fs (ym :: screenshots_dir E) t !! k = fs !! k) /\
  (forall n q b, parent_dir fs (n :: q) = Ret b -> parent_dir (with_dir fs (ym :: screenshots_dir E) t) (n :: q) = Ret b).
Proof.
  intros Hwf Hs Hmd. unfold with_dir. destruct Hmd as [H | (dsz & dct & H)]; rewrite H.
  - assert (Hwf1 : fs_wf (<[ym :: screenshots_dir E := NDir true 64 t]> fs)).
    { apply (os_mkdir_wf fs t (ym :: screenshots_dir E)); [done|]. by apply os_mkdir_new with ssz sct. }
    split_and!; [done| |by intros; rewrite lookup_insert_ne|].
    + intros n. apply (parent_dir_wf _ Hwf1). rewrite lookup_insert_eq. eauto.
    + intros n q b Hp. apply (parent_dir_wf _ Hwf) in Hp as (psz & pct & Hq).
      apply (parent_dir_wf _ Hwf1). rewrite lookup_insert_ne; [eauto|congruence].
  - split_and!; [done| |done|done]. intros n. apply (parent_dir_wf _ Hwf). eauto.
Qed.

(** The run of [move_one] on a disk where the move succeeds. *)
Lemma run_move_one (w : world) (f : path) (c : positive) (sz ct : Z) (ym : string) (ssz sct : Z) :
  fs_wf (w_fs w) ->
  w_fs w !! f = Some (NFile c sz ct) -> parent_dir (w_fs w) f = Ret true ->
  DateTime.month_folder E ct = Ret ym ->
  w_fs w !! screenshots_dir E = Some (NDir true ssz sct) ->
  (w_fs w !! (ym :: screenshots_dir E) = None \/
   exists dsz dct, w_fs w !! (ym :: screenshots_dir E) = Some (NDir true dsz dct)) ->
  (w_fs w !! (path_name f :: ym :: screenshots_dir E) = None \/
   exists c' sz' ct', w_fs w !! (path_name f :: ym :: screenshots_dir E) = Some (NFile c' sz' ct')) ->
  f <> path_name f :: ym :: screenshots_dir E ->
  move_one E f w =
  (Ret tt, mk_world (<[path_name f :: ym :: screenshots_dir E := NFile c sz ct]>
                       (delete f (with_dir (w_fs w) (ym :: screenshots_dir E) (w_now w))))
                    (w_in w)
                    (w_out w ++ [("Moved: " ++ path_name f ++ " → " ++ path_str (ym :: screenshots_dir E)) ++ nl])
                    (w_err w) (w_now w)).
Proof.
  intros Hwf Hf Hpf Hym Hs Hmd Hdst Hft.
  destruct (month_dir_ready (w_fs w) (w_now w) ym ssz sct Hwf Hs Hmd) as (Hwf1 & Hpd1 & Hne1 & Hpp1).
  remember (screenshots_dir E) as sd eqn:Hsd.
  set (fs1 := with_dir (w_fs w) (ym :: sd) (w_now w)) in *.
  assert (Hfmd : f <> ym :: sd) by (intros ->; destruct Hmd as [H | (? & ? & H)]; congruence).
  assert (Hf1 : fs1 !! f = Some (NFile c sz ct)) by (by rewrite Hne1).
  destruct f as [|fn fq]; [destruct (root_is_dir _ Hwf) as (? & ? & ? & ?); congruence|].
  pose proof (Hpp1 _ _ _ Hpf) as Hpf1.
  assert (Hdst1 : fs1 !! (path_name (fn :: fq) :: ym :: sd) = w_fs w !! (path_name (fn :: fq) :: ym :: sd)).
  { apply Hne1. intros Heq. apply (f_equal length) in Heq. simpl in Heq. lia. }
  unfold move_one, stat. pym_run. rewrite (os_stat_wf _ _ _ Hwf Hf). pym_run.
  rewrite Hym. pym_run. rewrite <- Hsd.
  rewrite (ShutilFacts.run_mkdir_exist_ok w ym sd ssz sct Hwf Hs);
    [|by destruct Hmd as [H|(? & ? & H)]; [left|right; eauto]].
  pym_run. fold (with_dir (w_fs w) (ym :: sd) (w_now w)). fold fs1.
  rewrite (run_try_ok _ _ _ _ tt
             (mk_world (<[path_name (fn :: fq) :: ym :: sd := NFile c sz ct]> (delete (fn :: fq) fs1))
                       (w_in w) (w_out w ++ [("Moved: " ++ path_name (fn :: fq) ++ " → " ++ path_str (ym :: sd)) ++ nl])
                       (w_err w) (w_now w))); [done|].
  pym_run. rewrite (ShutilFacts.run_shutil_move_file (set_fs w fs1) (fn :: fq) _ c sz ct); try done.
  unfold set_fs. cbn [w_fs]. rewrite Hdst1. by subst sd.
Qed.

(** C8: moving one screenshot: when the file is a regular file in a
    writable directory, its [st_ctime] falls in month [ym], the
    Screenshots folder is a writable directory, the month folder is
    absent or a writable directory, and no entry of the file's name is in
    it, [move_one] makes the month folder if needed, moves the file into
    it under its own name, and prints one "Moved:" line naming the file
    and the folder. *)
Theorem move_one_moves (w : world) (f : path) (c : positive) (sz ct : Z) (ym : string) (ssz sct : Z) :
  fs_wf (w_fs w) ->
  w_fs w !! f = Some (NFile c sz ct) -> parent_dir (w_fs w) f = Ret true ->
  DateTime.month_folder E ct = Ret ym ->
  w_fs w !! screenshots_dir E = Some (NDir true ssz sct) ->
  (w_fs w !! (ym :: screenshots_dir E) = None \/
   exists dsz dct, w_fs w !! (ym :: screenshots_dir E) = Some (NDir true dsz dct)) ->
  w_fs w !! (path_name f :: ym :: screenshots_dir E) = None ->
  move_one E f w =
  (Ret tt, mk_world (<[path_name f :: ym :: screenshots_dir E := NFile c sz ct]>
                       (delete f (with_dir (w_fs w) (ym :: screenshots_dir E) (w_now w))))
                    (w_in w)
                    (w_out w ++ [("Moved: " ++ path_name f ++ " → " ++ path_str (ym :: screenshots_dir E)) ++ nl])
                    (w_err w) (w_now w)).
Proof.
  intros Hwf Hf Hpf Hym Hs Hmd Hdst. apply (run_move_one w f c sz ct ym ssz sct); auto. intros Heq. rewrite <- Heq in Hdst. congruence.
Qed.

(** C16: a screenshot in a read-only folder is copied, not moved: when
    the file's folder is not writable (all else as in [move_one_moves]),
    [os.rename] fails with EACCES, [shutil.move] falls back to [copy2],
    which writes the copy into the month folder with a fresh [st_ctime],
    and then fails to unlink the original; the per-file [except] prints
    "Error moving" with that error, so the file stays where it was and a
    copy of it is left in the month folder. *)
Theorem move_one_readonly_leaves_copy (w : world) (f : path) (c : positive) (sz ct : Z) (ym : string) (ssz sct : Z) :
  fs_wf (w_fs w) ->
  w_fs w !! f = Some (NFile c sz ct) -> parent_dir (w_fs w) f = Ret false ->
  DateTime.month_folder E ct = Ret ym ->
  w_fs w !! screenshots_dir E = Some (NDir true ssz sct) ->
  (w_fs w !! (ym :: screenshots_dir E) = None \/
   exists dsz dct, w_fs w !! (ym :: screenshots_dir E) = Some (NDir true dsz dct)) ->
  w_fs w !! (path_name f :: ym :: screenshots_dir E) = None ->
  move_one E f w =
  (Ret tt, mk_world (<[path_name f :: ym :: screenshots_dir E := NFile c sz (w_now w)]>
                       (with_dir (w_fs w) (ym :: screenshots_dir E) (w_now w)))
                    (w_in w)
                    (w_out w ++ [("Error moving " ++ path_name f ++ ": " ++ str_exn (OSError EACCES (path_str f) None)) ++ nl])
                    (w_err w) (w_now w)).
Proof.
  intros Hwf Hf Hpf Hym Hs Hmd Hdst.
  destruct (month_dir_ready (w_fs w) (w_now w) ym ssz sct Hwf Hs Hmd) as (Hwf1 & Hpd1 & Hne1 & Hpp1).
  remember (screenshots_dir E) as sd eqn:Hsd.
  set (fs1 := with_dir (w_fs w) (ym :: sd) (w_now w)) in *.
  assert (Hf1 : fs1 !! f = Some (NFile c sz ct)).
  { rewrite Hne1; [done|]. intros ->. destruct Hmd as [H | (? & ? & H)]; congruence. }
  destruct f as [|fn fq]; [destruct (root_is_dir _ Hwf) as (? & ? & ? & ?); congruence|].
  assert (Hdst1 : fs1 !! (path_name (fn :: fq) :: ym :: sd) = None).
  { rewrite Hne1; [done|]. intros Heq. apply (f_equal length) in Heq. simpl in Heq. lia. }
  unfold move_one, stat. pym_run. rewrite (os_stat_wf _ _ _ Hwf Hf). pym_run.
  rewrite Hym. pym_run. rewrite <- Hsd.
  rewrite (ShutilFacts.run_mkdir_exist_ok w ym sd ssz sct Hwf Hs);
    [|by destruct Hmd as [H|(? & ? & H)]; [left|right; eauto]].
  pym_run. fold (with_dir (w_fs w) (ym :: sd) (w_now w)). fold fs1.
  rewrite (run_try_caught _ _ _ _ (OSError EACCES (path_str (fn :: fq)) None)
             (set_fs (set_fs w fs1) (<[path_name (fn :: fq) :: ym :: sd := NFile c sz (w_now w)]> fs1))); [by subst sd| |done].
  rewrite bind_run. rewrite (ShutilFacts.run_shutil_move_readonly (set_fs w fs1) (fn :: fq) _ c sz ct);
    [done|done|done|by apply Hpp1|apply Hpd1|done].
Qed.

(** C10: a regular file where a month folder should be stops the whole
    move batch: when the first screenshot's month folder
    [Screenshots/YYYY-MM] is a regular file, [month_dir.mkdir(exist_ok=True)]
    raises [FileExistsError] outside the per-file [try], so the loop raises
    it at once, with nothing moved, nothing printed, and none of the other
    files tried (the spec asks that one file's failure never abort the
    others). *)
Theorem move_loop_blocked_month_aborts (w : world) (f : path) (rest : list path)
    (c : positive) (sz ct : Z) (ym : string) (c' : positive) (sz' ct' : Z) :
  fs_wf (w_fs w) -> w_fs w !! f = Some (NFile c sz ct) -> DateTime.month_folder E ct = Ret ym ->
  w_fs w !! (ym :: screenshots_dir E) = Some (NFile c' sz' ct') ->
  for_each (f :: rest) (move_one E) w = (Raise (OSError EEXIST (path_str (ym :: screenshots_dir E)) None), w).
Proof.
  intros Hwf Hf Hym Hb. rewrite run_for_each_cons. unfold move_one, stat. pym_run.
  rewrite (os_stat_wf _ _ _ Hwf Hf). pym_run. rewrite Hym. pym_run.
  by rewrite (ShutilFacts.run_mkdir_blocked w ym (screenshots_dir E) c' sz' ct').
Qed.

(** ** Where the move loop can stop *)

(** [move_one] raises only from the three steps before its [try]: the
    [try ... except Exception] around [shutil.move] and the report catches
    everything they raise, and its handler only prints. *)
Lemma move_one_raise (f : path) (w w' : world) (e : exn) :
  move_one E f w = (Raise e, w') ->
  os_stat (w_fs w) f = Raise e \/
  exists nd, os_stat (w_fs w) f = Ret nd /\
    (DateTime.month_folder E (node_ctime nd) = Raise e \/
     exists ym, DateTime.month_folder E (node_ctime nd) = Ret ym /\
       Shutil.path_mkdir (screenshots_dir E </> ym) false true w = (Raise e, w')).
Proof.
  unfold move_one, stat. intros H. rewrite bind_run, run_query in H.
  destruct (os_stat (w_fs w) f) as [nd|e1]; [|invc H; by left].
  right. exists nd. split; [done|]. rewrite bind_run, run_lift in H.
  destruct (DateTime.month_folder E (node_ctime nd)) as [ym|e2]; [|invc H; by left].
  right. exists ym. split; [done|]. rewrite bind_run in H.
  destruct (Shutil.path_mkdir _ false true w) as [[[]|e3] w2]; [|done].
  exfalso. revert H. apply raises_try_catch_all; apply _.
Qed.

(** C11: the move loop stops only when, for some file, [Path.stat],
    [datetime.fromtimestamp] or the month folder's [mkdir] raises: the
    steps outside the per-file [try].  A failing [shutil.move] never stops
    it, whatever the disk holds. *)
Theorem move_loop_stops_only_outside_try (files : list path) (w w' : world) (e : exn) :
  for_each files (move_one E) w = (Raise e, w') ->
  exists f w1, f ∈ files /\
    (os_stat (w_fs w1) f = Raise e \/
     exists nd, os_stat (w_fs w1) f = Ret nd /\
       (DateTime.month_folder E (node_ctime nd) = Raise e \/
        exists ym, DateTime.month_folder E (node_ctime nd) = Ret ym /\
          Shutil.path_mkdir (screenshots_dir E </> ym) false true w1 = (Raise e, w'))).
Proof.
  induction files as [|f fl IH] in w |- *; [by intros [=]|].
  rewrite run_for_each_cons. destruct (move_one E f w) as [[[]|e1] w1] eqn:Hm.
  - intros H. destruct (IH w1 H) as (g & w2 & Hg & Hc). exists g, w2. split; [by right|done].
  - intros [= -> ->]. exists f, w. split; [left|]. by apply move_one_raise.
Qed.

(** ** The "File types" line *)

Lemma merge_sort_string_perm (l1 l2 : list string) :
  l1 ≡ₚ l2 -> merge_sort String.le l1 = merge_sort String.le l2.
Proof.
  intros H. apply (Sorted_unique String.le); [apply (Sorted_merge_sort String.le)..|].
  by rewrite !merge_sort_Permutation.
Qed.

(** C29: the "File types" line depends only on the set of suffixes of
    the files: neither their order nor repeated suffixes change it. *)
Theorem file_types_line_set (files1 files2 : list path) :
  (forall x, x ∈ (suffix ∘ path_name) <$> files1 <-> x ∈ (suffix ∘ path_name) <$> files2) ->
  file_types_line (extensions files1) = file_types_line (extensions files2).
Proof.
  intros H. unfold file_types_line, extensions. do 2 f_equal.
  apply merge_sort_string_perm, NoDup_Permutation; [apply NoDup_remove_dups..|].
  intros x. rewrite !elem_of_remove_dups. apply H.
Qed.

Lemma suffix_screenshot (name : string) :
  Glob.is_screenshot_name name = true -> suffix name = ".png".
Proof.
  intros (mid & ->)%Glob.screenshot_name_split. unfold suffix.
  rewrite <- string_app_assoc. set (a := "Screenshot" ++ mid).
  assert (Ha : (10 <= String.length a)%nat) by (unfold a; rewrite string_length_app; simpl; lia).
  rewrite rfind_char_app, string_length_app. change (rfind_char "." ".png") with (Some 0%nat).
  cbv beta iota. change (String.length ".png") with 4%nat.
  destruct (Nat.ltb_spec 0 (String.length a + 0)); [|lia].
  destruct (Nat.ltb_spec (String.length a + 0) (String.length a + 4 - 1)); [|lia].
  rewrite Nat.add_0_r. replace (String.length a + 4 - String.length a)%nat with 4%nat by lia.
  apply (substring_app_r a ".png").
Qed.

Lemma remove_dups_const (l : list string) (x : string) :
  l <> [] -> (forall y, y ∈ l -> y = x) -> remove_dups l = [x].
Proof.
  intros Hne Hall. apply Permutation_singleton_r.
  apply NoDup_Permutation; [apply NoDup_remove_dups | apply NoDup_singleton |].
  intros y. rewrite elem_of_remove_dups, list_elem_of_singleton. split; [apply Hall|].
  intros ->. destruct l as [|z l]; [done|]. rewrite <- (Hall z) by left. left.
Qed.

(** C28: whatever discovery finds, the summary's "File types" line is
    "File types: .png": every discovered name ends in ".png" and
    [Path.suffix] takes the text from its last dot. *)
Theorem discovered_file_types (E' : env) (fs : fsys) :
  Discovery.find_screenshots_fs E' fs <> [] ->
  file_types_line (extensions (Discovery.find_screenshots_fs E' fs)) = "File types: .png".
Proof.
  intros Hne. unfold extensions. rewrite (remove_dups_const _ ".png").
  - reflexivity.
  - by intros ?%fmap_nil_inv.
  - intros y (f & -> & Hf)%list_elem_of_fmap.
    apply Discovery.elem_of_find_screenshots in Hf as (loc & n & _ & _ & -> & _ & Hn).
    by apply suffix_screenshot.
Qed.

(** ** Unfolding the organizer *)

Lemma organize_cons f fl :
  organize_screenshots E (f :: fl) = (summary (f :: fl);; action ← input menu_prompt; dispatch E (f :: fl) action).
Proof. reflexivity. Qed.

Lemma dispatch_delete files : dispatch E files "2" = delete_action files.
Proof. reflexivity. Qed.

Lemma if_true_eqb {A} (s : string) (x y : A) : (if String.eqb s s then x else y) = x.
Proof. by rewrite String.eqb_refl. Qed.

(** ** Running the summary *)

Definition all_stat_ok (fs : fsys) (files : list path) : bool :=
  forallb (fun f => is_ret (os_stat fs f)) files.

Lemma run_sum_sizes files w :
  all_stat_ok (w_fs w) files = true -> exists s, sum_sizes files w = (Ret s, w).
Proof.
  induction files as [|f fl IH]; simpl; [eauto|].
  intros [Hf Hfl]%andb_prop. unfold stat, query. rewrite bind_run.
  destruct (os_stat (w_fs w) f) as [nd|]; [|done]. rewrite bind_run.
  destruct (IH Hfl) as [s ->]. eauto.
Qed.

Lemma run_summary files w :
  all_stat_ok (w_fs w) files = true ->
  exists lines, summary files w = (Ret tt, mk_world (w_fs w) (w_in w) (w_out w ++ lines) (w_err w) (w_now w)).
Proof.
  intros Hok. unfold summary, get_size_ext. rewrite !bind_run.
  destruct (run_sum_sizes files w Hok) as [s ->]. simpl.
  eexists. pym_run. rewrite <- !app_assoc. reflexivity.
Qed.

(** C22: [get_size_ext] is the spec's aggregate: when every file can be
    stat-ed, its total is the sum of their [st_size] and its extensions
    are [extensions files]; otherwise it raises the error of the first
    file that cannot, unhandled, as the spec's aggregation failure.
    Either way it reads the disk only. *)
Theorem get_size_ext_total (files : list path) (w : world) :
  get_size_ext files w =
  (match mapM (os_stat (w_fs w)) files with
   | Ret nds => Ret (Zsum (node_size <$> nds), extensions files)
   | Raise e => Raise e
   end, w).
Proof.
  unfold get_size_ext. rewrite bind_run.
  enough (Hs : sum_sizes files w =
                 (match mapM (os_stat (w_fs w)) files with
                  | Ret nds => Ret (Zsum (node_size <$> nds)) | Raise e => Raise e end, w))
    by (rewrite Hs; by destruct (mapM _ _)).
  induction files as [|f fl IH]; [done|]. cbn [sum_sizes mapM].
  unfold stat, query. rewrite bind_run. cbn [w_fs].
  destruct (os_stat (w_fs w) f) as [nd|e]; [|done]. rewrite bind_run, IH.
  cbn. by destruct (mapM _ fl).
Qed.

(** C3: a confirmed delete ("2", then a line whose [lower()] is "yes")
    runs the reference loop [delete_spec] over the discovered files: the
    disk afterwards is [delete_spec]'s, the output ends with its one
    report line per file, and the run completes without raising however
    many unlinks fail. *)
Theorem organize_delete_confirmed (files : list path) (w : world) (c : string) rest :
  files <> [] -> all_stat_ok (w_fs w) files = true ->
  w_in w = Line "2" :: Line c :: rest -> py_lower c = "yes" ->
  exists out,
    organize_screenshots E files w =
    (Ret tt, mk_world (delete_spec (w_fs w) files).1 rest
               (w_out w ++ out ++ (delete_spec (w_fs w) files).2) (w_err w) (w_now w)).
Proof.
  intros Hne Hok Hin Hyes. destruct files as [|f fl]; [done|].
  destruct (run_summary (f :: fl) w Hok) as [lines Hs].
  rewrite organize_cons, bind_run, Hs, bind_run.
  rewrite (run_input_line _ "2" (Line c :: rest)) by done.
  rewrite dispatch_delete. unfold delete_action. rewrite bind_run.
  rewrite (run_input_line _ c rest) by done. cbn [w_fs w_in w_out w_err w_now].
  rewrite Hyes, if_true_eqb, run_delete_loop. cbn [w_fs w_in w_out w_err w_now].
  exists (lines ++ [menu_prompt; confirm_prompt (f :: fl)])%list.
  by rewrite <- !app_assoc.
Qed.

(** ** Every file of the move loop is reported *)

(** The line [move_one] prints for [f]: "Moved:" with the folder, or
    "Error moving" with the exception. *)
Definition move_report (f : path) (l : string) : Prop :=
  (exists d, l = ("Moved: " ++ path_name f ++ " → " ++ path_str d) ++ nl) \/
  (exists e, l = ("Error moving " ++ path_name f ++ ": " ++ str_exn e) ++ nl).

Lemma move_one_report (f : path) (w w1 : world) :
  move_one E f w = (Ret tt, w1) -> exists l, w_out w1 = (w_out w ++ [l])%list /\ move_report f l.
Proof.
  unfold move_one, stat. intros H. rewrite bind_run, run_query in H.
  destruct (os_stat (w_fs w) f) as [nd|]; [|done]. rewrite bind_run, run_lift in H.
  destruct (DateTime.month_folder E (node_ctime nd)) as [ym|]; [|done]. rewrite bind_run in H.
  destruct (Shutil.path_mkdir _ false true w) as [[[]|e] w2] eqn:Hm; [|done].
  pose proof (path_mkdir_rel same_out _ _ _ _ _ _ _ Hm) as O2. unfold same_out in O2.
  unfold try_except in H. rewrite bind_run in H.
  destruct (Shutil.shutil_move _ _ w2) as [[[]|e] w3] eqn:Hs.
  - pose proof (shutil_move_rel same_out _ _ _ _ _ _ Hs) as O3. unfold same_out in O3.
    rewrite run_print in H. invc H. eexists. split; [simpl; by rewrite O3, O2|]. left. eauto.
  - pose proof (shutil_move_rel same_out _ _ _ _ _ _ Hs) as O3. unfold same_out in O3.
    destruct (is_Exception e); [|done]. rewrite run_print in H. invc H.
    eexists. split; [simpl; by rewrite O3, O2|]. right. eauto.
Qed.

(** C12: when the move loop completes, it has reported every file: the
    output grew by exactly one line per file, in the discovered order,
    each a "Moved:" line or an "Error moving" line naming that file. *)
Theorem move_loop_reports_each (files : list path) (w w' : world) :
  for_each files (move_one E) w = (Ret tt, w') ->
  exists lines, w_out w' = (w_out w ++ lines)%list /\ Forall2 move_report files lines.
Proof.
  induction files as [|f fl IH] in w |- *.
  { intros [= <-]. exists []. by rewrite app_nil_r. }
  rewrite run_for_each_cons. destruct (move_one E f w) as [[[]|e] w1] eqn:Hm; [|done].
  intros Hrest. destruct (move_one_report f w w1 Hm) as (l & Hl & Hr).
  destruct (IH w1 Hrest) as (ls & Hls & Hall). exists (l :: ls). split; [|by constructor].
  by rewrite Hls, Hl, <- app_assoc.
Qed.

(** ** The list action *)

Definition list_line (f : path) (nd : node) : string :=
  (path_name f ++ " (" ++ HumanSize.human_size (node_size nd) ++ ")") ++ nl.

Lemma run_list_loop files nds w :
  mapM (os_stat (w_fs w)) files = Ret nds ->
  for_each files list_one w =
  (Ret tt, mk_world (w_fs w) (w_in w) (w_out w ++ zip_with list_line files nds) (w_err w) (w_now w)).
Proof.
  induction files as [|f fl IH] in nds, w |- *; intros Hm; cbn [mapM] in Hm.
  { invc Hm. simpl. rewrite app_nil_r. by destruct w. }
  destruct (os_stat (w_fs w) f) as [nd|] eqn:Hf; cbn in Hm; [|done].
  destruct (mapM (os_stat (w_fs w)) fl) as [nds'|] eqn:Hfl; cbn in Hm; invc Hm.
  rewrite run_for_each_cons. unfold list_one, stat. rewrite bind_run, run_query, Hf, run_print.
  rewrite (IH nds'); [|exact Hfl]. simpl. by rewrite <- app_assoc.
Qed.

(** C23: the list action (answer "3") prints "Found screenshots:" and
    then one line per file, in the discovered order, with its name and
    [human_size] of its [st_size], and changes nothing on the disk. *)
Theorem list_action_lines (files : list path) (nds : list node) (w : world) :
  mapM (os_stat (w_fs w)) files = Ret nds ->
  list_action files w =
  (Ret tt, mk_world (w_fs w) (w_in w)
             (w_out w ++ [(nl ++ "Found screenshots:") ++ nl] ++ zip_with list_line files nds)
             (w_err w) (w_now w)).
Proof.
  intros H. unfold list_action. rewrite bind_run, run_print. rewrite (run_list_loop _ nds); [|exact H].
  simpl. by rewrite <- app_assoc.
Qed.

End Facts.

#[export] Instance move_one_wf E f : Preserves wf_kept (move_one E f).
Proof. unfold move_one, stat. apply _. Qed.

(** Every action of the organizer keeps the disk well formed. *)
#[export] Instance organize_wf E files : Preserves wf_kept (organize_screenshots E files).
Proof.
  pose proof sum_sizes_pres.
  destruct files; simpl;
    unfold summary, get_size_ext, dispatch, move_action, move_one, delete_action, delete_one,
      list_action, list_one, stat; apply _.
Qed.

End OrganizerFacts.

Section Witnesses.
Import Sample Organizer.

Lemma organize_disk_changes_only_if_asked_witness :
  (exists rest, w_in (world0 [Line "1"]) = Line "1" :: rest) \/
  (exists c rest, w_in (world0 [Line "1"]) = Line "2" :: Line c :: rest /\ py_lower c = "yes").
Proof.
  apply (OrganizerFacts.organize_disk_changes_only_if_asked env0 [shot_may; shot_june] (world0 [Line "1"])
           (organize_screenshots env0 [shot_may; shot_june] (world0 [Line "1"])).2
           (organize_screenshots env0 [shot_may; shot_june] (world0 [Line "1"])).1).
  - apply surjective_pairing.
  - intros H. apply (f_equal (fun fs : fsys => fs !! shot_may)) in H. vm_compute in H. discriminate.
Defined.

Lemma organize_delete_confirmed_witness :
  exists out,
    organize_screenshots env0 [shot_may; shot_june] (world0 [Line "2"; Line "YES"]) =
    (Ret tt, mk_world (OrganizerFacts.delete_spec fs0 [shot_may; shot_june]).1 []
               ([] ++ out ++ (OrganizerFacts.delete_spec fs0 [shot_may; shot_june]).2) [] 1800000000).
Proof.
  apply (OrganizerFacts.organize_delete_confirmed env0 [shot_may; shot_june] (world0 [Line "2"; Line "YES"]) "YES" []);
    [discriminate | vm_compute; reflexivity | reflexivity | reflexivity].
Defined.

Lemma move_one_moves_witness :
  move_one env0 shot_may (set_fs (world0 []) fs_shots) =
  (Ret tt, mk_world (<[path_name shot_may :: "2024-05" :: screenshots_dir env0 := NFile 1 1536 1714557600]>
                       (delete shot_may (OrganizerFacts.with_dir fs_shots ("2024-05" :: screenshots_dir env0) 1800000000)))
                    []
                    ([] ++ [("Moved: " ++ path_name shot_may ++ " → " ++ path_str ("2024-05" :: screenshots_dir env0)) ++ nl])
                    [] 1800000000).
Proof.
  apply (OrganizerFacts.move_one_moves env0 (set_fs (world0 []) fs_shots) shot_may 1 1536 1714557600 "2024-05" 64 0).
  - apply (bool_decide_eq_true_1 (fs_wf _)). vm_compute. reflexivity.
  - vm_compute. reflexivity.
  - vm_compute. reflexivity.
  - vm_compute. reflexivity.
  - vm_compute. reflexivity.
  - left. vm_compute. reflexivity.
  - vm_compute. reflexivity.
Defined.

Lemma file_types_line_set_witness :
  file_types_line (extensions [shot_may; shot_june]) = file_types_line (extensions [shot_june]).
Proof.
  apply OrganizerFacts.file_types_line_set.
  assert (H1 : (suffix ∘ path_name) <$> [shot_may; shot_june] = [".png"; ".png"]) by (vm_compute; reflexivity).
  assert (H2 : (suffix ∘ path_name) <$> [shot_june] = [".png"]) by (vm_compute; reflexivity).
  rewrite H1, H2. set_solver.
Defined.

Lemma discovered_file_types_witness :
  file_types_line (extensions (Discovery.find_screenshots_fs env0 fs0)) = "File types: .png".
Proof.
  apply OrganizerFacts.discovered_file_types. intros H. vm_compute in H. discriminate.
Defined.

Lemma move_loop_stops_only_outside_try_witness :
  let fs := <[screenshots_dir env0 </> "2024-05" := NFile 9 100 0]> fs_shots in
  let w := mk_world fs [] [] [] 1800000000 in
  exists f w1, f ∈ [shot_may; shot_june] /\
    (os_stat (w_fs w1) f = Raise (OSError EEXIST "/Users/alice/Pictures/Screenshots/2024-05" None) \/
     exists nd, os_stat (w_fs w1) f = Ret nd /\
       (DateTime.month_folder env0 (node_ctime nd) = Raise (OSError EEXIST "/Users/alice/Pictures/Screenshots/2024-05" None) \/
        exists ym, DateTime.month_folder env0 (node_ctime nd) = Ret ym /\
          Shutil.path_mkdir (screenshots_dir env0 </> ym) false true w1 =
          (Raise (OSError EEXIST "/Users/alice/Pictures/Screenshots/2024-05" None),
           (for_each [shot_may; shot_june] (move_one env0) w).2))).
Proof.
  intros fs w. apply (OrganizerFacts.move_loop_stops_only_outside_try env0 [shot_may; shot_june] w).
  vm_compute. reflexivity.
Defined.

Lemma list_action_lines_witness :
  list_action [shot_may; shot_june] (world0 []) =
  (Ret tt, mk_world fs0 []
             ([] ++ [(nl ++ "Found screenshots:") ++ nl] ++
              zip_with OrganizerFacts.list_line [shot_may; shot_june] [NFile 1 1536 1714557600; NFile 2 2048 1717236000])
             [] 1800000000).
Proof.
  apply (OrganizerFacts.list_action_lines [shot_may; shot_june]). vm_compute. reflexivity.
Defined.

Lemma move_loop_reports_each_witness :
  exists lines,
    w_out (for_each [shot_may; shot_june] (move_one env0) (set_fs (world0 []) fs_shots)).2 =
    (w_out (set_fs (world0 []) fs_shots) ++ lines)%list /\
    Forall2 OrganizerFacts.move_report [shot_may; shot_june] lines.
Proof.
  apply (OrganizerFacts.move_loop_reports_each env0 [shot_may; shot_june] (set_fs (world0 []) fs_shots)).
  vm_compute. reflexivity.
Defined.

Lemma move_loop_blocked_month_aborts_witness :
  let w := set_fs (world0 []) (<["2024-05" :: screenshots_dir env0 := NFile 9 1 0]> fs_shots) in
  for_each [shot_may; shot_june] (move_one env0) w =
  (Raise (OSError EEXIST (path_str ("2024-05" :: screenshots_dir env0)) None), w).
Proof.
  intros w. apply (OrganizerFacts.move_loop_blocked_month_aborts env0 w shot_may [shot_june] 1 1536 1714557600 "2024-05" 9 1 0).
  - apply (bool_decide_unpack _). vm_compute. reflexivity.
  - vm_compute. reflexivity.
  - vm_compute. reflexivity.
  - vm_compute. reflexivity.
Defined.

Lemma delete_answer_trailing_space_cancels_witness :
  delete_action [shot_may] (world0 [Line ("yes" ++ " ")]) =
  (Ret tt, mk_world fs0 [] ([] ++ [confirm_prompt [shot_may]; ("Operation cancelled" ++ nl)%string])%list [] 1800000000).
Proof. exact (OrganizerFacts.delete_answer_trailing_space_cancels [shot_may] (world0 [Line ("yes" ++ " ")]) "yes" [] eq_refl). Defined.

Lemma delete_one_directory_refused_witness :
  let d := "Desktop" :: home in
  delete_one d (world0 []) =
  (Ret tt, mk_world fs0 []
             ([] ++ [(("Error deleting " ++ path_name d ++ ": " ++ str_exn (OSError EPERM (path_str d) None)) ++ nl)%string])%list
             [] 1800000000).
Proof.
  intros d. apply (OrganizerFacts.delete_one_directory_refused (world0 []) d true 64 0).
  - apply (bool_decide_unpack _). vm_compute. reflexivity.
  - vm_compute. reflexivity.
  - discriminate.
Defined.

Lemma move_one_readonly_leaves_copy_witness :
  let fs := <["Desktop" :: home := NDir false 64 0]> fs_shots in
  let tg := path_name shot_may :: "2024-05" :: screenshots_dir env0 in
  move_one env0 shot_may (set_fs (world0 []) fs) =
  (Ret tt, mk_world (<[tg := NFile 1 1536 1800000000]>
                       (OrganizerFacts.with_dir fs ("2024-05" :: screenshots_dir env0) 1800000000))
                    []
                    ([] ++ [("Error moving " ++ path_name shot_may ++ ": " ++
                             str_exn (OSError EACCES (path_str shot_may) None)) ++ nl])
                    [] 1800000000).
Proof.
  intros fs tg.
  apply (OrganizerFacts.move_one_readonly_leaves_copy env0 (set_fs (world0 []) fs) shot_may 1 1536 1714557600 "2024-05" 64 0).
  - apply (bool_decide_unpack _). vm_compute. reflexivity.
  - vm_compute. reflexivity.
  - vm_compute. reflexivity.
  - vm_compute. reflexivity.
  - vm_compute. reflexivity.
  - left. vm_compute. reflexivity.
  - vm_compute. reflexivity.
Defined.

End Witnesses.

