(* ===== verification/MoveFacts.v ===== *)
(** * The move action as a per-file reference loop

    The spec reads action 1 as: each screenshot, in order, goes to
    [~/Pictures/Screenshots/YYYY-MM/<name>], the month of its [st_ctime],
    the month folder being made when it is missing, and one "Moved:" line
    is printed per file.  [move_spec] is that reading as a fold over the
    files ([move_step] per file), [moved_line] the line it prints.

    [move_loop_refines_spec] shows the loop of [move_action] computes
    exactly [move_spec] and prints the [moved_line]s, without raising,
    when every file is [movable] (a regular file in a writable directory
    whose month folder is absent or a writable directory and whose target
    is free) and the targets are pairwise distinct; [move_loop_effect]
    says, through [move_spec_effect], what the loop does to each key of
    the disk: every file is gone from its place and is at its target with
    its contents, every month folder is a directory, and every other key
    is unchanged.  The step
    lemmas show that moving one file keeps the others [movable]: it only
    removes that file, adds its target and perhaps its month folder.
    [move_loop_same_name_overwrites] follows two movable files with one
    target through the loop: both are reported moved and the second
    replaces the first. *)

From S2P Require Import Prelude PyStr Fs FsFacts PyMonad PyFacts Sample Shutil ShutilFacts DateTime Organizer OrganizerFacts.

Module MoveFacts.
Import Organizer OrganizerFacts.

Section Spec.
Context (E : env).
Local Notation sd := (screenshots_dir E).

(** The month folder of [f], from its [st_ctime] on [fs]. *)
Definition month_of (fs : fsys) (f : path) : option string :=
  match fs !! f with
  | Some (NFile _ _ ct) => match DateTime.month_folder E ct with Ret ym => Some ym | Raise _ => None end
  | _ => None
  end.

Definition target_of (fs : fsys) (f : path) : option path :=
  (fun ym => path_name f :: ym :: sd) <$> month_of fs f.

(** One file of the reference loop: make the month folder if missing,
    then move the file into it under its name. *)
Definition move_step (t : Z) (fs : fsys) (f : path) : fsys :=
  match fs !! f, month_of fs f with
  | Some nd, Some ym => <[path_name f :: ym :: sd := nd]> (delete f (with_dir fs (ym :: sd) t))
  | _, _ => fs
  end.

Definition move_spec (t : Z) (fs : fsys) (files : list path) : fsys := foldl (move_step t) fs files.

Definition moved_line (fs : fsys) (f : path) : option string :=
  (fun ym => ("Moved: " ++ path_name f ++ " → " ++ path_str (ym :: sd)) ++ nl) <$> month_of fs f.

(** What the move of [f] needs of the disk. *)
Definition movable (fs : fsys) (f : path) : Prop :=
  exists c sz ct ym, fs !! f = Some (NFile c sz ct) /\ parent_dir fs f = Ret true /\
    DateTime.month_folder E ct = Ret ym /\
    (fs !! (ym :: sd) = None \/ exists dsz dct, fs !! (ym :: sd) = Some (NDir true dsz dct)) /\
    fs !! (path_name f :: ym :: sd) = None.

(** ** One step *)

(** A free target is not the file itself. *)
Lemma target_ne_file (fs : fsys) f c sz ct (tg : path) :
  fs !! f = Some (NFile c sz ct) -> fs !! tg = None -> f <> tg.
Proof. intros Hf Ht ->. congruence. Qed.

Local Ltac len_neq := let H := fresh in intros H; apply (f_equal length) in H; simpl in H; lia.

Lemma month_of_file fs f c sz ct ym :
  fs !! f = Some (NFile c sz ct) -> DateTime.month_folder E ct = Ret ym -> month_of fs f = Some ym.
Proof. unfold month_of. by intros -> ->. Qed.

Lemma month_of_congr fs fs' f : fs' !! f = fs !! f -> month_of fs' f = month_of fs f.
Proof. unfold month_of. by intros ->. Qed.

Lemma with_dir_lookup_ne fs p t k : k <> p -> with_dir fs p t !! k = fs !! k.
Proof. unfold with_dir. intros Hk. case_match; [done|]. by rewrite lookup_insert_ne. Qed.

Lemma length_target n ym : length (n :: ym :: sd) <> length (ym :: sd).
Proof. simpl. lia. Qed.

(** Moving [f] changes only [f], its target and its month folder when
    that was missing. *)
Lemma move_step_lookup_ne t fs f k c sz ct ym :
  fs !! f = Some (NFile c sz ct) -> DateTime.month_folder E ct = Ret ym ->
  k <> f -> k <> path_name f :: ym :: sd -> (k <> ym :: sd \/ is_Some (fs !! (ym :: sd))) ->
  move_step t fs f !! k = fs !! k.
Proof.
  intros Hf Hym Hkf Hkt Hkm. unfold move_step. rewrite Hf, (month_of_file _ _ _ _ _ _ Hf Hym).
  rewrite lookup_insert_ne, lookup_delete_ne by congruence.
  destruct Hkm as [Hkm|[nd Hnd]]; [by apply with_dir_lookup_ne|]. unfold with_dir. by rewrite Hnd.
Qed.

Lemma move_step_month t fs f c sz ct ym :
  fs !! f = Some (NFile c sz ct) -> DateTime.month_folder E ct = Ret ym ->
  (fs !! (ym :: sd) = None \/ exists dsz dct, fs !! (ym :: sd) = Some (NDir true dsz dct)) ->
  exists dsz dct, move_step t fs f !! (ym :: sd) = Some (NDir true dsz dct).
Proof.
  intros Hf Hym Hm. unfold move_step. rewrite Hf, (month_of_file _ _ _ _ _ _ Hf Hym).
  rewrite lookup_insert_ne by (intros Heq; by apply (length_target (path_name f) ym), (f_equal length)).
  rewrite lookup_delete_ne by (intros ->; destruct Hm as [H|(? & ? & H)]; congruence).
  unfold with_dir. destruct Hm as [H|(dsz & dct & H)]; rewrite H; [rewrite lookup_insert_eq|rewrite H]; eauto.
Qed.

(** A present key other than [f] survives the move of [f]: the target
    was free and the month folder is only made when missing. *)
Lemma move_step_keep t fs f k nd :
  movable fs f -> fs !! k = Some nd -> k <> f -> move_step t fs f !! k = Some nd.
Proof.
  intros (c & sz & ct & ym & Hf & _ & Hym & _ & Ht) Hk Hkf.
  rewrite (move_step_lookup_ne _ _ _ _ _ _ _ _ Hf Hym); [done|done|congruence|].
  destruct (decide (k = ym :: sd)) as [->|]; [right; by eexists|by left].
Qed.

Lemma month_of_step t fs f g :
  movable fs f -> movable fs g -> g <> f -> month_of (move_step t fs f) g = month_of fs g.
Proof.
  intros Hf (c & sz & ct & ym & Hg & _) Hgf. apply month_of_congr.
  by rewrite (move_step_keep _ _ _ _ _ Hf Hg Hgf).
Qed.

(** What the loop reads of the files still to move is unchanged by a move. *)
Lemma omap_month_step {B : Type} (k : path -> string -> B) t fs f rest :
  movable fs f -> Forall (movable fs) rest -> f ∉ rest ->
  omap (fun g => k g <$> month_of (move_step t fs f) g) rest = omap (fun g => k g <$> month_of fs g) rest.
Proof.
  intros Hf Hall Hnin. apply list_omap_ext, Forall_Forall2_diag, Forall_forall. intros g Hg.
  rewrite month_of_step; [done|done|by eapply Forall_forall|by intros ->].
Qed.

Lemma move_step_eq t fs f nd ym :
  fs !! f = Some nd -> month_of fs f = Some ym ->
  move_step t fs f = <[path_name f :: ym :: sd := nd]> (delete f (with_dir fs (ym :: sd) t)).
Proof. unfold move_step. by intros -> ->. Qed.

Lemma target_of_movable fs g :
  movable fs g -> exists ym c sz ct, target_of fs g = Some (path_name g :: ym :: sd) /\
    fs !! g = Some (NFile c sz ct) /\ DateTime.month_folder E ct = Ret ym /\ month_of fs g = Some ym /\
    fs !! (path_name g :: ym :: sd) = None /\
    (fs !! (ym :: sd) = None \/ exists dsz dct, fs !! (ym :: sd) = Some (NDir true dsz dct)).
Proof.
  intros (c & sz & ct & ym & Hg & _ & Hym & Hmd & Ht). exists ym, c, sz, ct. unfold target_of.
  by rewrite (month_of_file _ _ _ _ _ _ Hg Hym).
Qed.

(** The writable directory of another file stays as it was. *)
Lemma parent_dir_step t fs f g c sz ct :
  fs_wf fs -> fs_wf (move_step t fs f) -> movable fs f -> fs !! g = Some (NFile c sz ct) ->
  parent_dir fs g = Ret true -> parent_dir (move_step t fs f) g = Ret true.
Proof.
  intros Hwf Hwf' Hf Hg Hpg. pose proof Hf as (? & ? & ? & ? & Hfl & _).
  destruct g as [|gn gq]; [destruct (root_is_dir _ Hwf) as (? & ? & ? & ?); congruence|].
  apply (parent_dir_wf _ Hwf) in Hpg as (psz & pct & Hq). apply (parent_dir_wf _ Hwf'). exists psz, pct.
  apply move_step_keep; [done|done|congruence].
Qed.

(** Moving [f] keeps every other file with a different target [movable]. *)
Lemma movable_step t fs f g :
  fs_wf fs -> fs_wf (move_step t fs f) -> movable fs f -> movable fs g -> g <> f ->
  target_of fs g <> target_of fs f -> movable (move_step t fs f) g.
Proof.
  intros Hwf Hwf' Hf Hg Hgf Htne. pose proof Hf as (c & sz & ct & ym & Hfl & _ & Hym & Hmd & Ht).
  pose proof Hg as (c' & sz' & ct' & ym' & Hgl & Hpg & Hym' & Hmd' & Ht').
  unfold target_of in Htne. rewrite (month_of_file _ _ _ _ _ _ Hgl Hym'), (month_of_file _ _ _ _ _ _ Hfl Hym) in Htne. cbn in Htne.
  exists c', sz', ct', ym'. split_and!; [by apply move_step_keep| |done| |].
  - by eapply parent_dir_step.
  - destruct Hmd' as [Hn|(dsz & dct & Hd)].
    + destruct (decide (ym' = ym)) as [->|Hne]; [right; by eapply move_step_month|left].
      rewrite (move_step_lookup_ne _ _ _ _ _ _ _ _ Hfl Hym); [done|congruence|len_neq|left; congruence].
    + right. exists dsz, dct. apply move_step_keep; [done|done|congruence].
  - rewrite (move_step_lookup_ne _ _ _ _ _ _ _ _ Hfl Hym); [done|congruence|congruence|left; len_neq].
Qed.

(** Distinct targets: the target of a later file is not that of [f]. *)
Lemma targets_distinct fs f g rest :
  movable fs f -> movable fs g -> g ∈ rest -> NoDup (omap (target_of fs) (f :: rest)) ->
  target_of fs g <> target_of fs f.
Proof.
  intros Hf Hg Hin Hnd. destruct (target_of_movable _ _ Hf) as (ym & c & sz & ct & Htf & _).
  destruct (target_of_movable _ _ Hg) as (ym' & c' & sz' & ct' & Htg & _).
  cbn [omap list_omap] in Hnd. rewrite Htf in Hnd. apply NoDup_cons in Hnd as [Hnin _].
  rewrite Htf, Htg. intros Heq. apply Hnin, list_elem_of_omap. exists g. split; [done|]. by rewrite Htg.
Qed.

Lemma targets_tail fs f rest : movable fs f -> NoDup (omap (target_of fs) (f :: rest)) -> NoDup (omap (target_of fs) rest).
Proof.
  intros Hf Hnd. destruct (target_of_movable _ _ Hf) as (ym & c & sz & ct & Htf & _).
  cbn [omap list_omap] in Hnd. rewrite Htf in Hnd. by apply NoDup_cons in Hnd as [_ Hnd].
Qed.

Lemma move_step_wf t fs f ssz sct :
  fs_wf fs -> fs !! sd = Some (NDir true ssz sct) -> movable fs f -> fs_wf (move_step t fs f).
Proof.
  intros Hwf Hs Hf. pose proof Hf as (c & sz & ct & ym & Hfl & Hpf & Hym & Hmd & Ht).
  pose proof (run_move_one E (mk_world fs [] [] [] t) f c sz ct ym ssz sct Hwf Hfl Hpf Hym Hs Hmd (or_introl Ht) (target_ne_file _ _ _ _ _ _ Hfl Ht)) as Hrun.
  cbn [w_fs w_now] in Hrun. rewrite <- (move_step_eq t _ _ _ ym Hfl) in Hrun by exact (month_of_file _ _ _ _ _ _ Hfl Hym).
  exact (move_one_wf E f _ _ _ Hrun Hwf).
Qed.

(** A target is free and a month folder is no regular file. *)
Lemma target_absent fs g k : movable fs g -> is_Some (fs !! k) -> target_of fs g <> Some k.
Proof.
  intros Hg [nd Hk]. destruct (target_of_movable _ _ Hg) as (ym & c & sz & ct & -> & _ & _ & _ & Ht & _).
  intros [= <-]. congruence.
Qed.

Lemma month_not_file fs g k ym c sz ct :
  movable fs g -> month_of fs g = Some ym -> fs !! k = Some (NFile c sz ct) -> k <> ym :: sd.
Proof.
  intros Hg Hm Hk ->. destruct (target_of_movable _ _ Hg) as (ym' & ? & ? & ? & _ & _ & _ & Hm' & _ & Hmd).
  rewrite Hm in Hm'. injection Hm' as <-. destruct Hmd as [H|(? & ? & H)]; congruence.
Qed.

(** After moving the first file the others are still movable, with the
    same targets, on a well-formed disk. *)
Lemma move_step_rest t fs f rest ssz sct :
  fs_wf fs -> fs !! sd = Some (NDir true ssz sct) -> f ∉ rest -> Forall (movable fs) (f :: rest) ->
  NoDup (omap (target_of fs) (f :: rest)) ->
  fs_wf (move_step t fs f) /\ move_step t fs f !! sd = Some (NDir true ssz sct) /\
  Forall (movable (move_step t fs f)) rest /\ NoDup (omap (target_of (move_step t fs f)) rest).
Proof.
  intros Hwf Hs Hnin Hall Htd. apply Forall_cons in Hall as [Hf Hrest].
  assert (Hwf1 : fs_wf (move_step t fs f)) by by eapply move_step_wf.
  split_and!; [done| |apply Forall_forall; intros g Hg|].
  - apply move_step_keep; [done|done|]. destruct Hf as (? & ? & ? & ? & ? & _). congruence.
  - apply movable_step; [done|done|done|by eapply Forall_forall|by intros ->|].
    eapply targets_distinct; [done| |done|done]. by eapply Forall_forall.
  - unfold target_of. rewrite (omap_month_step (fun g ym => path_name g :: ym :: sd)) by done.
    by eapply targets_tail.
Qed.

(** The run of the move loop when every move succeeds. *)
Lemma run_move_loop (files : list path) (w : world) (ssz sct : Z) :
  fs_wf (w_fs w) -> w_fs w !! sd = Some (NDir true ssz sct) -> NoDup files ->
  Forall (movable (w_fs w)) files -> NoDup (omap (target_of (w_fs w)) files) ->
  for_each files (move_one E) w =
  (Ret tt, mk_world (move_spec (w_now w) (w_fs w) files) (w_in w)
             (w_out w ++ omap (moved_line (w_fs w)) files)%list (w_err w) (w_now w)).
Proof.
  induction files as [|f rest IH] in w |- *; intros Hwf Hs Hnd Hall Htd.
  { destruct w. simpl. by rewrite app_nil_r. }
  apply NoDup_cons in Hnd as [Hnin Hnd]. pose proof Hall as [Hf Hrest]%Forall_cons.
  pose proof Hf as (c & sz & ct & ym & Hfl & Hpf & Hym & Hmd & Ht).
  pose proof (run_move_one E w f c sz ct ym ssz sct Hwf Hfl Hpf Hym Hs Hmd (or_introl Ht) (target_ne_file _ _ _ _ _ _ Hfl Ht)) as Hrun.
  rewrite <- (move_step_eq (w_now w) _ _ _ ym Hfl) in Hrun by exact (month_of_file _ _ _ _ _ _ Hfl Hym).
  rewrite run_for_each_cons, Hrun. cbn beta iota.
  destruct (move_step_rest (w_now w) (w_fs w) f rest ssz sct) as (Hwf1 & Hs1 & Hall1 & Htd1); try done.
  rewrite IH; cbn [w_fs w_in w_out w_err w_now]; try done.
  unfold move_spec, moved_line. rewrite (omap_month_step (fun g ym => _)) by done.
  cbn [foldl omap list_omap]. rewrite (month_of_file _ _ _ _ _ _ Hfl Hym). simpl. by rewrite <- app_assoc.
Qed.

(** A key that is neither [f], nor its target, nor a month folder it
    makes is not touched by the move of [f]. *)
Lemma move_step_other t fs f k :
  movable fs f -> k <> f -> target_of fs f <> Some k ->
  (is_Some (fs !! k) \/ forall ym, month_of fs f = Some ym -> k <> ym :: sd) ->
  move_step t fs f !! k = fs !! k.
Proof.
  intros Hf Hkf Hnt Hnm. destruct (target_of_movable _ _ Hf) as (ym & c & sz & ct & Htf & Hfl & Hym & Hmf & _).
  apply (move_step_lookup_ne t fs f k c sz ct ym Hfl Hym Hkf); [intros ->; by apply Hnt|].
  destruct Hnm as [Hsk|Hnm]; [destruct (decide (k = ym :: sd)) as [->|]; [by right|by left]|left; by apply Hnm].
Qed.

(** The three readings of the disk the reference loop keeps for the files
    still to move. *)
Lemma move_step_same t fs f (rest : list path) h :
  movable fs f -> movable fs h -> f ∉ rest -> h ∈ rest ->
  move_step t fs f !! h = fs !! h /\ month_of (move_step t fs f) h = month_of fs h /\
  target_of (move_step t fs f) h = target_of fs h.
Proof.
  intros Hf Hh Hnin Hin. assert (Hhf : h <> f) by (intros ->; contradiction).
  pose proof Hh as (c & sz & ct & ym & Hhl & _).
  rewrite (move_step_keep _ _ _ _ _ Hf Hhl Hhf). unfold target_of. by rewrite month_of_step.
Qed.

Lemma target_not_month fs h ym : movable fs h -> target_of fs h <> Some (ym :: sd).
Proof.
  intros Hh. destruct (target_of_movable _ _ Hh) as (ym' & ? & ? & ? & -> & _). intros Heq.
  apply (f_equal (fmap length)) in Heq. simpl in Heq. injection Heq. lia.
Qed.

(** What the reference loop does to the disk: under the hypotheses
    of [run_move_loop], every file is gone from its place and is
    at its target with its node (contents, size and [st_ctime]); every
    month folder of a file is a writable directory; and every other key
    that is neither a target nor a month folder made by the loop keeps
    its entry. *)
Lemma move_spec_effect (t : Z) (fs : fsys) (files : list path) (ssz sct : Z) :
  fs_wf fs -> fs !! sd = Some (NDir true ssz sct) -> NoDup files ->
  Forall (movable fs) files -> NoDup (omap (target_of fs) files) ->
  (forall f, f ∈ files -> move_spec t fs files !! f = None /\
     exists tg, target_of fs f = Some tg /\ move_spec t fs files !! tg = fs !! f) /\
  (forall f ym, f ∈ files -> month_of fs f = Some ym ->
     exists dsz dct, move_spec t fs files !! (ym :: sd) = Some (NDir true dsz dct)) /\
  (forall k, k ∉ files -> (forall f, f ∈ files -> target_of fs f <> Some k) ->
     (is_Some (fs !! k) \/ forall f ym, f ∈ files -> month_of fs f = Some ym -> k <> ym :: sd) ->
     move_spec t fs files !! k = fs !! k).
Proof.
  induction files as [|f rest IH] in fs |- *; intros Hwf Hs Hnd Hall Htd.
  { split_and!; [intros ? []%elem_of_nil|intros ? ? []%elem_of_nil|done]. }
  apply NoDup_cons in Hnd as [Hnin Hnd].
  destruct (move_step_rest t fs f rest ssz sct) as (Hwf1 & Hs1 & Hall1 & Htd1); try done.
  destruct (IH _ Hwf1 Hs1 Hnd Hall1 Htd1) as (IH1 & IH2 & IH3). clear IH.
  apply Forall_cons in Hall as [Hf Hrest]. rewrite Forall_forall in Hrest, Hall1.
  pose proof (fun h Hh => move_step_same t fs f rest h Hf (Hrest h Hh) Hnin Hh) as Hsame.
  destruct (target_of_movable _ _ Hf) as (ym & c & sz & ct & Htf & Hfl & Hym & Hmf & Ht & Hmd).
  change (move_spec t fs (f :: rest)) with (move_spec t (move_step t fs f) rest).
  assert (Hkeep : forall k, k ∉ rest -> is_Some (move_step t fs f !! k) -> (forall h, h ∈ rest -> target_of fs h <> Some k) ->
            move_spec t (move_step t fs f) rest !! k = move_step t fs f !! k).
  { intros k Hk Hsk Hnt. apply IH3; [done| |by left]. intros h Hh. rewrite (proj2 (proj2 (Hsame h Hh))). by apply Hnt. }
  split_and!.
  - intros g [->|Hg]%elem_of_cons; [split|].
    + rewrite IH3; [|done| |right].
      * rewrite (move_step_eq t fs f _ ym Hfl Hmf), lookup_insert_ne by congruence. apply lookup_delete_eq.
      * intros h Hh. rewrite (proj2 (proj2 (Hsame h Hh))). apply (target_absent _ _ _ (Hrest h Hh)). by eexists.
      * intros h ym' Hh. rewrite (proj1 (proj2 (Hsame h Hh))). intros Hm. exact (month_not_file _ _ _ _ _ _ _ (Hrest h Hh) Hm Hfl).
    + eexists. split; [exact Htf|]. rewrite Hkeep.
      * by rewrite (move_step_eq t fs f _ ym Hfl Hmf), lookup_insert_eq, Hfl.
      * intros Hin. destruct (Hrest _ Hin) as (? & ? & ? & ? & ? & _). congruence.
      * rewrite (move_step_eq t fs f _ ym Hfl Hmf), lookup_insert_eq. by eexists.
      * intros h Hh. rewrite <- Htf. exact (targets_distinct _ _ _ _ Hf (Hrest h Hh) Hh Htd).
    + destruct (IH1 g Hg) as [Hn (tg & Htg & Hv)]. destruct (Hsame g Hg) as (Hl & _ & Ht').
      split; [done|]. exists tg. by rewrite <- Ht', <- Hl.
  - intros g ym' [->|Hg]%elem_of_cons Hm.
    + rewrite Hmf in Hm. injection Hm as <-.
      destruct (move_step_month t fs f c sz ct ym Hfl Hym Hmd) as (dsz & dct & Hd). exists dsz, dct. rewrite Hkeep.
      * done.
      * intros Hin. destruct (Hall1 _ Hin) as (? & ? & ? & ? & ? & _). congruence.
      * by eexists.
      * intros h Hh. exact (target_not_month _ _ _ (Hrest h Hh)).
    + apply (IH2 g); [done|]. by rewrite (proj1 (proj2 (Hsame g Hg))).
  - intros k [Hkf Hk]%not_elem_of_cons Hnt Hnm.
    assert (Hk1 : move_step t fs f !! k = fs !! k).
    { apply move_step_other; [done|done|apply Hnt; by left|].
      destruct Hnm as [?|Hnm]; [by left|right]. intros ym'. apply Hnm. by left. }
    rewrite IH3; [done|done| |].
    + intros h Hh. rewrite (proj2 (proj2 (Hsame h Hh))). apply Hnt. by right.
    + destruct Hnm as [Hsk|Hnm]; [left; by rewrite Hk1|right].
      intros h ym' Hh. rewrite (proj1 (proj2 (Hsame h Hh))). apply Hnm. by right.
Qed.

(** C6: the move loop of [move_action] refines the per-file reference
    loop: when the Screenshots folder is a writable directory, the files
    are distinct and [movable], and their targets pairwise distinct, the
    loop does not raise, leaves exactly the disk of [move_spec] and prints
    one "Moved:" line per file, in order. *)
Theorem move_loop_refines_spec (files : list path) (w : world) (ssz sct : Z) :
  fs_wf (w_fs w) -> w_fs w !! sd = Some (NDir true ssz sct) -> NoDup files ->
  Forall (movable (w_fs w)) files -> NoDup (omap (target_of (w_fs w)) files) ->
  for_each files (move_one E) w =
  (Ret tt, mk_world (move_spec (w_now w) (w_fs w) files) (w_in w)
             (w_out w ++ omap (moved_line (w_fs w)) files)%list (w_err w) (w_now w)).
Proof. apply run_move_loop. Qed.

(** C7: what the move loop does, under the hypotheses of
    [move_loop_refines_spec]: it does not raise, keeps the pending input,
    prints one "Moved:" line per file in order, and leaves a disk on which
    every file is gone from its place and is at its target
    [~/Pictures/Screenshots/YYYY-MM/<name>] with its node (contents, size
    and [st_ctime]), every month folder of a file is a writable directory,
    and every other key that is neither a target nor a month folder made
    by the loop keeps its entry. *)
Theorem move_loop_effect (files : list path) (w : world) (ssz sct : Z) :
  fs_wf (w_fs w) -> w_fs w !! sd = Some (NDir true ssz sct) -> NoDup files ->
  Forall (movable (w_fs w)) files -> NoDup (omap (target_of (w_fs w)) files) ->
  exists w', for_each files (move_one E) w = (Ret tt, w') /\ w_in w' = w_in w /\
    w_out w' = (w_out w ++ omap (moved_line (w_fs w)) files)%list /\
    (forall f, f ∈ files -> w_fs w' !! f = None /\
       exists tg, target_of (w_fs w) f = Some tg /\ w_fs w' !! tg = w_fs w !! f) /\
    (forall f ym, f ∈ files -> month_of (w_fs w) f = Some ym ->
       exists dsz dct, w_fs w' !! (ym :: sd) = Some (NDir true dsz dct)) /\
    (forall k, k ∉ files -> (forall f, f ∈ files -> target_of (w_fs w) f <> Some k) ->
       (is_Some (w_fs w !! k) \/ forall f ym, f ∈ files -> month_of (w_fs w) f = Some ym -> k <> ym :: sd) ->
       w_fs w' !! k = w_fs w !! k).
Proof.
  intros Hwf Hs Hnd Hall Htd.
  destruct (move_spec_effect (w_now w) (w_fs w) files ssz sct) as (H1 & H2 & H3); try done.
  eexists. rewrite (run_move_loop files w ssz sct) by done. split_and!; [done..|exact H1|exact H2|exact H3].
Qed.

(** A file that can be moved can be stat-ed, so the summary runs. *)
Lemma movable_stat_ok fs files :
  fs_wf fs -> Forall (movable fs) files -> all_stat_ok fs files = true.
Proof.
  intros Hwf Hall. apply forallb_forall. intros f Hf. apply list_elem_of_In in Hf.
  destruct (proj1 (Forall_forall _ _) Hall f Hf) as (c & sz & ct & ym & Hfl & _).
  by rewrite (os_stat_wf _ _ _ Hwf Hfl).
Qed.

(** Distinct targets make the files distinct. *)
Lemma targets_NoDup_files fs files :
  Forall (movable fs) files -> NoDup (omap (target_of fs) files) -> NoDup files.
Proof.
  induction files as [|f rest IH]; intros Hall Htd; [constructor|].
  pose proof Hall as [Hf Hrest]%Forall_cons. constructor; [|by eapply IH, targets_tail].
  intros Hin. destruct (target_of_movable _ _ Hf) as (ym & ? & ? & ? & Htf & _).
  cbn [omap list_omap] in Htd. rewrite Htf in Htd. apply NoDup_cons in Htd as [Hnin _].
  apply Hnin, list_elem_of_omap. by exists f.
Qed.

(** C9: two screenshots with the same name and the same month overwrite
    each other: when [f] and [g] are distinct and [movable] and their
    targets coincide, the move loop reports both as moved and returns
    normally, yet afterwards neither is at its place and the common target
    holds [g]'s node only, so [f]'s contents are gone from the disk's
    view of both names (the spec counts a name collision as a per-file
    failure). *)
Theorem move_loop_same_name_overwrites (w : world) (f g : path) (ssz sct : Z) :
  fs_wf (w_fs w) -> w_fs w !! sd = Some (NDir true ssz sct) ->
  movable (w_fs w) f -> movable (w_fs w) g -> f <> g -> target_of (w_fs w) f = target_of (w_fs w) g ->
  exists tg cg szg ctg w', target_of (w_fs w) g = Some tg /\ w_fs w !! g = Some (NFile cg szg ctg) /\
    for_each [f; g] (move_one E) w = (Ret tt, w') /\
    w_fs w' !! f = None /\ w_fs w' !! g = None /\ w_fs w' !! tg = Some (NFile cg szg ctg) /\
    w_out w' = (w_out w ++ omap (moved_line (w_fs w)) [f; g])%list.
Proof.
  intros Hwf Hs Hf Hg Hfg Htt.
  destruct (target_of_movable _ _ Hf) as (ym & c & sz & ct & Htf & Hfl & Hym & Hmf & Ht & Hmd).
  destruct (target_of_movable _ _ Hg) as (ymg & cg & szg & ctg & Htg & Hgl & Hymg & Hmg & Htg0 & _).
  rewrite Htf, Htg in Htt. injection Htt as Hname <-.
  pose proof Hf as (_ & _ & _ & _ & _ & Hpf & _). pose proof Hg as (_ & _ & _ & _ & _ & Hpg & _).
  pose proof (run_move_one E w f c sz ct ym ssz sct Hwf Hfl Hpf Hym Hs Hmd (or_introl Ht)
                (target_ne_file _ _ _ _ _ _ Hfl Ht)) as Hrun1.
  rewrite <- (move_step_eq (w_now w) _ _ _ ym Hfl Hmf) in Hrun1.
  set (fs1 := move_step (w_now w) (w_fs w) f) in *.
  assert (Hwf1 : fs_wf fs1) by (eapply move_step_wf; eauto).
  destruct (move_step_month (w_now w) (w_fs w) f c sz ct ym Hfl Hym Hmd) as (dsz & dct & Hmd1).
  change (move_step (w_now w) (w_fs w) f) with fs1 in Hmd1.
  assert (Htg1 : fs1 !! (path_name g :: ym :: sd) = Some (NFile c sz ct))
    by (unfold fs1; rewrite <- Hname, (move_step_eq _ _ _ _ ym Hfl Hmf); apply lookup_insert_eq).
  match type of Hrun1 with _ = (_, ?W) => set (w1 := W) in * end.
  pose proof (run_move_one E w1 g cg szg ctg ym ssz sct Hwf1 (move_step_keep _ _ _ _ _ Hf Hgl (not_eq_sym Hfg))
                (parent_dir_step _ _ _ _ _ _ _ Hwf Hwf1 Hf Hgl Hpg) Hymg
                (move_step_keep _ _ _ _ _ Hf Hs ltac:(congruence)) (or_intror (ex_intro _ dsz (ex_intro _ dct Hmd1)))
                (or_intror (ex_intro _ c (ex_intro _ sz (ex_intro _ ct Htg1))))
                (target_ne_file _ _ _ _ _ _ Hgl Htg0)) as Hrun2.
  eexists _, cg, szg, ctg, _. split_and!; [exact Htg|exact Hgl| | | | |].
  { rewrite run_for_each_cons, Hrun1. cbv beta iota. rewrite run_for_each_cons, Hrun2. reflexivity. }
  all: assert (Hwd : forall t', with_dir fs1 (ym :: sd) t' = fs1) by (intros; unfold with_dir; by rewrite Hmd1).
  all: unfold w1; cbn [w_fs w_out]; rewrite ?Hwd.
  - rewrite lookup_insert_ne, lookup_delete_ne by (rewrite <- ?Hname; congruence).
    unfold fs1. rewrite (move_step_eq _ _ _ _ ym Hfl Hmf), lookup_insert_ne by congruence. apply lookup_delete_eq.
  - rewrite lookup_insert_ne by congruence. apply lookup_delete_eq.
  - apply lookup_insert_eq.
  - unfold moved_line. cbn [omap list_omap]. rewrite (month_of_file _ _ _ _ _ _ Hfl Hym), (month_of_file _ _ _ _ _ _ Hgl Hymg).
    simpl. by rewrite <- app_assoc.
Qed.

End Spec.

(** A sample file is [movable]: its node and month given, the rest computed. *)
Ltac movable_at c sz ct ym :=
  exists c, sz, ct, ym; split_and!; [vm_compute; reflexivity..|left; vm_compute; reflexivity|vm_compute; reflexivity].

Section Witnesses.
Import Sample.

Local Ltac movable_sample :=
  constructor; [movable_at 1%positive 1536%Z 1714557600%Z "2024-05"|];
  constructor; [movable_at 2%positive 2048%Z 1717236000%Z "2024-06"|constructor].

Lemma move_loop_refines_spec_witness :
  let w := set_fs (world0 []) fs_shots in
  for_each [shot_may; shot_june] (move_one env0) w =
  (Ret tt, mk_world (move_spec env0 (w_now w) (w_fs w) [shot_may; shot_june]) (w_in w)
             (w_out w ++ omap (moved_line env0 (w_fs w)) [shot_may; shot_june])%list (w_err w) (w_now w)).
Proof.
  intros w. apply (move_loop_refines_spec env0 [shot_may; shot_june] w 64 0).
  - apply (bool_decide_unpack _). vm_compute. reflexivity.
  - vm_compute. reflexivity.
  - apply (bool_decide_unpack _). vm_compute. reflexivity.
  - movable_sample.
  - apply (bool_decide_unpack _). vm_compute. reflexivity.
Defined.

Lemma move_loop_effect_witness :
  let w := set_fs (world0 []) fs_shots in
  exists w', for_each [shot_may; shot_june] (move_one env0) w = (Ret tt, w') /\
    w_fs w' !! shot_may = None /\ w_fs w' !! notes = w_fs w !! notes.
Proof.
  intros w. destruct (move_loop_effect env0 [shot_may; shot_june] w 64 0) as (w' & Hrun & _ & _ & H1 & _ & H3).
  - apply (bool_decide_unpack _). vm_compute. reflexivity.
  - vm_compute. reflexivity.
  - apply (bool_decide_unpack _). vm_compute. reflexivity.
  - movable_sample.
  - apply (bool_decide_unpack _). vm_compute. reflexivity.
  - exists w'. split_and!; [exact Hrun|exact (proj1 (H1 shot_may ltac:(left)))|apply (H3 notes)].
    + apply (bool_decide_unpack _). vm_compute. reflexivity.
    + intros f Hf. repeat (apply elem_of_cons in Hf as [->|Hf]; [apply (bool_decide_unpack _); vm_compute; reflexivity|]).
      exfalso. exact (not_elem_of_nil f Hf).
    + left. vm_compute. by eexists.
Defined.

Lemma move_loop_same_name_overwrites_witness :
  let g := path_name shot_may :: "Downloads" :: home in
  let w := set_fs (world0 []) (<[g := NFile 5 100 1714557600]> fs_shots) in
  exists tg cg szg ctg w', target_of env0 (w_fs w) g = Some tg /\ w_fs w !! g = Some (NFile cg szg ctg) /\
    for_each [shot_may; g] (move_one env0) w = (Ret tt, w') /\
    w_fs w' !! shot_may = None /\ w_fs w' !! g = None /\ w_fs w' !! tg = Some (NFile cg szg ctg) /\
    w_out w' = (w_out w ++ omap (moved_line env0 (w_fs w)) [shot_may; g])%list.
Proof.
  intros g w. apply (move_loop_same_name_overwrites env0 w shot_may g 64 0).
  - apply (bool_decide_unpack _). vm_compute. reflexivity.
  - vm_compute. reflexivity.
  - movable_at 1%positive 1536%Z 1714557600%Z "2024-05".
  - movable_at 5%positive 100%Z 1714557600%Z "2024-05".
  - apply (bool_decide_unpack _). vm_compute. reflexivity.
  - vm_compute. reflexivity.
Defined.

End Witnesses.

End MoveFacts.
