(* ===== verification/Menu.v ===== *)
(** * The organizer's menu as the spec's state machine

    The spec (section 4.4) describes [organize] as a state machine: an
    empty set ends at once; otherwise a summary, then the prompt, whose
    answer "1", "2" or "3" selects Move, Delete (after a confirmation
    whose [lower()] is "yes") or List, and anything else Cancel.  Reading
    a line can also end the run: end of input raises [EOFError], Ctrl-C
    [KeyboardInterrupt].  [menu_step] is that machine over the pending
    standard input; [menu_run] computes its final state.  The theorems
    show the machine deterministic and total, and that
    [organize_screenshots] refines it: after the summary and the prompts
    it runs exactly the action the machine ends in, on the remaining
    input, with the disk untouched so far. *)

From S2P Require Import Prelude PyStr Fs FsFacts PyMonad PyFacts Sample Organizer OrganizerFacts.

Module Menu.
Import Organizer.

(** The actions the machine ends in. *)
Inductive action : Type :=
  | ANotFound
  | AMove
  | ADelete
  | AList
  | ACancel
  | AAbort (e : exn).

Inductive menu_state : Type :=
  | MStart (n : nat)        (** [n] files were discovered *)
  | MPrompt                 (** the menu is shown, waiting for a line *)
  | MConfirm                (** Delete chosen, waiting for the confirmation *)
  | MFinal (a : action).

(** Reading one line at a prompt: end of input and Ctrl-C abort. *)
Inductive menu_step : menu_state * list input_event -> menu_state * list input_event -> Prop :=
  | ms_empty inp : menu_step (MStart 0, inp) (MFinal ANotFound, inp)
  | ms_summary n inp : menu_step (MStart (S n), inp) (MPrompt, inp)
  | ms_move rest : menu_step (MPrompt, Line "1" :: rest) (MFinal AMove, rest)
  | ms_delete rest : menu_step (MPrompt, Line "2" :: rest) (MConfirm, rest)
  | ms_list rest : menu_step (MPrompt, Line "3" :: rest) (MFinal AList, rest)
  | ms_cancel a rest : a <> "1" -> a <> "2" -> a <> "3" ->
      menu_step (MPrompt, Line a :: rest) (MFinal ACancel, rest)
  | ms_confirm_yes c rest : py_lower c = "yes" -> menu_step (MConfirm, Line c :: rest) (MFinal ADelete, rest)
  | ms_confirm_no c rest : py_lower c <> "yes" -> menu_step (MConfirm, Line c :: rest) (MFinal ACancel, rest)
  | ms_eof s : s = MPrompt \/ s = MConfirm -> menu_step (s, []) (MFinal (AAbort EOFError), [])
  | ms_interrupt s rest : s = MPrompt \/ s = MConfirm ->
      menu_step (s, CtrlC :: rest) (MFinal (AAbort KeyboardInterrupt), rest).

(** The machine's final state, computed. *)
Definition read_answer (inp : list input_event) (k : string -> list input_event -> action * list input_event)
  : action * list input_event :=
  match inp with
  | [] => (AAbort EOFError, [])
  | CtrlC :: rest => (AAbort KeyboardInterrupt, rest)
  | Line a :: rest => k a rest
  end.

Definition confirm_run (inp : list input_event) : action * list input_event :=
  read_answer inp (fun c rest => if String.eqb (py_lower c) "yes" then (ADelete, rest) else (ACancel, rest)).

Definition prompt_run (inp : list input_event) : action * list input_event :=
  read_answer inp (fun a rest =>
    if String.eqb a "1" then (AMove, rest)
    else if String.eqb a "2" then confirm_run rest
    else if String.eqb a "3" then (AList, rest)
    else (ACancel, rest)).

Definition menu_run_from (s : menu_state) (inp : list input_event) : action * list input_event :=
  match s with
  | MStart 0 => (ANotFound, inp)
  | MStart (S _) | MPrompt => prompt_run inp
  | MConfirm => confirm_run inp
  | MFinal a => (a, inp)
  end.

(** The rest of the organizer once the machine has ended in [a]. *)
Definition run_action (E : env) (files : list path) (a : action) : PyM unit :=
  match a with
  | ANotFound => mret tt
  | AMove => move_action E files
  | ADelete => for_each files delete_one
  | AList => list_action files
  | ACancel => print "Operation cancelled"
  | AAbort e => mthrow e
  end.

(** ** The machine *)

Lemma menu_step_run s s' : menu_step s s' -> menu_run_from s.1 s.2 = menu_run_from s'.1 s'.2.
Proof.
  destruct 1 as [| | | | |a rest H1 H2 H3|c rest Hc|c rest Hc|s [-> | ->]|s rest [-> | ->]]; simpl; try done.
  - by rewrite (proj2 (String.eqb_neq a "1") H1), (proj2 (String.eqb_neq a "2") H2),
      (proj2 (String.eqb_neq a "3") H3).
  - by rewrite Hc.
  - by rewrite (proj2 (String.eqb_neq _ _) Hc).
Qed.

Lemma menu_rtc_run s a rest :
  rtc menu_step s (MFinal a, rest) -> menu_run_from s.1 s.2 = (a, rest).
Proof.
  remember (MFinal a, rest) as t eqn:Ht. induction 1 as [s|s s' t Hs _ IH]; subst; [done|].
  rewrite (menu_step_run _ _ Hs). by apply IH.
Qed.

Lemma confirm_run_rtc inp a rest :
  confirm_run inp = (a, rest) -> rtc menu_step (MConfirm, inp) (MFinal a, rest).
Proof.
  unfold confirm_run, read_answer. destruct inp as [|[c|] inp]; intros Hr; invc Hr.
  - apply rtc_once. constructor. by right.
  - destruct (String.eqb_spec (py_lower c) "yes"); invc H0; apply rtc_once; by constructor.
  - apply rtc_once. constructor. by right.
Qed.

Lemma prompt_run_rtc inp a rest :
  prompt_run inp = (a, rest) -> rtc menu_step (MPrompt, inp) (MFinal a, rest).
Proof.
  unfold prompt_run, read_answer. destruct inp as [|[x|] inp]; intros Hr.
  - invc Hr. apply rtc_once. constructor. by left.
  - destruct (String.eqb_spec x "1") as [->|N1]; [invc Hr; apply rtc_once; constructor|].
    destruct (String.eqb_spec x "2") as [->|N2].
    { eapply rtc_l; [constructor|]. by apply confirm_run_rtc. }
    destruct (String.eqb_spec x "3") as [->|N3]; invc Hr; apply rtc_once; by constructor.
  - invc Hr. apply rtc_once. constructor. by left.
Qed.

Lemma menu_run_rtc n inp a rest :
  menu_run_from (MStart n) inp = (a, rest) -> rtc menu_step (MStart n, inp) (MFinal a, rest).
Proof.
  destruct n as [|n]; simpl.
  - intros Hr. invc Hr. apply rtc_once. constructor.
  - intros Hr. eapply rtc_l; [constructor|]. by apply prompt_run_rtc.
Qed.

(** ** The organizer *)

Lemma input_bind {A} (p : string) (k : string -> PyM A) w :
  (x ← input p; k x) w =
  match w_in w with
  | [] => (Raise EOFError, mk_world (w_fs w) [] (w_out w ++ [p]) (w_err w) (w_now w))
  | CtrlC :: rest => (Raise KeyboardInterrupt, mk_world (w_fs w) rest (w_out w ++ [p]) (w_err w) (w_now w))
  | Line a :: rest => k a (mk_world (w_fs w) rest (w_out w ++ [p]) (w_err w) (w_now w))
  end.
Proof.
  unfold input. rewrite bind_run, bind_run. cbn. unfold read_line. cbn.
  by destruct (w_in w) as [|[]].
Qed.

(** The machine is deterministic and total: from [n] discovered files
    and any standard input it reaches exactly one final state, the one
    [menu_run_from] computes. *)
Lemma menu_deterministic_total (n : nat) (inp : list input_event) :
  rtc menu_step (MStart n, inp) (MFinal (menu_run_from (MStart n) inp).1, (menu_run_from (MStart n) inp).2) /\
  (forall a rest, rtc menu_step (MStart n, inp) (MFinal a, rest) -> (a, rest) = menu_run_from (MStart n) inp).
Proof.
  split.
  - apply menu_run_rtc. apply surjective_pairing.
  - intros a rest H. symmetry. exact (menu_rtc_run _ _ _ H).
Qed.

Ltac menu_done := eexists; split_and!; cycle 3; [reflexivity | reflexivity..].

(** The run of the organizer up to the action the machine ends in. *)
Lemma organize_run_action (E : env) (files : list path) (w : world) (a : action) rest :
  OrganizerFacts.all_stat_ok (w_fs w) files = true ->
  rtc menu_step (MStart (length files), w_in w) (MFinal a, rest) ->
  exists w1, w_fs w1 = w_fs w /\ w_in w1 = rest /\ w_now w1 = w_now w /\
    organize_screenshots E files w = run_action E files a w1.
Proof.
  intros Hok Hrtc. apply menu_rtc_run in Hrtc. simpl in Hrtc.
  destruct files as [|f fl].
  { invc Hrtc. menu_done. }
  rewrite OrganizerFacts.organize_cons, bind_run.
  destruct (OrganizerFacts.run_summary _ w Hok) as [lines ->].
  rewrite input_bind. cbn [w_in w_fs w_out w_err w_now].
  revert Hrtc. unfold prompt_run, read_answer.
  destruct (w_in w) as [|[x|] inp]; intros Hr; invc Hr; [menu_done| |menu_done].
  unfold dispatch. destruct (String.eqb x "1"); [invc H0; menu_done|].
  destruct (String.eqb x "2"); [|destruct (String.eqb x "3"); invc H0; menu_done].
  unfold delete_action. rewrite input_bind. cbn [w_in w_fs w_out w_err w_now].
  revert H0. unfold confirm_run, read_answer.
  destruct inp as [|[c|] inp]; intros Hr; invc Hr; [menu_done| |menu_done].
  destruct (String.eqb (py_lower c) "yes"); invc H0; menu_done.
Qed.

(** C4: [organize_screenshots] refines the spec's machine: when the
    machine, started from the number of files and the pending input,
    ends in action [a] with input [rest] left, the organizer prints its
    summary and prompts, leaving the disk and the clock as they were and
    [rest] as the input, and then runs exactly [a]: the move loop, the
    delete loop, the listing, the cancellation message, or the raise of
    [EOFError] or [KeyboardInterrupt]. *)
Theorem organize_refines_menu (E : env) (files : list path) (w : world) (a : action) rest :
  OrganizerFacts.all_stat_ok (w_fs w) files = true ->
  rtc menu_step (MStart (length files), w_in w) (MFinal a, rest) ->
  exists w1, w_fs w1 = w_fs w /\ w_in w1 = rest /\ w_now w1 = w_now w /\
    organize_screenshots E files w = run_action E files a w1.
Proof. apply organize_run_action. Qed.


Lemma organize_refines_menu_witness :
  exists w1, w_fs w1 = Sample.fs0 /\ w_in w1 = [] /\ w_now w1 = 1800000000%Z /\
    organize_screenshots Sample.env0 [Sample.shot_may; Sample.shot_june] (Sample.world0 [Line "2"; Line "no"]) =
    run_action Sample.env0 [Sample.shot_may; Sample.shot_june] ACancel w1.
Proof.
  apply (organize_refines_menu Sample.env0 [Sample.shot_may; Sample.shot_june] (Sample.world0 [Line "2"; Line "no"])).
  - vm_compute. reflexivity.
  - apply menu_run_rtc. reflexivity.
Defined.

End Menu.
