(* ===== verification/Main.v ===== *)
(** * The entry point: the platform gate and [main] (src/main.py, lines 7-8, 102-115)

    Importing the module on another system than macOS raises
    [SystemExit] with a message, which Python prints on standard error
    with exit status 1.  [main] runs discovery and the organizer;
    [KeyboardInterrupt] prints a cancellation line, any other exception
    its message after "Error: ", both with status 1; a normal run has
    status 0.  [run_script] is [python main.py]: the gate, then
    [sys.exit(main())]. *)

From S2P Require Import Prelude PyStr Fs FsFacts PyMonad PyFacts Sample Discovery Organizer OrganizerFacts.

Module Main.
Import OrganizerFacts.

Definition is_KeyboardInterrupt (e : exn) : bool :=
  match e with KeyboardInterrupt => true | _ => false end.

Definition main (E : env) : PyM Z :=
  try_except (fun e => is_KeyboardInterrupt e || is_Exception e)
    (files ← Discovery.find_screenshots E;
     Organizer.organize_screenshots E files;;
     mret 0%Z)
    (fun e =>
       if is_KeyboardInterrupt e then print (nl ++ "Operation cancelled by user");; mret 1%Z
       else print ("Error: " ++ str_exn e);; mret 1%Z).

Definition unsupported_message (system : string) : string :=
  system ++ " is not supported - this tool is for macOS only".

(** Lines 114-115: run as a script, [sys.exit(main())] ends the process
    with the status [main] returns. *)
Definition script_entry (E : env) : PyM Z := main E.

(** Lines 7-8 run when the module is loaded, before the entry point. *)
Definition run_script (E : env) : PyM Z :=
  if String.eqb (env_system E) "Darwin" then script_entry E
  else write_err (unsupported_message (env_system E) ++ nl);; mret 1%Z.

(** ** Properties of the entry point *)

(** C19: [main] never lets an exception escape: it returns 0 when
    discovery and the organizer complete, and otherwise prints one line
    ("Error: " and the message, or the cancellation line after Ctrl-C)
    and returns 1, keeping whatever the organizer did to the disk. *)
Theorem main_exit_status (E : env) (w : world) :
  let '(r, w1) := (files ← Discovery.find_screenshots E; Organizer.organize_screenshots E files) w in
  match r with
  | Ret _ => main E w = (Ret 0%Z, w1)
  | Raise KeyboardInterrupt =>
      main E w = (Ret 1%Z, mk_world (w_fs w1) (w_in w1) (w_out w1 ++ [(nl ++ "Operation cancelled by user") ++ nl]) (w_err w1) (w_now w1))
  | Raise e =>
      main E w = (Ret 1%Z, mk_world (w_fs w1) (w_in w1) (w_out w1 ++ [("Error: " ++ str_exn e) ++ nl]) (w_err w1) (w_now w1))
  end.
Proof.
  destruct ((files ← Discovery.find_screenshots E; Organizer.organize_screenshots E files) w)
    as [r w1] eqn:HX.
  assert (Hb : (files ← Discovery.find_screenshots E; Organizer.organize_screenshots E files;; mret 0%Z) w
               = ((files ← Discovery.find_screenshots E; Organizer.organize_screenshots E files)
                    ≫= (fun _ => mret 0%Z)) w) by (rewrite bind_assoc; reflexivity).
  unfold main, try_except. rewrite Hb, bind_run, HX.
  destruct r as [[]|e]; [reflexivity|]. destruct e; reflexivity.
Qed.

(** C21: on any system other than macOS the script stops before
    discovery: it writes the "not supported" message to standard error,
    exits with status 1, and neither reads input nor touches the disk. *)
Theorem run_script_not_darwin (E : env) (w : world) :
  env_system E <> "Darwin" ->
  run_script E w = (Ret 1%Z, mk_world (w_fs w) (w_in w) (w_out w)
                               (w_err w ++ [unsupported_message (env_system E) ++ nl]) (w_now w)).
Proof.
  intros H. unfold run_script. destruct (String.eqb_spec (env_system E) "Darwin"); [done|].
  reflexivity.
Qed.

Lemma run_script_not_darwin_witness :
  let E := mk_env "Linux" [] (fun _ => 0%Z) in
  run_script E (mk_world ∅ [] [] [] 0) =
  (Ret 1%Z, mk_world ∅ [] [] [unsupported_message "Linux" ++ nl] 0).
Proof. exact (run_script_not_darwin (mk_env "Linux" [] (fun _ => 0%Z)) (mk_world ∅ [] [] [] 0) ltac:(discriminate)). Defined.

(** C20: with no screenshot in the three locations, [main] prints the
    not-found line and returns 0 without showing the menu, reading input
    or changing the disk (the spec's empty-set property). *)
Theorem main_no_screenshots (E : env) (w : world) :
  Discovery.find_screenshots_fs E (w_fs w) = [] ->
  main E w = (Ret 0%Z, mk_world (w_fs w) (w_in w) (w_out w ++ ["No screenshot files found" ++ nl])
                                (w_err w) (w_now w)).
Proof.
  intros Hnone. unfold main, try_except. rewrite !bind_run. unfold Discovery.find_screenshots. rewrite run_read_fs, Hnone.
  reflexivity.
Qed.

Lemma main_no_screenshots_witness :
  Discovery.find_screenshots_fs Sample.env0 FsFacts.root_only = [] /\
  main Sample.env0 (mk_world FsFacts.root_only [Line "1"] [] [] 0) =
  (Ret 0%Z, mk_world FsFacts.root_only [Line "1"] ([] ++ ["No screenshot files found" ++ nl]) [] 0).
Proof.
  assert (H : Discovery.find_screenshots_fs Sample.env0 FsFacts.root_only = []) by (vm_compute; reflexivity).
  split; [exact H|]. exact (main_no_screenshots Sample.env0 (mk_world FsFacts.root_only [Line "1"] [] [] 0) H).
Defined.

(** The whole script keeps the disk a well-formed tree: whatever the
    input, whatever it moves, deletes or fails on, and however it ends,
    every entry it leaves still has a directory as its parent. *)
Theorem run_script_keeps_wf (E : env) (w : world) :
  fs_wf (w_fs w) -> fs_wf (w_fs (run_script E w).2).
Proof.
  assert (Hpres : Preserves wf_kept (run_script E)).
  { unfold run_script, script_entry, main, Discovery.find_screenshots. apply _. }
  intros Hwf. destruct (run_script E w) as [r w'] eqn:H. exact (Hpres w r w' H Hwf).
Qed.

Lemma run_script_keeps_wf_witness :
  fs_wf (w_fs (Sample.world0 [Line "1"])) /\
  fs_wf (w_fs (run_script Sample.env0 (Sample.world0 [Line "1"])).2).
Proof.
  assert (H : fs_wf (w_fs (Sample.world0 [Line "1"]))) by (apply (bool_decide_eq_true _); vm_compute; reflexivity).
  split; [exact H|]. exact (run_script_keeps_wf Sample.env0 (Sample.world0 [Line "1"]) H).
Defined.

End Main.
