(* ===== verification/EndToEnd.v ===== *)
(** * A whole run of the script that moves every screenshot

    The components meet here: the platform gate and [sys.exit(main())]
    ([Main]), discovery ([Discovery]), the summary and the menu
    ([Organizer], refined by the machine of [Menu]), and the move loop
    with its reference loop [move_spec] ([MoveFacts]).
    [run_script_moves_all] follows one run of [python main.py] on macOS
    through all of them: answering "1" at the prompt, on a well-formed disk
    where [~/Pictures/Screenshots] is a writable directory and every
    discovered screenshot can be moved to a distinct target, the script
    exits with status 0, the disk is the one [move_spec] describes, the
    input after the answer is left unread, and the output ends with one
    "Moved:" line per screenshot, in the order of discovery. *)

From S2P Require Import Prelude PyStr Fs FsFacts PyMonad PyFacts Sample Shutil ShutilFacts DateTime Discovery Organizer OrganizerFacts MoveFacts Menu Main.

Module EndToEnd.
Import Organizer MoveFacts Menu Main.

(** The answer "1" takes the machine from a non-empty summary to Move. *)
Lemma menu_answer_move n rest :
  rtc menu_step (MStart (S n), Line "1" :: rest) (MFinal AMove, rest).
Proof. apply menu_run_rtc. reflexivity. Qed.

(** C1: the script moves every screenshot when asked to: on macOS, with
    "1" as the first answer, a well-formed disk whose Screenshots folder
    is a writable directory, and discovered screenshots that are all
    [movable] with pairwise distinct targets, [python main.py] exits with
    status 0; its disk is [move_spec] of the discovered files, its input
    is what followed the answer, and its output ends with the [moved_line]
    of every file, in the order of discovery. *)
Theorem run_script_moves_all (E : env) (w : world) (rest : list input_event) (ssz sct : Z) :
  env_system E = "Darwin" -> w_in w = Line "1" :: rest ->
  Discovery.find_screenshots_fs E (w_fs w) <> [] ->
  fs_wf (w_fs w) -> w_fs w !! screenshots_dir E = Some (NDir true ssz sct) ->
  Forall (movable E (w_fs w)) (Discovery.find_screenshots_fs E (w_fs w)) ->
  NoDup (omap (target_of E (w_fs w)) (Discovery.find_screenshots_fs E (w_fs w))) ->
  exists w', run_script E w = (Ret 0%Z, w') /\
    w_fs w' = move_spec E (w_now w) (w_fs w) (Discovery.find_screenshots_fs E (w_fs w)) /\
    w_in w' = rest /\
    exists pre, w_out w' = (pre ++ omap (moved_line E (w_fs w)) (Discovery.find_screenshots_fs E (w_fs w)))%list.
Proof.
  intros HD Hin Hne Hwf Hs Hall Htd. remember (Discovery.find_screenshots_fs E (w_fs w)) as files eqn:Hfiles.
  destruct files as [|f0 fl] eqn:Hf0; [done|]. rewrite <- Hf0 in *.
  assert (Hrtc : rtc menu_step (MStart (length files), w_in w) (MFinal AMove, rest))
    by (rewrite Hin, Hf0; apply menu_answer_move).
  destruct (organize_run_action E files w AMove rest (movable_stat_ok E _ _ Hwf Hall) Hrtc)
    as (w1 & Hfs1 & Hin1 & Hnow1 & Horg).
  unfold run_script. rewrite (proj2 (String.eqb_eq _ _) HD). unfold script_entry, main, try_except.
  rewrite !bind_run. unfold Discovery.find_screenshots. rewrite run_read_fs, <- Hfiles, bind_run, Horg.
  cbn [run_action]. unfold move_action. rewrite bind_run.
  assert (Hsd : exists n q, screenshots_dir E = n :: q) by (eexists _, _; reflexivity).
  destruct Hsd as (n & q & Hnq).
  rewrite Hnq, (ShutilFacts.run_mkdir_parents_exists w1 n q true ssz sct);
    [|by rewrite Hfs1|by rewrite Hfs1, <- Hnq].
  rewrite (run_move_loop E files w1 ssz sct); rewrite ?Hfs1; try done; [|by eapply targets_NoDup_files].
  eexists. split; [reflexivity|]. cbn [w_fs w_in w_out]. rewrite Hnow1. split_and!; [done|done|].
  eexists. reflexivity.
Qed.

Section Witnesses.
Import Sample.

Lemma run_script_moves_all_witness :
  let w := mk_world fs_shots [Line "1"] [] [] 1800000000 in
  exists w', run_script env0 w = (Ret 0%Z, w') /\
    w_fs w' = move_spec env0 (w_now w) (w_fs w) (Discovery.find_screenshots_fs env0 (w_fs w)).
Proof.
  intros w. assert (Hf : Discovery.find_screenshots_fs env0 (w_fs w) = [shot_may; shot_june]) by (vm_compute; reflexivity).
  destruct (run_script_moves_all env0 w [] 64 0) as (w' & Hrun & Hfs & _).
  - reflexivity.
  - reflexivity.
  - rewrite Hf. discriminate.
  - apply (bool_decide_unpack _). vm_compute. reflexivity.
  - vm_compute. reflexivity.
  - rewrite Hf. constructor; [movable_at 1%positive 1536%Z 1714557600%Z "2024-05"|].
    constructor; [movable_at 2%positive 2048%Z 1717236000%Z "2024-06"|constructor].
  - rewrite Hf. apply (bool_decide_unpack _). vm_compute. reflexivity.
  - exists w'. split; [exact Hrun|exact Hfs].
Defined.

End Witnesses.

End EndToEnd.
