(* ===== verification/Scenarios.v ===== *)
(** * Whole runs of the script on concrete home directories

    Each theorem runs [run_script] (the platform gate, discovery, the
    organizer and [main]'s handlers) on a variant of the sample home of
    [Sample] and a given standard input, and states what the user sees
    and what is left on the disk: the spec's own move and delete
    scenarios, and behaviours the spec rules out or does not foresee (a
    same-named file overwritten, a blocked month folder aborting the
    batch, an untrimmed confirmation, a copy left by a failed move, a
    directory taken for a screenshot).  The general theorems behind
    these runs are in [OrganizerFacts] and [MoveFacts]. *)

From S2P Require Import Prelude PyStr Fs FsFacts PyMonad Sample Organizer Main.

Module Scenarios.
Import Sample.

Definition screenshots : path := "Screenshots" :: "Pictures" :: home.

Definition count_prefix (p : string) (out : list string) : nat :=
  length (filter (fun s => startswith p s = true) out).

Definition holds_content (c : positive) (fs : fsys) : bool :=
  existsb (fun kv : path * node => match kv.2 with NFile c' _ _ => bool_decide (c = c') | _ => false end)
          (map_to_list fs).

(** ** A regular file where a month folder should go *)

Definition fs_blocked : fsys :=
  <["2024-05" :: screenshots := NFile 9 100 0]> (<[screenshots := dir]> fs0).

Definition blocked_run : outcome exn Z * world :=
  Main.run_script env0 (mk_world fs_blocked [Line "1"] [] [] 1800000000).

(** A regular file named "2024-05" in
    ~/Pictures/Screenshots makes [month_dir.mkdir(exist_ok=True)] raise
    [FileExistsError] outside the per-file [try]: the whole batch stops at
    the first May screenshot, the June screenshot is never moved, and the
    script exits with status 1 after "Error: [Errno 17] File exists". *)
Theorem move_blocked_month_folder_aborts :
  blocked_run.1 = Ret 1%Z /\
  last (w_out blocked_run.2) =
    Some ("Error: [Errno 17] File exists: '/Users/alice/Pictures/Screenshots/2024-05'" ++ nl) /\
  count_prefix "Moved: " (w_out blocked_run.2) = 0%nat /\
  count_prefix "Error moving " (w_out blocked_run.2) = 0%nat /\
  w_fs blocked_run.2 !! shot_may = Some (NFile 1 1536 1714557600) /\
  w_fs blocked_run.2 !! shot_june = Some (NFile 2 2048 1717236000).
Proof. vm_compute. repeat split. Qed.

(** ** Two screenshots with the same name *)

Definition shot_may_downloads : path := "Screenshot 2024-05-01 at 10.00.00.png" :: "Downloads" :: home.

Definition fs_same_name : fsys := <[shot_may_downloads := NFile 4 4096 1714560000]> fs0.

Definition same_name_run : outcome exn Z * world :=
  Main.run_script env0 (mk_world fs_same_name [Line "1"] [] [] 1800000000).

(** A Desktop and a Downloads screenshot with the same
    name and month are both reported "Moved:" into the same folder (three
    "Moved:" lines for the three screenshots) and the script exits 0, but
    [shutil.move] renamed the second onto the first: the Desktop
    screenshot's contents are on the disk no more. *)
Theorem move_same_name_loses_file :
  same_name_run.1 = Ret 0%Z /\
  count_prefix "Moved: " (w_out same_name_run.2) = 3%nat /\
  holds_content 1 fs_same_name = true /\
  holds_content 1 (w_fs same_name_run.2) = false /\
  w_fs same_name_run.2 !! ("Screenshot 2024-05-01 at 10.00.00.png" :: "2024-05" :: screenshots)
    = Some (NFile 4 4096 1714560000).
Proof. vm_compute. repeat split. Qed.

(** ** A confirmation with a trailing space *)

Definition spaced_yes_run : outcome exn Z * world :=
  Main.run_script env0 (world0 [Line "2"; Line "yes "]).

(** The confirmation is compared after [lower()] only, not
    stripped: answering "yes " (with a trailing space) cancels the delete,
    leaving every file in place. *)
Theorem delete_confirmation_not_stripped :
  spaced_yes_run.1 = Ret 0%Z /\
  bool_decide (w_fs spaced_yes_run.2 = fs0) = true /\
  last (w_out spaced_yes_run.2) = Some ("Operation cancelled" ++ nl).
Proof. vm_compute. repeat split. Qed.

(** ** The spec's move and delete scenarios on the sample home *)

Definition move_run : outcome exn Z * world := Main.run_script env0 (world0 [Line "1"]).

Definition name_may : string := "Screenshot 2024-05-01 at 10.00.00.png".
Definition name_june : string := "Screenshot 2024-06-01 at 10.00.00.png".

(** Choosing "1" on the sample home routes the May and the June
    screenshot into two month folders [2024-05] and [2024-06] of
    ~/Pictures/Screenshots, creating the folders and the Screenshots
    directory, removes them from Desktop and Downloads, reports two
    "Moved:" lines and exits 0. *)
Theorem move_two_months :
  move_run.1 = Ret 0%Z /\
  fs0 !! screenshots = None /\
  w_fs move_run.2 !! screenshots = Some (NDir true 64 1800000000) /\
  w_fs move_run.2 !! (screenshots </> "2024-05") = Some (NDir true 64 1800000000) /\
  w_fs move_run.2 !! (screenshots </> "2024-06") = Some (NDir true 64 1800000000) /\
  w_fs move_run.2 !! (screenshots </> "2024-05" </> name_may) = Some (NFile 1 1536 1714557600) /\
  w_fs move_run.2 !! (screenshots </> "2024-06" </> name_june) = Some (NFile 2 2048 1717236000) /\
  w_fs move_run.2 !! shot_may = None /\ w_fs move_run.2 !! shot_june = None /\
  count_prefix "Moved: " (w_out move_run.2) = 2%nat.
Proof. vm_compute. repeat split. Qed.

Definition delete_run (answer : string) : outcome exn Z * world :=
  Main.run_script env0 (world0 [Line "2"; Line answer]).

(** The spec's delete scenario: the answer "no" removes nothing and
    ends with "Operation cancelled"; the answer "yes" removes both
    screenshots, keeps every other entry, and reports one "Deleted:" line
    per file; both runs exit 0. *)
Theorem delete_yes_no :
  (delete_run "no").1 = Ret 0%Z /\
  bool_decide (w_fs (delete_run "no").2 = fs0) = true /\
  last (w_out (delete_run "no").2) = Some ("Operation cancelled" ++ nl) /\
  (delete_run "yes").1 = Ret 0%Z /\
  bool_decide (w_fs (delete_run "yes").2 = delete shot_june (delete shot_may fs0)) = true /\
  count_prefix "Deleted: " (w_out (delete_run "yes").2) = 2%nat.
Proof. vm_compute. repeat split. Qed.

(** ** A failed move in the middle of the batch *)

(** The Desktop is not writable: the May screenshot can be read but not
    removed from it. *)
Definition fs_ro_desktop : fsys := <[home </> "Desktop" := NDir false 64 0]> fs0.

Definition ro_run : outcome exn Z * world :=
  Main.run_script env0 (mk_world fs_ro_desktop [Line "1"] [] [] 1800000000).

(** With a read-only Desktop, [os.rename] of the May
    screenshot fails, [shutil.move] falls back to [copy2] and then
    [os.unlink], which fails: the failure is reported as an
    "Error moving" line naming the file and the batch goes on with the
    June screenshot, as the spec asks; but the copy made before the
    failure stays in the month folder, so the file now exists twice. *)
Theorem move_failure_isolated_copy_left :
  ro_run.1 = Ret 0%Z /\
  count_prefix ("Error moving " ++ name_may ++ ": [Errno 13] Permission denied") (w_out ro_run.2) = 1%nat /\
  count_prefix ("Moved: " ++ name_june) (w_out ro_run.2) = 1%nat /\
  w_fs ro_run.2 !! shot_may = Some (NFile 1 1536 1714557600) /\
  w_fs ro_run.2 !! (screenshots </> "2024-05" </> name_may) = Some (NFile 1 1536 1800000000) /\
  w_fs ro_run.2 !! (screenshots </> "2024-06" </> name_june) = Some (NFile 2 2048 1717236000).
Proof. vm_compute. repeat split. Qed.

(** ** A directory named like a screenshot *)

Definition shot_dir : path := home </> "Desktop" </> "Screenshot folder.png".

(** [~/Desktop/Screenshot folder.png] is a directory holding one file. *)
Definition fs_dir_shot : fsys :=
  <[shot_dir </> "inside.txt" := NFile 7 70 0]> (<[shot_dir := NDir true 64 1714557600]> fs0).

Definition dir_move_run : outcome exn Z * world :=
  Main.run_script env0 (mk_world fs_dir_shot [Line "1"] [] [] 1800000000).

Definition dir_delete_run : outcome exn Z * world :=
  Main.run_script env0 (mk_world fs_dir_shot [Line "2"; Line "yes"] [] [] 1800000000).

(** [glob("Screenshot*.png")] also matches a directory, so
    the summary counts three screenshots; the move action renames the
    whole directory, its contents with it, into the month folder; the
    delete action cannot unlink it and reports [EPERM] for it while the
    two real screenshots are deleted. *)
Theorem directory_screenshot :
  count_prefix "Found 3 screenshots" (map (fun s => String.substring 1 (String.length s) s) (w_out dir_move_run.2)) = 1%nat /\
  dir_move_run.1 = Ret 0%Z /\
  w_fs dir_move_run.2 !! shot_dir = None /\
  w_fs dir_move_run.2 !! (screenshots </> "2024-05" </> "Screenshot folder.png") = Some (NDir true 64 1714557600) /\
  w_fs dir_move_run.2 !! (screenshots </> "2024-05" </> "Screenshot folder.png" </> "inside.txt") = Some (NFile 7 70 0) /\
  dir_delete_run.1 = Ret 0%Z /\
  count_prefix "Error deleting Screenshot folder.png: [Errno 1] Operation not permitted" (w_out dir_delete_run.2) = 1%nat /\
  w_fs dir_delete_run.2 !! shot_dir = Some (NDir true 64 1714557600) /\
  w_fs dir_delete_run.2 !! shot_may = None /\ w_fs dir_delete_run.2 !! shot_june = None.
Proof. vm_compute. repeat split. Qed.

End Scenarios.
